(** * liveusb-creator: the job/state coordinator of [liveusb/gui.py]

    A shallow embedding of the classes of [src/liveusb/gui.py] that carry
    the program's state (ReleaseDownload, ReleaseWriter, Release,
    ReleaseListProxy, USBDrive, LiveUSBData), followed by the properties
    the specification states about them.

    Conventions of the embedding.
    - A Python object is a record; a method is a computation in the monad
      [M S], which threads the object [S], records every [signal.emit()] and
      every call into an external collaborator in a trace, and can raise a
      Python exception.  What is assigned before a [raise] stays assigned.
    - Python [None] stored in a numeric attribute is [None : option Z].
      The progress counters of the download are byte counts; the float
      literal [-1.0] is the integer -1 (Python compares int and float
      exactly).  The progress of the writer is a float, with IEEE
      comparison: a NaN differs from every float, itself included.
    - An object handed over by a collaborator in the [args] of an
      exception is a [str], an [int] or an object of some other type.
    - [USBDrive] objects live in a store and are named by their address:
      the class defines no [__eq__], so Python compares them by identity. *)

From Stdlib Require Import Floats ZArith DecimalString Bool List String Lia.
Import ListNotations.
Local Open Scope string_scope.
Local Open Scope Z_scope.
Local Open Scope list_scope.

Set Implicit Arguments.

(** ** Python outcomes and list indexing *)

(** The objects found in the [args] of an exception: a [str], an [int],
    or an object of another type (None, a float, a tuple, bytes, another
    exception ...), which equals no [str] and is given by the text that
    [str()] returns for it. *)
Inductive object : Type :=
| PyStr (s : string)
| PyInt (z : Z)
| PyOther (text : string).

(** [str(value)]: an [int] in decimal, with its sign when negative. *)
Definition str (value : object) : string :=
  match value with
  | PyStr s => s
  | PyInt z => NilZero.string_of_int (Z.to_int z)
  | PyOther text => text
  end.

Inductive exn : Type :=
| IndexError
| TypeError
| Exception (args : list object) (* an error of a collaborator, with [e.args] *)
| Unallocated (* an address outside the store: never raised by Python *).

Inductive outcome (A : Type) : Type :=
| Return (a : A)
| Raise (e : exn).
Arguments Return {A} a.
Arguments Raise {A} e.

(** [l[i]] with Python's negative indices. *)
Definition py_getitem {A : Type} (l : list A) (i : Z) : outcome A :=
  let n := Z.of_nat (List.length l) in
  let j := if i <? 0 then i + n else i in
  if (0 <=? j) && (j <? n)
  then match nth_error l (Z.to_nat j) with
       | Some a => Return a
       | None => Raise IndexError
       end
  else Raise IndexError.

(** [value in l] for a list of strings. *)
Definition py_in (value : string) (l : list string) : bool :=
  existsb (String.eqb value) l.

(** [value in l] for any object and a list of [str]: only a [str] equals
    a [str]. *)
Definition py_object_in (value : object) (l : list string) : bool :=
  match value with
  | PyStr s => py_in s l
  | PyInt _ | PyOther _ => false
  end.

(** [len(s)] of a string. *)
Definition py_len (s : string) : Z := Z.of_nat (String.length s).

(** ** Signals and external calls *)

Inductive Event : Type :=
(* ReleaseDownload *)
| Download_runningChanged
| Download_currentChanged
| Download_maximumChanged
| Download_pathChanged
(* ReleaseWriter *)
| Writer_runningChanged
| Writer_currentChanged
| Writer_statusChanged
| Writer_finishedChanged
(* Release *)
| Release_infoChanged
| Release_warningChanged
| Release_errorChanged
(* USBDrive *)
| Drive_beingRestoredChanged
(* LiveUSBData *)
| Data_usbDrivesChanged
| Data_currentDriveChanged
| Data_driveToRestoreChanged
(* calls that leave the modelled classes *)
| live_set_iso (iso : string)
| live_log_exception (e : exn)
| live_restore_drive (device : string)
| grabber_start
| worker_start
| worker_terminate.

(** The events that are Qt change notifications. *)
Definition is_notification (e : Event) : bool :=
  match e with
  | live_set_iso _ | live_log_exception _ | live_restore_drive _
  | grabber_start | worker_start | worker_terminate => false
  | _ => true
  end.

Definition notifications (t : list Event) : list Event :=
  filter is_notification t.

(** ** The method monad *)

Record run (S A : Type) : Type := Run {
  result : outcome A;
  final : S;
  trace : list Event
}.
Arguments Run {S A} result final trace.

Definition M (S A : Type) : Type := S -> run S A.

Definition ret {S A : Type} (a : A) : M S A :=
  fun s => Run (Return a) s [].

Definition bind {S A B : Type} (m : M S A) (k : A -> M S B) : M S B :=
  fun s =>
    match m s with
    | Run (Return a) s1 t1 =>
        match k a s1 with
        | Run o s2 t2 => Run o s2 (t1 ++ t2)
        end
    | Run (Raise e) s1 t1 => Run (Raise e) s1 t1
    end.

Definition self {S : Type} : M S S :=
  fun s => Run (Return s) s [].

Definition assign {S : Type} (f : S -> S) : M S unit :=
  fun s => Run (Return tt) (f s) [].

Definition emit {S : Type} (e : Event) : M S unit :=
  fun s => Run (Return tt) s [e].

Definition raise {S A : Type} (e : exn) : M S A :=
  fun s => Run (Raise e) s [].

Definition lift {S A : Type} (o : outcome A) : M S A :=
  fun s => Run o s [].

(** [try: body except Exception as e: handler e]. *)
Definition try_except {S A : Type} (body : M S A) (handler : exn -> M S A)
    : M S A :=
  fun s =>
    match body s with
    | Run (Return a) s1 t1 => Run (Return a) s1 t1
    | Run (Raise e) s1 t1 =>
        match handler e s1 with
        | Run o s2 t2 => Run o s2 (t1 ++ t2)
        end
    end.

(** Run a method of a sub-object held in an attribute of [S]. *)
Definition within {S T A : Type} (get : S -> T) (set : T -> S -> S)
    (m : M T A) : M S A :=
  fun s =>
    match m (get s) with
    | Run o x t => Run o (set x s) t
    end.

Declare Scope py_scope.
Delimit Scope py_scope with py.
Notation "x <- m ;; k" := (bind m (fun x => k))
  (at level 61, m at next level, right associativity) : py_scope.
Notation "m ;; k" := (bind m (fun _ => k))
  (at level 61, right associativity) : py_scope.
Local Open Scope py_scope.

(** [if c: body] without an [else]. *)
Definition when {S : Type} (c : bool) (body : M S unit) : M S unit :=
  if c then body else ret tt.

(** [for x in l: body x]. *)
Fixpoint for_each {S A : Type} (l : list A) (body : A -> M S unit) : M S unit :=
  match l with
  | [] => ret tt
  | x :: l' => body x ;; for_each l' body
  end.

(** ** class ReleaseDownload *)

Module ReleaseDownload.

(** [finished] is the instance attribute that the assignment
    [r.download.finished = False] of [LiveUSBData.currentDrive] creates;
    the class declares none, so it is absent ([None]) until then.
    [beingCancelled] is the flag of the download thread [_grabber]. *)
Record t : Type := mk {
  _running : bool;
  _current : option Z;
  _maximum : option Z;
  _path : string;
  finished : option bool;
  beingCancelled : bool
}.

Definition set_running (v : bool) (d : t) : t :=
  mk v (_current d) (_maximum d) (_path d) (finished d) (beingCancelled d).
Definition set_current (v : option Z) (d : t) : t :=
  mk (_running d) v (_maximum d) (_path d) (finished d) (beingCancelled d).
Definition set_maximum (v : option Z) (d : t) : t :=
  mk (_running d) (_current d) v (_path d) (finished d) (beingCancelled d).
Definition set_path (v : string) (d : t) : t :=
  mk (_running d) (_current d) (_maximum d) v (finished d) (beingCancelled d).
Definition set_finished (v : option bool) (d : t) : t :=
  mk (_running d) (_current d) (_maximum d) (_path d) v (beingCancelled d).
Definition set_beingCancelled (v : bool) (d : t) : t :=
  mk (_running d) (_current d) (_maximum d) (_path d) (finished d) v.

(** The class attributes: the state of a fresh object. *)
Definition init : t := mk false (Some (-1)) (Some (-1)) "" None false.

(** [@path.setter] *)
Definition path_setter (value : string) : M t unit :=
  d <- self ;;
  when (negb (String.eqb (_path d) value))
    (assign (set_path value) ;;
     emit (live_set_iso value) ;;
     emit Download_pathChanged).

Definition reset : M t unit :=
  assign (set_running false) ;;
  assign (set_current (Some (-1))) ;;
  assign (set_maximum (Some (-1))) ;;
  path_setter "" ;;
  emit Download_runningChanged ;;
  emit Download_currentChanged ;;
  emit Download_maximumChanged.

Definition start (size : option Z) : M t unit :=
  assign (set_maximum size) ;;
  assign (set_running true) ;;
  emit Download_maximumChanged ;;
  emit Download_runningChanged.

(** [self._current < amount_read] raises TypeError when [_current] is
    [None]. *)
Definition update (amount_read : Z) : M t unit :=
  d <- self ;;
  match _current d with
  | None => raise TypeError
  | Some current =>
      when (current <? amount_read)
        (assign (set_current (Some amount_read)) ;;
         emit Download_currentChanged)
  end.

Definition end_ : M t unit :=
  d <- self ;;
  assign (set_current (_maximum d)) ;;
  emit Download_currentChanged ;;
  assign (set_running false) ;;
  emit Download_runningChanged.

Definition childFinished (iso : string) : M t unit :=
  reset ;;
  path_setter iso ;;
  assign (set_running false) ;;
  emit Download_runningChanged.

(** [self.parent().path] is [self.path]: Release.path reads it back. *)
Definition run : M t unit :=
  d <- self ;;
  when (py_len (_path d) <=? 0) (emit grabber_start).

Definition cancel : M t unit :=
  assign (set_beingCancelled true) ;;
  reset.

(** The value of [progress] read after each call of a run of [update]
    calls; [None] once a call has raised. *)
Fixpoint observed (d : t) (amounts : list Z) : list (option Z) :=
  match amounts with
  | [] => []
  | v :: rest =>
      match update v d with
      | Run (Return _) d' _ => _current d' :: observed d' rest
      | Run (Raise _) _ _ => [None]
      end
  end.

End ReleaseDownload.

(** ** class ReleaseWriter *)

Module ReleaseWriter.

Record t : Type := mk {
  _running : bool;
  _current : float;
  _status : string;
  _finished : bool
}.

Definition set_running (v : bool) (w : t) : t :=
  mk v (_current w) (_status w) (_finished w).
Definition set_current (v : float) (w : t) : t :=
  mk (_running w) v (_status w) (_finished w).
Definition set_status (v : string) (w : t) : t :=
  mk (_running w) (_current w) v (_finished w).
Definition set_finished (v : bool) (w : t) : t :=
  mk (_running w) (_current w) (_status w) v.

Definition init : t := mk false (-1)%float "" false.

Definition reset : M t unit :=
  assign (set_running false) ;;
  assign (set_current (-1)%float) ;;
  emit Writer_runningChanged ;;
  emit Writer_currentChanged.

(** [@running.setter] *)
Definition running_setter (value : bool) : M t unit :=
  w <- self ;;
  when (negb (Bool.eqb (_running w) value))
    (assign (set_running value) ;; emit Writer_runningChanged).

(** [@progress.setter]: [value != self._current] on floats, true
    whenever one of them is a NaN. *)
Definition progress_setter (value : float) : M t unit :=
  w <- self ;;
  when (negb (PrimFloat.eqb value (_current w)))
    (assign (set_current value) ;; emit Writer_currentChanged).

(** [@status.setter] *)
Definition status_setter (s : string) : M t unit :=
  w <- self ;;
  when (negb (String.eqb (_status w) s))
    (assign (set_status s) ;; emit Writer_statusChanged).

(** [@finished.setter] *)
Definition finished_setter (value : bool) : M t unit :=
  w <- self ;;
  when (negb (Bool.eqb (_finished w) value))
    (assign (set_finished value) ;; emit Writer_finishedChanged).

Definition run : M t unit :=
  assign (set_running true) ;;
  assign (set_current 0%float) ;;
  emit Writer_runningChanged ;;
  emit Writer_currentChanged ;;
  status_setter "Writing" ;;
  emit worker_start.

Definition cancel : M t unit :=
  emit worker_terminate ;;
  reset.

End ReleaseWriter.

(** ** class Release *)

Module Release.

(** The release description [_data], with the keys the methods below
    read. *)
Record Data : Type := mkData {
  name : string;
  summary : string;
  description : string;
  version : string;
  source : string
}.

(** [_path] is the class attribute [Release._path]; no method assigns it
    ([path] is kept in the download object). *)
Record t : Type := mk {
  _index : Z;
  _size : Z;
  _data : Data;
  _path : string;
  _info : list string;
  _warning : list string;
  _error : list string;
  _download : ReleaseDownload.t;
  _writer : ReleaseWriter.t
}.

Definition set_info (v : list string) (r : t) : t :=
  mk (_index r) (_size r) (_data r) (_path r) v (_warning r) (_error r)
     (_download r) (_writer r).
Definition set_warning (v : list string) (r : t) : t :=
  mk (_index r) (_size r) (_data r) (_path r) (_info r) v (_error r)
     (_download r) (_writer r).
Definition set_error (v : list string) (r : t) : t :=
  mk (_index r) (_size r) (_data r) (_path r) (_info r) (_warning r) v
     (_download r) (_writer r).
Definition set_download (v : ReleaseDownload.t) (r : t) : t :=
  mk (_index r) (_size r) (_data r) (_path r) (_info r) (_warning r)
     (_error r) v (_writer r).
Definition set_writer (v : ReleaseWriter.t) (r : t) : t :=
  mk (_index r) (_size r) (_data r) (_path r) (_info r) (_warning r)
     (_error r) (_download r) v.

(** Methods of [self._download] and of [self._writer]. *)
Definition download {A : Type} (m : M ReleaseDownload.t A) : M t A :=
  within _download set_download m.
Definition writer {A : Type} (m : M ReleaseWriter.t A) : M t A :=
  within _writer set_writer m.

Definition addInfo (value : string) : M t unit :=
  r <- self ;;
  when (negb (py_in value (_info r)))
    (assign (set_info (_info r ++ [value])) ;; emit Release_infoChanged).

Definition addWarning (value : string) : M t unit :=
  r <- self ;;
  when (negb (py_in value (_warning r)))
    (assign (set_warning (_warning r ++ [value])) ;;
     emit Release_warningChanged).

(** The test is on [value], what is appended is [str(value)]. *)
Definition addError (value : object) : M t unit :=
  r <- self ;;
  when (negb (py_object_in value (_error r)))
    (assign (set_error (_error r ++ [str value])) ;;
     emit Release_errorChanged).

(** [@pyqtProperty path] *)
Definition path (r : t) : string := ReleaseDownload._path (_download r).

(** [@pyqtProperty readyToWrite] *)
Definition readyToWrite (r : t) : bool := negb (py_len (path r) =? 0).

(** [@pyqtProperty isSeparator], [@pyqtProperty isLocal] *)
Definition isSeparator (r : t) : bool := String.eqb (source (_data r)) "".
Definition isLocal (r : t) : bool := String.eqb (source (_data r)) "Local".

Definition get : M t unit :=
  r <- self ;;
  when (py_len (_path r) <=? 0) (download ReleaseDownload.run).

Section Localized.

(** [_], the gettext function of the package, [text.format_map(CONFIG)]
    and the list [CONFIG['CATEGORIES']['main']] of the configuration
    file: none of them is part of the sources at hand. *)
Variable gettext : string -> string.
Variable format_CONFIG : string -> string.
Variable CONFIG_CATEGORIES_main : list string.

Definition init (index : Z) (data : Data) : t :=
  final
    (addWarning
       (gettext "You are about to perform a destructive install. This will erase all data and partitions on your USB drive")
       (mk index 0 data "" [] [] []
           ReleaseDownload.init ReleaseWriter.init)).

Definition write : M t unit :=
  assign (set_info []) ;;
  assign (set_warning []) ;;
  assign (set_error []) ;;
  emit Release_infoChanged ;;
  emit Release_errorChanged ;;
  emit Release_warningChanged ;;
  addInfo
    (gettext (format_CONFIG "After you have tried or installed {DISTRO}, you can use {DISTRO} LiveUSB Creator to restore your flash drive to its factory settings.")) ;;
  writer ReleaseWriter.run.

(** [@pyqtProperty category] *)
Definition category (r : t) : string :=
  if py_in (source (_data r)) CONFIG_CATEGORIES_main then "main"
  else if String.eqb (source (_data r)) "Spins"
  then gettext "<b>Fedora Spins </b> &nbsp; Alternative desktops for Fedora"
  else if String.eqb (source (_data r)) "Labs"
  then gettext "<b>Fedora Labs </b> &nbsp; Functional bundles for Fedora"
  else "<b>Other</b>".

(** [@pyqtProperty status] *)
Definition status (r : t) : string :=
  if negb (ReleaseWriter._finished (_writer r))
     && negb (ReleaseDownload._running (_download r))
     && negb (readyToWrite r)
     && negb (ReleaseWriter._running (_writer r))
     && (Z.of_nat (List.length (_error r)) =? 0)
  then gettext "Starting"
  else if ReleaseDownload._running (_download r)
  then gettext "Downloading"
  else if Z.of_nat (List.length (_error r)) >? 0
  then gettext "Error"
  else if readyToWrite r
          && negb (ReleaseWriter._running (_writer r))
          && negb (ReleaseWriter._finished (_writer r))
  then gettext "Ready to write"
  else if negb (py_len (ReleaseWriter._status (_writer r)) =? 0)
  then ReleaseWriter._status (_writer r)
  else gettext "Finished".

End Localized.

(** [ReleaseDownload.childError], run on the release that owns the
    download. *)
Definition download_childError (err : string) : M t unit :=
  download ReleaseDownload.reset ;;
  addError (PyStr err).

End Release.

(** ** class ReleaseWriterThread *)

Module ReleaseWriterThread.

(** What one call [self.live.dd_image(self.update_progress)] does: it
    calls the progress callback with these values, then returns, or
    raises an exception with the given [args]. *)
Record dd_image : Type := mk_dd_image {
  progress_values : list float;
  raised : option (list object)
}.

(** The thread's [parent] is the ReleaseWriter, whose [release] is the
    Release the methods below run on. *)
Definition update_progress (value : float) : M Release.t unit :=
  Release.writer (ReleaseWriter.progress_setter value).

Definition live_dd_image (dd : dd_image) : M Release.t unit :=
  for_each (progress_values dd) update_progress ;;
  match raised dd with
  | Some args => raise (Exception args)
  | None => ret tt
  end.

Definition ddImage (dd : dd_image) : M Release.t unit :=
  live_dd_image dd ;;
  Release.writer (ReleaseWriter.status_setter "Finished!") ;;
  Release.writer (ReleaseWriter.finished_setter true).

(** [e.args]; [ddImage] raises none of the exceptions of Python
    itself, which carry their message. *)
Definition args (e : exn) : list object :=
  match e with
  | Exception args => args
  | IndexError => [PyStr "list index out of range"]
  | TypeError => [PyStr "unsupported operand type(s)"]
  | Unallocated => []
  end.

(** [e.args[0]] raises IndexError for an exception without arguments:
    the handler stops there, and the assignment after the [try]
    statement is not reached. *)
Definition run (dd : dd_image) : M Release.t unit :=
  try_except (ddImage dd)
    (fun e =>
       value <- lift (py_getitem (args e) 0) ;;
       Release.addError value ;;
       emit (live_log_exception e)) ;;
  Release.writer (ReleaseWriter.running_setter false).

(** [ReleaseWriter.run] followed by the thread it starts. *)
Definition write_job (dd : dd_image) : M Release.t unit :=
  Release.writer ReleaseWriter.run ;;
  run dd.

End ReleaseWriterThread.

(** ** class ReleaseListProxy *)

Module ReleaseListProxy.

Section Localized.

Variable gettext : string -> string.
Variable CONFIG_CATEGORIES_main : list string.

(** [get(i)] over [self.parent().releaseData]; the result [None] is
    Python's [None]. *)
Definition get (releaseData : list Release.t) (i : Z)
    : outcome (option Release.t) :=
  if (i <? 0) || (i >=? Z.of_nat (List.length releaseData))
  then Return None
  else
    match py_getitem releaseData i with
    | Raise e => Raise e
    | Return r =>
        if py_len (Release.category gettext CONFIG_CATEGORIES_main r) =? 0
        then Return None
        else
          match py_getitem releaseData i with
          | Raise e => Raise e
          | Return r' => Return (Some r')
          end
    end.

(** [rowCount] over the row count of the source model. *)
Definition rowCount (_frontPage : bool) (sourceRows : Z) : Z :=
  if _frontPage && (sourceRows >? 3) then 3 else sourceRows.

End Localized.

End ReleaseListProxy.

(** ** class USBDrive *)

Module USBDrive.

(** The drive description [info] of [self.live.drives], with the
    attributes the program reads. *)
Record DriveInfo : Type := mkInfo {
  device : string;
  friendlyName : string;
  size : Z;
  isIso9660 : bool
}.

Record t : Type := mk {
  _name : string;
  _drive : DriveInfo;
  _beingRestored : bool
}.

Definition set_beingRestored (v : bool) (d : t) : t :=
  mk (_name d) (_drive d) v.

Definition restoreCallback : M t unit :=
  assign (set_beingRestored false) ;;
  emit Drive_beingRestoredChanged.

Definition restore : M t unit :=
  assign (set_beingRestored true) ;;
  emit Drive_beingRestoredChanged ;;
  d <- self ;;
  emit (live_restore_drive (device (_drive d))).

End USBDrive.

(** ** class LiveUSBData *)

Module LiveUSBData.

Import USBDrive.

(** What [self.live.drive] holds: [None], a device name (assigned by the
    setter of [currentDrive]) or a drive description (assigned by
    [USBDeviceCallback]). *)
Inductive target : Type :=
| NoTarget
| Device (dev : string)
| Info (info : DriveInfo).

(** Truth value of [self.live.drive]. *)
Definition truthy (v : target) : bool :=
  match v with
  | NoTarget => false
  | Device dev => negb (py_len dev =? 0)
  | Info _ => true
  end.

(** [store] holds every USBDrive object created so far; the address of
    an object is its position.  [live_drives] is [self.live.drives], in
    the order [items()] yields it. *)
Record t : Type := mk {
  live_drive : target;
  live_drives : list (string * DriveInfo);
  store : list USBDrive.t;
  _usbDrives : list nat;
  _driveToRestore : option nat;
  _currentIndex : Z;
  _currentDrive : Z;
  releaseData : list Release.t
}.

Definition set_live_drive (v : target) (s : t) : t :=
  mk v (live_drives s) (store s) (_usbDrives s) (_driveToRestore s)
     (_currentIndex s) (_currentDrive s) (releaseData s).
Definition set_store (v : list USBDrive.t) (s : t) : t :=
  mk (live_drive s) (live_drives s) v (_usbDrives s) (_driveToRestore s)
     (_currentIndex s) (_currentDrive s) (releaseData s).
Definition set_usbDrives (v : list nat) (s : t) : t :=
  mk (live_drive s) (live_drives s) (store s) v (_driveToRestore s)
     (_currentIndex s) (_currentDrive s) (releaseData s).
Definition set_driveToRestore (v : option nat) (s : t) : t :=
  mk (live_drive s) (live_drives s) (store s) (_usbDrives s) v
     (_currentIndex s) (_currentDrive s) (releaseData s).
Definition set_currentDrive (v : Z) (s : t) : t :=
  mk (live_drive s) (live_drives s) (store s) (_usbDrives s)
     (_driveToRestore s) (_currentIndex s) v (releaseData s).
Definition set_releaseData (v : list Release.t) (s : t) : t :=
  mk (live_drive s) (live_drives s) (store s) (_usbDrives s)
     (_driveToRestore s) (_currentIndex s) (_currentDrive s) v.

(** The object at an address. *)
Definition at_ (a : nat) : M t USBDrive.t :=
  s <- self ;;
  match nth_error (store s) a with
  | Some d => ret d
  | None => raise Unallocated
  end.

(** [USBDrive(self, name, drive)]: a new object, at a new address. *)
Definition new_USBDrive (name : string) (drive : DriveInfo) : M t nat :=
  s <- self ;;
  assign (set_store (store s ++ [USBDrive.mk name drive false])) ;;
  ret (List.length (store s)).

(** [l1 == l2] for lists of USBDrive objects: same length and, element
    by element, the same object. *)
Fixpoint same_objects (l1 l2 : list nat) : bool :=
  match l1, l2 with
  | [], [] => true
  | a1 :: l1', a2 :: l2' => Nat.eqb a1 a2 && same_objects l1' l2'
  | _, _ => false
  end.

(** [enumerate(l)] *)
Definition enumerate {A : Type} (l : list A) : list (Z * A) :=
  combine (map Z.of_nat (seq 0 (List.length l))) l.

(** [r.download.finished = False] *)
Definition clear_download_finished (r : Release.t) : Release.t :=
  Release.set_download
    (ReleaseDownload.set_finished (Some false) (Release._download r)) r.

(** [@currentDrive.setter] *)
Definition currentDrive_setter (value : Z) : M t unit :=
  s <- self ;;
  if Z.of_nat (List.length (_usbDrives s)) =? 0
  then
    assign (set_live_drive NoTarget) ;;
    assign (set_currentDrive (-1)) ;;
    emit Data_currentDriveChanged
  else
    let value :=
      if value >? Z.of_nat (List.length (_usbDrives s)) then 0 else value in
    when (negb (_currentDrive s =? value))
      (assign (set_currentDrive value) ;;
       when (Z.of_nat (List.length (_usbDrives s)) >? 0)
         (s' <- self ;;
          a <- lift (py_getitem (_usbDrives s') (_currentDrive s')) ;;
          d <- at_ a ;;
          assign (set_live_drive (Device (device (_drive d))))) ;;
       emit Data_currentDriveChanged ;;
       s' <- self ;;
       assign (set_releaseData (map clear_download_finished (releaseData s')))).

Section Formatting.

(** [format_1f n d] is the text of ['%.1f' % (n / d)] for the float
    quotient of the drive's size [n] by [d], a power of 1000.0. *)
Variable format_1f : Z -> Z -> string.

(** The name given to a drive: its friendly name and its size. *)
Definition drive_name (info : DriveInfo) : string :=
  let usedSize := size info in
  String.append (friendlyName info)
    (if usedSize <? 1000 ^ 1
     then String.append " (" (String.append (format_1f usedSize (1000 ^ 0)) " B)")
     else if usedSize <? 1000 ^ 2
     then String.append " (" (String.append (format_1f usedSize (1000 ^ 1)) " KB)")
     else if usedSize <? 1000 ^ 3
     then String.append " (" (String.append (format_1f usedSize (1000 ^ 2)) " MB)")
     else if usedSize <? 1000 ^ 4
     then String.append " (" (String.append (format_1f usedSize (1000 ^ 3)) " GB)")
     else String.append " (" (String.append (format_1f usedSize (1000 ^ 4)) " TB)")).

(** The loop that fills [tmpDrives]. *)
Fixpoint candidates (items : list (string * DriveInfo)) : M t (list nat) :=
  match items with
  | [] => ret []
  | (_, info) :: rest =>
      a <- new_USBDrive (drive_name info) info ;;
      tmpDrives <- candidates rest ;;
      ret (a :: tmpDrives)
  end.

Definition USBDeviceCallback : M t unit :=
  s <- self ;;
  previouslySelected <-
    (if Z.of_nat (List.length (_usbDrives s)) >? 0
     then
       a <- lift (py_getitem (_usbDrives s) (_currentDrive s)) ;;
       d <- at_ a ;;
       ret (device (_drive d))
     else ret "") ;;
  restoring <-
    match _driveToRestore s with
    | None => ret false
    | Some a => d <- at_ a ;; ret (_beingRestored d)
    end ;;
  if restoring then ret tt
  else
    tmpDrives <- candidates (live_drives s) ;;
    when (negb (same_objects tmpDrives (_usbDrives s)))
      (assign (set_usbDrives tmpDrives) ;;
       emit Data_usbDrivesChanged ;;
       assign (set_driveToRestore None) ;;
       currentDrive_setter (-1) ;;
       s1 <- self ;;
       for_each (enumerate (_usbDrives s1))
         (fun ia =>
            drive <- at_ (snd ia) ;;
            when (String.eqb (device (_drive drive)) previouslySelected)
              (currentDrive_setter (fst ia)) ;;
            when (isIso9660 (_drive drive))
              (assign (set_driveToRestore (Some (snd ia)))) ;;
            s' <- self ;;
            when ((_currentDrive s' =? -1) && negb (truthy (live_drive s')))
              (assign (set_live_drive (Info (_drive drive))))) ;;
       emit Data_currentDriveChanged ;;
       emit Data_driveToRestoreChanged).

End Formatting.

(** The selected index is -1 or a position of the drive list. *)
Definition selection_valid (s : t) : Prop :=
  _currentDrive s = -1
  \/ 0 <= _currentDrive s < Z.of_nat (List.length (_usbDrives s)).

(** Every address the object holds is the address of an object. *)
Definition allocated (s : t) : Prop :=
  (forall a, In a (_usbDrives s) -> (a < List.length (store s))%nat)
  /\ (forall a, _driveToRestore s = Some a -> (a < List.length (store s))%nat).

(** A restore is running on the drive that awaits one. *)
Definition restore_in_progress (s : t) : Prop :=
  exists a d,
    _driveToRestore s = Some a
    /\ nth_error (store s) a = Some d
    /\ _beingRestored d = true.

(** The text, the description and the size of each drive of the list. *)
Definition listed (s : t) : list (option (string * DriveInfo)) :=
  map (fun a => option_map (fun d => (_name d, _drive d)) (nth_error (store s) a))
      (_usbDrives s).

End LiveUSBData.

(** * The specification's side *)

(** ** The decision table of Status (section 4.4 of the specification) *)

Module StatusTable.

(** The snapshot the table reads. *)
Record snapshot : Type := mk {
  writerFinished : bool;
  downloaderRunning : bool;
  readyToWrite : bool;
  writerRunning : bool;
  errorListEmpty : bool;
  writerStatus : string
}.

Definition of_release (r : Release.t) : snapshot :=
  mk (ReleaseWriter._finished (Release._writer r))
     (ReleaseDownload._running (Release._download r))
     (Release.readyToWrite r)
     (ReleaseWriter._running (Release._writer r))
     (match Release._error r with [] => true | _ :: _ => false end)
     (ReleaseWriter._status (Release._writer r)).

(** The six rows, first match wins; the labels go through gettext as
    the program's do. *)
Definition rows (gettext : string -> string) (x : snapshot)
    : list (bool * string) :=
  [ (negb (writerFinished x) && negb (downloaderRunning x)
     && negb (readyToWrite x) && negb (writerRunning x)
     && errorListEmpty x,
     gettext "Starting");
    (downloaderRunning x, gettext "Downloading");
    (negb (errorListEmpty x), gettext "Error");
    (readyToWrite x && negb (writerRunning x) && negb (writerFinished x),
     gettext "Ready to write");
    (negb (String.eqb (writerStatus x) ""), writerStatus x);
    (true, gettext "Finished") ].

Fixpoint first_match (table : list (bool * string)) : option string :=
  match table with
  | [] => None
  | (true, label) :: _ => Some label
  | (false, _) :: rest => first_match rest
  end.

Definition decide (gettext : string -> string) (x : snapshot)
    : option string :=
  first_match (rows gettext x).

End StatusTable.

(** ** The running maximum of a progress tracker (section 4.1) *)

(** The maximum of the initial value and of the first [k] amounts. *)
Definition maximum_so_far (initial : Z) (amounts : list Z) (k : nat) : Z :=
  fold_left Z.max (firstn k amounts) initial.

(** The pre-start values of a download: what [reset] restores. *)
Definition idle (d : ReleaseDownload.t) : Prop :=
  ReleaseDownload._running d = false
  /\ ReleaseDownload._current d = Some (-1)
  /\ ReleaseDownload._maximum d = Some (-1)
  /\ ReleaseDownload._path d = "".

(** ** What a failed write leaves behind (section 4.3) *)



(** * Concrete objects *)

Module Sample.

(** gettext with no catalogue: every message is its own translation. *)
Definition untranslated (msg : string) : string := msg.

(** A rendering of sizes for the samples; the properties below hold for
    every rendering. *)
Definition whole_1f (n d : Z) : string :=
  if n / d <? 10 then "N.0" else "NN.0".

Definition main_categories : list string := ["Antergos"; "Antergos Minimal"].

Definition full : Release.Data :=
  Release.mkData "Antergos" "Fully functional Live Antergos Environment"
                 "<ul></ul>" "17.1" "Antergos".
Definition custom : Release.Data :=
  Release.mkData "Custom OS..." "Pick a file from your drive(s)" "" ""
                 "Local".

Definition release0 : Release.t := Release.init untranslated 0 full.
Definition release1 : Release.t := Release.init untranslated 1 custom.

(** [release0] while its image is being fetched. *)
Definition fetching : Release.t :=
  final (Release.download (ReleaseDownload.start (Some 1000000)) release0).

(** [release0] after a write that completed. *)
Definition written : Release.t :=
  final (ReleaseWriterThread.write_job
           (ReleaseWriterThread.mk_dd_image [0.5%float; 1%float] None) release0).


(** A write that fails with [OSError(28, 'No space left on device')]. *)
Definition no_space : ReleaseWriterThread.dd_image :=
  ReleaseWriterThread.mk_dd_image [0.25%float]
    (Some [PyInt 28; PyStr "No space left on device"]).

(** A write that fails with an exception raised without arguments. *)
Definition bare_failure : ReleaseWriterThread.dd_image :=
  ReleaseWriterThread.mk_dd_image [0.25%float] (Some []).

(** A download started with no size that has read 500 bytes. *)
Definition sizeless : ReleaseDownload.t :=
  final ((ReleaseDownload.start None ;; ReleaseDownload.update 500)
           ReleaseDownload.init).

Definition sdb : USBDrive.DriveInfo :=
  USBDrive.mkInfo "/dev/sdb" "SanDisk Cruzer" 8000000000 false.
Definition sdc : USBDrive.DriveInfo :=
  USBDrive.mkInfo "/dev/sdc" "Kingston DataTraveler" 16000000000 false.
Definition sdd : USBDrive.DriveInfo :=
  USBDrive.mkInfo "/dev/sdd" "Generic Flash Disk" 4000000000 true.

(** Three drives, the first one selected. *)
Definition three_drives : LiveUSBData.t :=
  LiveUSBData.mk (LiveUSBData.Device "/dev/sdb")
    [("/dev/sdb", sdb); ("/dev/sdc", sdc); ("/dev/sdd", sdd)]
    [USBDrive.mk "SanDisk Cruzer (8.0 GB)" sdb false;
     USBDrive.mk "Kingston DataTraveler (16.0 GB)" sdc false;
     USBDrive.mk "Generic Flash Disk (4.0 GB)" sdd false]
    [0%nat; 1%nat; 2%nat] (Some 2%nat) 0 0 [release0; release1].

(** Two drives, the first one selected, and a release already written
    to it. *)
Definition two_drives : LiveUSBData.t :=
  LiveUSBData.mk (LiveUSBData.Device "/dev/sdb")
    [("/dev/sdb", sdb); ("/dev/sdc", sdc)]
    [USBDrive.mk "SanDisk Cruzer (8.0 GB)" sdb false;
     USBDrive.mk "Kingston DataTraveler (16.0 GB)" sdc false]
    [0%nat; 1%nat] None 0 0 [written; release1].

(** Nothing plugged in yet, then one drive detected. *)
Definition no_drive : LiveUSBData.t :=
  LiveUSBData.mk LiveUSBData.NoTarget [] [] [] None 0 0 [release0].
Definition one_drive_plugged : LiveUSBData.t :=
  LiveUSBData.mk LiveUSBData.NoTarget [("/dev/sdb", sdb)] [] [] None 0 0
                 [release0].

(** The state after the pass that detects the drive plugged in. *)
Definition one_drive (format_1f : Z -> Z -> string) : LiveUSBData.t :=
  final (LiveUSBData.USBDeviceCallback format_1f one_drive_plugged).

(** The third drive of [three_drives] while it is being restored. *)
Definition restoring : LiveUSBData.t :=
  LiveUSBData.set_store
    [USBDrive.mk "SanDisk Cruzer (8.0 GB)" sdb false;
     USBDrive.mk "Kingston DataTraveler (16.0 GB)" sdc false;
     final (USBDrive.restore (USBDrive.mk "Generic Flash Disk (4.0 GB)" sdd false))]
    three_drives.

End Sample.

(** * More of the program *)

(** ** Python strings *)

(** [s.startswith(prefix)] *)
Fixpoint py_startswith (s prefix : string) : bool :=
  match prefix, s with
  | EmptyString, _ => true
  | String a prefix', String b s' => Ascii.eqb a b && py_startswith s' prefix'
  | String _ _, EmptyString => false
  end.

(** [needle in hay] for two strings. *)
Fixpoint py_str_in (needle hay : string) : bool :=
  py_startswith hay needle
  || match hay with
     | EmptyString => false
     | String _ rest => py_str_in needle rest
     end.

(** [s[n:]] *)
Fixpoint py_from (n : nat) (s : string) : string :=
  match n, s with
  | O, _ => s
  | S n', String _ s' => py_from n' s'
  | S _, EmptyString => EmptyString
  end.

(** [l1 == l2] for two lists of strings. *)
Fixpoint py_list_eq (l1 l2 : list string) : bool :=
  match l1, l2 with
  | [], [] => true
  | a1 :: l1', a2 :: l2' => String.eqb a1 a2 && py_list_eq l1' l2'
  | _, _ => false
  end.

(** [d[key]] for a dict kept as the list of its items: the value, or
    [None] where Python raises KeyError. *)
Fixpoint py_dict_get {V : Type} (d : list (string * V)) (key : string)
    : option V :=
  match d with
  | [] => None
  | (k, v) :: rest => if String.eqb k key then Some v else py_dict_get rest key
  end.

(** ** Methods that emit further signals *)

(** The signals and calls the classes above do not use, beside theirs. *)
Inductive Signal : Type :=
| Core (e : Event)
| Release_pathChanged
| Release_sizeChanged
| Proxy_archChanged
| Proxy_nameFilterChanged
| Proxy_isFrontChanged
| Proxy_invalidateFilter
| Proxy_invalidate
| Model_beginResetModel
| Model_endResetModel
| Data_currentImageChanged.

Module Wide.

Record run (S A : Type) : Type := Run {
  result : outcome A;
  final : S;
  trace : list Signal
}.
Arguments Run {S A} result final trace.

Definition M (S A : Type) : Type := S -> run S A.

Definition ret {S A : Type} (a : A) : M S A :=
  fun s => Run (Return a) s [].

Definition bind {S A B : Type} (m : M S A) (k : A -> M S B) : M S B :=
  fun s =>
    match m s with
    | Run (Return a) s1 t1 =>
        match k a s1 with
        | Run o s2 t2 => Run o s2 (t1 ++ t2)
        end
    | Run (Raise e) s1 t1 => Run (Raise e) s1 t1
    end.

Definition self {S : Type} : M S S :=
  fun s => Run (Return s) s [].

Definition assign {S : Type} (f : S -> S) : M S unit :=
  fun s => Run (Return tt) (f s) [].

Definition emit {S : Type} (e : Signal) : M S unit :=
  fun s => Run (Return tt) s [e].

Definition raise {S A : Type} (e : exn) : M S A :=
  fun s => Run (Raise e) s [].

(** Run a method of a sub-object held in an attribute of [S]. *)
Definition within {S T A : Type} (get : S -> T) (set : T -> S -> S)
    (m : M T A) : M S A :=
  fun s =>
    match m (get s) with
    | Run o x t => Run o (set x s) t
    end.

Definition when {S : Type} (c : bool) (body : M S unit) : M S unit :=
  if c then body else ret tt.

End Wide.

(** A method of the classes above, its events kept. *)
Definition core {S A : Type} (m : M S A) : Wide.M S A :=
  fun s =>
    match m s with
    | Run o s1 t1 => Wide.Run o s1 (map Core t1)
    end.

Notation "x <~ m ;; k" := (Wide.bind m (fun x => k))
  (at level 61, m at next level, right associativity) : py_scope.
Notation "m ;;; k" := (Wide.bind m (fun _ => k))
  (at level 61, right associativity) : py_scope.

(** [for x in l: body x]. *)
Fixpoint wide_for_each {S A : Type} (l : list A) (body : A -> Wide.M S unit)
    : Wide.M S unit :=
  match l with
  | [] => Wide.ret tt
  | x :: l' => body x ;;; wide_for_each l' body
  end.

(** ** releases/antergos.py: the release descriptions *)

Module antergos.

(** One entry of [variants]; [version] and [filename] are keys that only
    the entries built by [getDownload] have. *)
Record variant : Type := mk_variant {
  url : string;
  sha256 : string;
  size : Z;
  variant_version : option string;
  filename : option string
}.

(** A release description, the dict [getProductDetails] and
    [get_flavors] build; [variants] is kept as the list of its items, in
    the order of the dict. *)
Record product : Type := mk_product {
  name : string;
  summary : string;
  description : string;
  version : string;
  releaseDate : string;
  logo : string;
  screenshots : list string;
  source : string;
  variants : list (string * variant)
}.

Definition getArch : string := "x86_64".

Section Localized.

Variable gettext : string -> string.

(** The entry [get_flavors] appends for an image of the user's own. *)
Definition custom : product :=
  mk_product (gettext "Custom OS...")
    (gettext "Pick a file from your drive(s)")
    (gettext "<p>Here you can choose a OS image from your hard drive to be written to your flash disk</p><p>Currently it is only supported to write raw disk images (.iso or .bin)</p>")
    "" "" "qrc:/icon_folder" [] "Local"
    [("", mk_variant "" "" 0 None None)].

(** [get_flavors(store)], given what [getProducts()] returns and the
    module's list [releases]: the list returned, and [releases]
    afterwards. *)
Definition get_flavors (products : list product) (store : bool)
    (releases : list product) : list product * list product :=
  let r := [] in
  let r := match products with [] => r | _ :: _ => r ++ products end in
  let r := r ++ [custom] in
  (r, if store && (Z.of_nat (List.length r) >? 1) then r else releases).

End Localized.

End antergos.

(** ** class ReleaseListProxy: the filters *)

Module ArchFilter.

Definition _archMap : list (string * list string) :=
  [("Intel 64bit", ["x86_64"]); ("Intel 32bit", ["i686"; "i386"])].

Record t : Type := mk {
  _archFilter : list string;
  _nameFilter : string;
  _frontPage : bool
}.

Definition set_archFilter (v : list string) (p : t) : t :=
  mk v (_nameFilter p) (_frontPage p).
Definition set_nameFilter (v : string) (p : t) : t :=
  mk (_archFilter p) v (_frontPage p).
Definition set_frontPage (v : bool) (p : t) : t :=
  mk (_archFilter p) (_nameFilter p) v.

(** The class attributes. *)
Definition init : t := mk ["x86_64"] "" true.

(** [self._archMap[name]]; KeyError is raised as an exception whose
    argument is the key. *)
Definition archMap_at {S : Type} (name : string) : Wide.M S (list string) :=
  match py_dict_get _archMap name with
  | Some abbrs => Wide.ret abbrs
  | None => Wide.raise (Exception [PyStr name])
  end.

(** The loop of the getter of [archFilter]. *)
Fixpoint name_of (items : list (string * list string)) (filter : list string)
    : option string :=
  match items with
  | [] => None
  | (name, abbrs) :: rest =>
      if py_list_eq abbrs filter then Some name else name_of rest filter
  end.

(** [@pyqtProperty archFilter] *)
Definition archFilter : Wide.M t string :=
  p <~ Wide.self ;;
  match name_of _archMap (_archFilter p) with
  | Some name => Wide.ret name
  | None =>
      abbrs <~ archMap_at "Intel 64bit" ;;
      Wide.assign (set_archFilter abbrs) ;;;
      Wide.ret "Intel 64bit"
  end.

(** [@archFilter.setter].  The second test of its condition compares the
    name [self.archFilter], a str, with a list: they are never equal, so
    the test only runs the getter. *)
Definition archFilter_setter (value : string) : Wide.M t unit :=
  match py_dict_get _archMap value with
  | None => Wide.ret tt
  | Some _ =>
      _ <~ archFilter ;;
      abbrs <~ archMap_at value ;;
      Wide.assign (set_archFilter abbrs) ;;;
      Wide.emit Proxy_archChanged ;;;
      Wide.emit Proxy_invalidateFilter
  end.

(** [@nameFilter.setter] *)
Definition nameFilter_setter (value : string) : Wide.M t unit :=
  p <~ Wide.self ;;
  Wide.when (negb (String.eqb value (_nameFilter p)))
    (Wide.assign (set_nameFilter value) ;;;
     Wide.emit Proxy_nameFilterChanged ;;;
     Wide.emit Proxy_invalidateFilter).

(** [@isFront.setter] *)
Definition isFront_setter (value : bool) : Wide.M t unit :=
  p <~ Wide.self ;;
  Wide.when (negb (Bool.eqb value (_frontPage p)))
    (Wide.assign (set_frontPage value) ;;;
     Wide.emit Proxy_isFrontChanged ;;;
     Wide.emit Proxy_invalidate).

End ArchFilter.

(** ** class Release: the methods that read the variants *)

Module ReleaseVariants.

Import antergos.

(** The keys of [_data] kept in a [Release.t]. *)
Definition to_data (d : product) : Release.Data :=
  Release.mkData (name d) (summary d) (description d) (version d) (source d).

Definition isLocal (d : product) : bool := String.eqb (source d) "Local".
Definition isSeparator (d : product) : bool := String.eqb (source d) "".

(** [variant in self._data['variants'].keys()] *)
Definition has_variant (d : product) (abbr : string) : bool :=
  existsb (fun item => String.eqb (fst item) abbr) (variants d).

(** [@pyqtProperty arch] *)
Definition arch (d : product) : list string :=
  flat_map
    (fun entry =>
       flat_map (fun abbr => if has_variant d abbr then [fst entry] else [])
                (snd entry))
    ArchFilter._archMap.

(** The loop of [get_url] and of [size]: the first variant, in the order
    of the dict, whose key is an abbreviation of the architecture the
    proxy's [archFilter] names; [None] when the loop ends without a
    [return]. *)
Fixpoint first_for_filter {A : Type} (field : variant -> A)
    (items : list (string * variant)) : Wide.M ArchFilter.t (option A) :=
  match items with
  | [] => Wide.ret None
  | (key, v) :: rest =>
      selected <~ ArchFilter.archFilter ;;
      abbrs <~ ArchFilter.archMap_at selected ;;
      if py_in key abbrs then Wide.ret (Some (field v))
      else first_for_filter field rest
  end.

(** [get_url]; the result [None] is Python's [None]. *)
Definition get_url (d : product) : Wide.M ArchFilter.t (option string) :=
  if isLocal d then Wide.ret (Some "")
  else first_for_filter url (variants d).

(** [@pyqtProperty size], for a release whose [_size] is given. *)
Definition size_of (_size : Z) (d : product) : Wide.M ArchFilter.t Z :=
  if negb (isLocal d)
  then
    found <~ first_for_filter size (variants d) ;;
    match found with
    | Some n => Wide.ret n
    | None => Wide.ret _size
    end
  else Wide.ret _size.

Section Platform.

(** [os.path.basename], [_] and [sys.platform.startswith('win')]. *)
Variable os_path_basename : string -> string.
Variable gettext : string -> string.
Variable win : bool.

(** [get_filename]: ['.iso' in None] and [os.path.basename(None)] raise
    TypeError. *)
Definition get_filename (d : product) : Wide.M ArchFilter.t string :=
  found <~ get_url d ;;
  match found with
  | None => Wide.raise TypeError
  | Some u =>
      if py_str_in ".iso" u
      then
        again <~ get_url d ;;
        match again with
        | None => Wide.raise TypeError
        | Some u' => Wide.ret (os_path_basename u')
        end
      else
        match py_dict_get (variants d) "x86_64" with
        | Some v =>
            match filename v with
            | Some f => Wide.ret f
            | None => Wide.ret ""
            end
        | None => Wide.ret ""
        end
  end.

(** [Release(parent, index, live, data)]: the warning is added before
    the file name is asked for. *)
Definition new (index : Z) (d : product) : Wide.M ArchFilter.t Release.t :=
  Wide.emit (Core Release_warningChanged) ;;;
  _ <~ get_filename d ;;
  Wide.ret (Release.init gettext index (to_data d)).

(** [@size.setter] *)
Definition size_setter (value : Z) : Wide.M Release.t unit :=
  r <~ Wide.self ;;
  Wide.when (Release.isLocal r && negb (Release._size r =? value))
    (Wide.assign
       (fun r' =>
          Release.mk (Release._index r') value (Release._data r')
            (Release._path r') (Release._info r') (Release._warning r')
            (Release._error r') (Release._download r') (Release._writer r')) ;;;
     Wide.emit Release_sizeChanged).

(** [@path.setter]; [isosize] is what [self.live.isosize] holds when it
    is read. *)
Definition path_setter (isosize : Z) (value : string) : Wide.M Release.t unit :=
  let value :=
    if win && py_startswith value "file:///" then py_from 8 value
    else if negb win && py_startswith value "file://" then py_from 7 value
    else value in
  r <~ Wide.self ;;
  Wide.when (negb (String.eqb (Release._path r) value))
    (core (Release.download (ReleaseDownload.path_setter value)) ;;;
     Wide.emit Release_pathChanged ;;;
     size_setter isosize).

End Platform.

End ReleaseVariants.

(** ** ReleaseListProxy.filterAcceptsRow *)

Module ReleaseFilter.

Section Lower.

(** [str.lower] *)
Variable lower : string -> string.

Definition filterAcceptsRow (row : antergos.product)
    : Wide.M ArchFilter.t bool :=
  p <~ Wide.self ;;
  by_arch <~
    (if Z.of_nat (List.length (ArchFilter._archFilter p)) =? 0 then Wide.ret true
     else if ReleaseVariants.isLocal row then Wide.ret true
     else
       selected <~ ArchFilter.archFilter ;;
       if py_in selected (ReleaseVariants.arch row) then Wide.ret true
       else Wide.ret (ReleaseVariants.isSeparator row)) ;;
  if by_arch
  then
    if (py_len (ArchFilter._nameFilter p) =? 0)
       || negb (ReleaseVariants.isSeparator row)
    then
      if (py_len (ArchFilter._nameFilter p) =? 0)
         || py_str_in (lower (ArchFilter._nameFilter p)) (lower (antergos.name row))
         || py_str_in (lower (ArchFilter._nameFilter p)) (lower (antergos.summary row))
      then Wide.ret true
      else Wide.ret false
    else Wide.ret false
  else Wide.ret false.

End Lower.

End ReleaseFilter.

(** ** class LiveUSBData: the catalogue of releases and the restore of a drive *)

Module Catalog.

(** The LiveUSBData object with its release proxy [_releaseProxy]. *)
Record t : Type := mk {
  data : LiveUSBData.t;
  proxy : ArchFilter.t
}.

Definition set_data (v : LiveUSBData.t) (c : t) : t := mk v (proxy c).
Definition set_proxy (v : ArchFilter.t) (c : t) : t := mk (data c) v.

(** [@pyqtProperty currentImage]; the result [None] is Python's. *)
Definition currentImage (s : LiveUSBData.t) : outcome (option Release.t) :=
  if LiveUSBData._currentIndex s
     <? Z.of_nat (List.length (LiveUSBData.releaseData s))
  then
    match py_getitem (LiveUSBData.releaseData s) (LiveUSBData._currentIndex s) with
    | Return r => Return (Some r)
    | Raise e => Raise e
    end
  else Return None.

(** [@currentIndex.setter] *)
Definition currentIndex_setter (value : Z) : Wide.M LiveUSBData.t unit :=
  s <~ Wide.self ;;
  Wide.when (negb (value =? LiveUSBData._currentIndex s))
    (Wide.assign
       (fun s' =>
          LiveUSBData.mk (LiveUSBData.live_drive s') (LiveUSBData.live_drives s')
            (LiveUSBData.store s') (LiveUSBData._usbDrives s')
            (LiveUSBData._driveToRestore s') value
            (LiveUSBData._currentDrive s') (LiveUSBData.releaseData s')) ;;;
     Wide.emit Data_currentImageChanged).

Section Construction.

Variable os_path_basename : string -> string.
Variable gettext : string -> string.

(** [self.releaseData.append(Release(self, len(self.releaseData),
    self.live, release))] *)
Definition append_release (release : antergos.product) : Wide.M t unit :=
  c <~ Wide.self ;;
  r <~ Wide.within proxy set_proxy
         (ReleaseVariants.new os_path_basename gettext
            (Z.of_nat (List.length (LiveUSBData.releaseData (data c)))) release) ;;
  Wide.assign
    (fun c' =>
       set_data
         (LiveUSBData.set_releaseData
            (LiveUSBData.releaseData (data c') ++ [r]) (data c'))
         c').

(** [fillReleases], given the list [releases] of the release module.  A
    Release object is true, so the first test is that of the list. *)
Definition fillReleases (releases : list antergos.product) : Wide.M t unit :=
  c <~ Wide.self ;;
  busy <~
    (if Z.of_nat (List.length (LiveUSBData.releaseData (data c))) >? 0
     then
       match py_getitem (LiveUSBData.releaseData (data c))
                        (LiveUSBData._currentIndex (data c)) with
       | Raise e => Wide.raise e
       | Return r =>
           Wide.ret (ReleaseDownload._running (Release._download r)
                     || ReleaseWriter._running (Release._writer r))
       end
     else Wide.ret false) ;;
  if busy then Wide.ret tt
  else
    Wide.emit Model_beginResetModel ;;;
    wide_for_each releases append_release ;;;
    Wide.emit Model_endResetModel ;;;
    Wide.emit Proxy_invalidate ;;;
    Wide.emit Data_currentImageChanged.

End Construction.

(** [l[i] = x] for a position of the list. *)
Fixpoint put {A : Type} (l : list A) (i : nat) (x : A) : list A :=
  match l, i with
  | [], _ => []
  | _ :: l', O => x :: l'
  | y :: l', S i' => y :: put l' i' x
  end.

(** A method of the USBDrive object at an address, run on the store. *)
Definition on_drive {A : Type} (a : nat) (m : M USBDrive.t A)
    : M LiveUSBData.t A :=
  fun s =>
    match nth_error (LiveUSBData.store s) a with
    | None => Run (Raise Unallocated) s []
    | Some d =>
        match m d with
        | Run o d' t =>
            Run o (LiveUSBData.set_store (put (LiveUSBData.store s) a d') s) t
        end
    end.

End Catalog.

(** ** What the architecture filter selects *)

(** The architecture name the getter of [archFilter] answers. *)
Definition selected_arch (p : ArchFilter.t) : string :=
  match ArchFilter.name_of ArchFilter._archMap (ArchFilter._archFilter p) with
  | Some name => name
  | None => "Intel 64bit"
  end.

(** A description is local or has a variant for the selected
    architecture. *)
Definition downloadable (p : ArchFilter.t) (d : antergos.product) : bool :=
  ReleaseVariants.isLocal d
  || py_in (selected_arch p) (ReleaseVariants.arch d).

(** The url of the first variant for the selected architecture, the
    empty url for a local description. *)
Definition url_for (p : ArchFilter.t) (d : antergos.product) : option string :=
  if ReleaseVariants.isLocal d then Some ""
  else
    option_map (fun item => antergos.url (snd item))
      (find (fun item =>
               py_in (fst item)
                 match py_dict_get ArchFilter._archMap (selected_arch p) with
                 | Some abbrs => abbrs
                 | None => []
                 end)
            (antergos.variants d)).


(** ** The drives of a reconciliation pass *)

(** The descriptions a pass finds, each with its index in the new drive
    list and the address of its new object, from a first index and a
    first address on. *)
Fixpoint numbered (index : nat) (address : nat)
    (infos : list USBDrive.DriveInfo) : list ((Z * nat) * USBDrive.DriveInfo) :=
  match infos with
  | [] => []
  | info :: rest =>
      ((Z.of_nat index, address), info) :: numbered (S index) (S address) rest
  end.

(** The objects a pass creates for the drives it finds. *)
Definition created (format_1f : Z -> Z -> string)
    (items : list (string * USBDrive.DriveInfo)) : list USBDrive.t :=
  map (fun item =>
         USBDrive.mk (LiveUSBData.drive_name format_1f (snd item)) (snd item) false)
      items.

(** The body of the loop of [USBDeviceCallback] over the new drive
    list, for the device selected before the pass. *)
Definition loop_body (previouslySelected : string) (ia : Z * nat)
    : M LiveUSBData.t unit :=
  drive <- LiveUSBData.at_ (snd ia) ;;
  when (String.eqb (USBDrive.device (USBDrive._drive drive)) previouslySelected)
    (LiveUSBData.currentDrive_setter (fst ia)) ;;
  when (USBDrive.isIso9660 (USBDrive._drive drive))
    (assign (LiveUSBData.set_driveToRestore (Some (snd ia)))) ;;
  s' <- self ;;
  when ((LiveUSBData._currentDrive s' =? -1)
        && negb (LiveUSBData.truthy (LiveUSBData.live_drive s')))
    (assign (LiveUSBData.set_live_drive (LiveUSBData.Info (USBDrive._drive drive)))).

(** ** More concrete objects *)

Module Catalogue.

Definition basename (path : string) : string := path.

Definition lower (s : string) : string := s.

Definition full : antergos.product :=
  antergos.mk_product "Antergos" "Fully functional Live Antergos Environment"
    "<ul></ul>" "17.1" "17.1" "qrc:/logo_antergos" [] "Antergos"
    [("x86_64",
      antergos.mk_variant "http://mirrors.example/antergos-17.1-x86_64.iso"
        "d41d8cd9" 1932735283 (Some "17.1") (Some "antergos-17.1-x86_64.iso"))].

Definition minimal : antergos.product :=
  antergos.mk_product "Antergos Minimal" "Installer Only"
    "<ul></ul>" "17.1" "17.1" "qrc:/logo_antergos" [] "Antergos Minimal"
    [("x86_64",
      antergos.mk_variant "http://mirrors.example/antergos-minimal-17.1-x86_64.iso"
        "9e107d9d" 629145600 (Some "17.1") (Some "antergos-minimal-17.1-x86_64.iso"))].

(** A description with a variant for 32-bit machines only. *)
Definition legacy : antergos.product :=
  antergos.mk_product "Antergos Legacy" "For older machines"
    "<ul></ul>" "16.1" "16.1" "qrc:/logo_antergos" [] "Antergos Legacy"
    [("i686",
      antergos.mk_variant "http://mirrors.example/antergos-16.1-i686.iso"
        "0cc175b9" 1610612736 (Some "16.1") (Some "antergos-16.1-i686.iso"))].

Definition custom : antergos.product := antergos.custom Sample.untranslated.

(** The proxy with a name filter. *)
Definition searching : ArchFilter.t :=
  ArchFilter.set_nameFilter "Minimal" ArchFilter.init.

(** A LiveUSBData with the two releases of [Sample], the first of them
    being fetched, and its proxy. *)
Definition busy : Catalog.t :=
  Catalog.mk
    (LiveUSBData.set_releaseData [Sample.fetching; Sample.release1] Sample.no_drive)
    ArchFilter.init.

(** A LiveUSBData with no release yet. *)
Definition empty : Catalog.t :=
  Catalog.mk (LiveUSBData.set_releaseData [] Sample.no_drive) ArchFilter.init.

End Catalogue.

(** * Properties *)

Unset Implicit Arguments.

(** ** The method monad *)

Lemma bind_returns {S A B : Type} (m : M S A) (k : A -> M S B) (s : S) (a : A) :
  result (m s) = Return a ->
  bind m k s
  = Run (result (k a (final (m s)))) (final (k a (final (m s))))
        (trace (m s) ++ trace (k a (final (m s)))).
Proof.
  intros Hret. unfold bind.
  destruct (m s) as [o s1 t1]. simpl in Hret. subst o. simpl.
  now destruct (k a s1).
Qed.

Lemma bind_raises {S A B : Type} (m : M S A) (k : A -> M S B) (s : S) (e : exn) :
  result (m s) = Raise e ->
  bind m k s = Run (Raise e) (final (m s)) (trace (m s)).
Proof.
  intros Hraise. unfold bind.
  destruct (m s) as [o s1 t1]. simpl in Hraise. subst o. reflexivity.
Qed.

(** Unfolding the monad, and running a method as far as it is decided. *)
Ltac unfold_monad :=
  unfold when, bind, self, assign, emit, lift, ret, raise; cbv beta iota.
Ltac run_method :=
  cbn -[py_getitem Z.of_nat Z.gtb Z.eqb Z.ltb nth_error map List.length].

(** ** Python helpers *)

Lemma py_len_zero (s : string) : (py_len s =? 0) = String.eqb s "".
Proof. destruct s; reflexivity. Qed.

Lemma len_zero {A : Type} (l : list A) :
  (Z.of_nat (List.length l) =? 0) = match l with [] => true | _ :: _ => false end.
Proof. destruct l; reflexivity. Qed.

Lemma len_positive {A : Type} (l : list A) :
  (Z.of_nat (List.length l) >? 0) = match l with [] => false | _ :: _ => true end.
Proof. destruct l; reflexivity. Qed.

Lemma py_in_spec (value : string) (l : list string) :
  py_in value l = true <-> In value l.
Proof.
  unfold py_in. rewrite existsb_exists. split.
  - intros [x [Hin Heq]]. apply String.eqb_eq in Heq. now subst.
  - intros Hin. exists value. split; [assumption | apply String.eqb_refl].
Qed.

Lemma py_getitem_in_range {A : Type} (l : list A) (i : Z) :
  0 <= i < Z.of_nat (List.length l) ->
  exists a, nth_error l (Z.to_nat i) = Some a /\ py_getitem l i = Return a.
Proof.
  intros Hi. unfold py_getitem.
  destruct (Z.ltb_spec i 0); [lia |].
  destruct (Z.leb_spec 0 i); [| lia].
  destruct (Z.ltb_spec i (Z.of_nat (List.length l))); [| lia].
  simpl.
  destruct (nth_error l (Z.to_nat i)) as [a |] eqn:Hnth.
  - now exists a.
  - apply nth_error_None in Hnth. lia.
Qed.

Lemma py_getitem_past_end {A : Type} (l : list A) (i : Z) :
  Z.of_nat (List.length l) <= i -> py_getitem l i = Raise IndexError.
Proof.
  intros Hi. unfold py_getitem.
  destruct (Z.ltb_spec i 0); [lia |].
  destruct (Z.ltb_spec i (Z.of_nat (List.length l))); [lia |].
  now rewrite andb_false_r.
Qed.

(** ** Release.status *)

(** C1. The status of a release is the first matching row of the
    decision table of section 4.4, read on the snapshot (writer finished,
    downloader running, ready to write, writer running, error list empty,
    writer status); two releases with the same snapshot have the same
    status. *)
Theorem status_is_decision_table (gettext : string -> string) (r : Release.t) :
  StatusTable.decide gettext (StatusTable.of_release r)
    = Some (Release.status gettext r)
  /\ (forall r' : Release.t,
        StatusTable.of_release r' = StatusTable.of_release r ->
        Release.status gettext r' = Release.status gettext r).
Proof.
  assert (Htable : forall x : Release.t,
            StatusTable.decide gettext (StatusTable.of_release x)
              = Some (Release.status gettext x)).
  { intros x. unfold StatusTable.decide, StatusTable.rows, Release.status.
    cbn [StatusTable.of_release StatusTable.writerFinished
         StatusTable.downloaderRunning StatusTable.readyToWrite
         StatusTable.writerRunning StatusTable.errorListEmpty
         StatusTable.writerStatus].
    rewrite len_zero, len_positive, py_len_zero.
    destruct (ReleaseWriter._finished (Release._writer x)),
             (ReleaseDownload._running (Release._download x)),
             (Release.readyToWrite x),
             (ReleaseWriter._running (Release._writer x)),
             (Release._error x) as [| e errors],
             (String.eqb (ReleaseWriter._status (Release._writer x)) "");
      reflexivity. }
  split.
  - apply Htable.
  - intros r' Hsame.
    assert (Hboth : Some (Release.status gettext r')
                    = Some (Release.status gettext r)).
    { rewrite <- !Htable. now rewrite Hsame. }
    now injection Hboth.
Qed.

Lemma status_is_decision_table_witness :
  StatusTable.of_release Sample.release1 = StatusTable.of_release Sample.release0
  /\ Release.status Sample.untranslated Sample.release1
     = Release.status Sample.untranslated Sample.release0.
Proof.
  split; [reflexivity |].
  apply (proj2 (status_is_decision_table Sample.untranslated Sample.release0)).
  reflexivity.
Defined.

(** ** ReleaseDownload: the progress tracker *)

Lemma update_sets_maximum (d : ReleaseDownload.t) (c v : Z) :
  ReleaseDownload._current d = Some c ->
  exists t : list Event,
    ReleaseDownload.update v d
    = Run (Return tt) (ReleaseDownload.set_current (Some (Z.max c v)) d) t.
Proof.
  destruct d as [running current maximum path fin cancelled].
  simpl. intros ->.
  unfold ReleaseDownload.update, ReleaseDownload.set_current, bind, self, when.
  simpl.
  destruct (Z.ltb_spec c v) as [Hlt | Hge]; simpl.
  - rewrite Z.max_r by lia. now eexists.
  - rewrite Z.max_l by lia. now eexists.
Qed.

Lemma observed_cons (d : ReleaseDownload.t) (c v : Z) (rest : list Z) :
  ReleaseDownload._current d = Some c ->
  ReleaseDownload.observed d (v :: rest)
  = Some (Z.max c v)
      :: ReleaseDownload.observed
           (ReleaseDownload.set_current (Some (Z.max c v)) d) rest.
Proof.
  intros Hc. destruct (update_sets_maximum d c v Hc) as [t Hupdate].
  cbn [ReleaseDownload.observed]. rewrite Hupdate. reflexivity.
Qed.

Lemma observed_length (amounts : list Z) :
  forall (d : ReleaseDownload.t) (c : Z),
    ReleaseDownload._current d = Some c ->
    List.length (ReleaseDownload.observed d amounts) = List.length amounts.
Proof.
  induction amounts as [| v rest IH]; intros d c Hc; [reflexivity |].
  rewrite (observed_cons d c v rest Hc). simpl. f_equal.
  exact (IH (ReleaseDownload.set_current (Some (Z.max c v)) d) (Z.max c v) eq_refl).
Qed.

Lemma observed_nth (amounts : list Z) :
  forall (d : ReleaseDownload.t) (c : Z) (k : nat),
    ReleaseDownload._current d = Some c ->
    (k < List.length amounts)%nat ->
    nth_error (ReleaseDownload.observed d amounts) k
    = Some (Some (maximum_so_far c amounts (S k))).
Proof.
  induction amounts as [| v rest IH]; intros d c k Hc Hk; simpl in Hk; [lia |].
  rewrite (observed_cons d c v rest Hc).
  destruct k as [| k']; [reflexivity |].
  cbn [nth_error]. rewrite (IH (ReleaseDownload.set_current (Some (Z.max c v)) d) (Z.max c v) k' eq_refl);
    [reflexivity | lia].
Qed.

Lemma updates_return (amounts : list Z) :
  forall (d : ReleaseDownload.t) (c : Z),
    ReleaseDownload._current d = Some c ->
    result (for_each amounts ReleaseDownload.update d) = Return tt.
Proof.
  induction amounts as [| v rest IH]; intros d c Hc; [reflexivity |].
  destruct (update_sets_maximum d c v Hc) as [t Hupdate].
  cbn [for_each]. rewrite (bind_returns _ _ d tt); rewrite Hupdate;
    [| reflexivity].
  cbn [result final]. exact (IH (ReleaseDownload.set_current (Some (Z.max c v)) d) (Z.max c v) eq_refl).
Qed.

Lemma fold_max_above (l : list Z) : forall c : Z, c <= fold_left Z.max l c.
Proof.
  induction l as [| v rest IH]; intros c; simpl; [lia |].
  specialize (IH (Z.max c v)). lia.
Qed.

Lemma maximum_so_far_monotone (amounts : list Z) :
  forall (c : Z) (i j : nat),
    (i <= j)%nat -> maximum_so_far c amounts i <= maximum_so_far c amounts j.
Proof.
  unfold maximum_so_far.
  induction amounts as [| v rest IH]; intros c i j Hij.
  - rewrite !firstn_nil. simpl. lia.
  - destruct i as [| i'].
    + simpl. apply fold_max_above.
    + destruct j as [| j']; [lia |]. simpl. apply IH. lia.
Qed.

(** C7. Whatever the order of the amounts passed to [update], and with
    duplicates, every call returns, the value read after the k-th call is
    the maximum of the initial value and of the first k amounts, and the
    values read never decrease. *)
Theorem update_running_maximum
    (d : ReleaseDownload.t) (c : Z) (amounts : list Z) :
  ReleaseDownload._current d = Some c ->
  result (for_each amounts ReleaseDownload.update d) = Return tt
  /\ (forall k : nat,
        (k < List.length amounts)%nat ->
        nth_error (ReleaseDownload.observed d amounts) k
        = Some (Some (maximum_so_far c amounts (S k))))
  /\ (forall (i j : nat) (x y : Z),
        (i <= j)%nat ->
        nth_error (ReleaseDownload.observed d amounts) i = Some (Some x) ->
        nth_error (ReleaseDownload.observed d amounts) j = Some (Some y) ->
        x <= y).
Proof.
  intros Hc. split; [exact (updates_return amounts d c Hc) |].
  split; [intros k Hk; exact (observed_nth amounts d c k Hc Hk) |].
  intros i j x y Hij Hi Hj.
  assert (Hjlen : (j < List.length amounts)%nat).
  { rewrite <- (observed_length amounts d c Hc).
    apply nth_error_Some. rewrite Hj. discriminate. }
  rewrite (observed_nth amounts d c i Hc) in Hi by lia.
  rewrite (observed_nth amounts d c j Hc Hjlen) in Hj.
  injection Hi as <-. injection Hj as <-.
  apply maximum_so_far_monotone. lia.
Qed.

Lemma update_running_maximum_witness :
  ReleaseDownload.observed ReleaseDownload.init [500000; 1000000; 500000; 1000000; 20]
  = [Some 500000; Some 1000000; Some 1000000; Some 1000000; Some 1000000]
  /\ nth_error
       (ReleaseDownload.observed ReleaseDownload.init
          [500000; 1000000; 500000; 1000000; 20]) 2
     = Some (Some (maximum_so_far (-1) [500000; 1000000; 500000; 1000000; 20] 3)).
Proof.
  split; [reflexivity |].
  apply (proj1 (proj2 (update_running_maximum ReleaseDownload.init (-1)
                         [500000; 1000000; 500000; 1000000; 20] eq_refl))).
  simpl. lia.
Defined.

(** C8, as the code has it. [end] returns, marks the download not
    running and copies the maximum into the current value whatever the
    maximum holds: the known size, but also [None] (a start with no size)
    and the -1 of a download never started.  Nothing else changes, and
    currentChanged then runningChanged are emitted. *)
Theorem end_copies_maximum (d : ReleaseDownload.t) :
  ReleaseDownload.end_ d
  = Run (Return tt)
        (ReleaseDownload.mk false (ReleaseDownload._maximum d)
           (ReleaseDownload._maximum d) (ReleaseDownload._path d)
           (ReleaseDownload.finished d) (ReleaseDownload.beingCancelled d))
        [Download_currentChanged; Download_runningChanged].
Proof. reflexivity. Qed.

(** C8, as stated, fails: after a start with no size and 500 bytes read,
    the maximum is unknown and [end] replaces the current value 500 by
    [None]. *)
Lemma end_unknown_maximum_loses_current :
  ReleaseDownload._maximum Sample.sizeless = None
  /\ ReleaseDownload._current Sample.sizeless = Some 500
  /\ ReleaseDownload._current (final (ReleaseDownload.end_ Sample.sizeless))
     <> ReleaseDownload._current Sample.sizeless.
Proof. repeat split. discriminate. Qed.

(** C9, as the code has it. On a download with the pre-start values
    (not running, current -1, maximum -1, empty path) [cancel] returns and
    leaves the four values as they are, sets the thread's cancellation
    flag, and emits runningChanged, currentChanged and maximumChanged,
    which [reset] emits unconditionally; pathChanged is not emitted. *)
Theorem cancel_idle_download (d : ReleaseDownload.t) :
  idle d ->
  result (ReleaseDownload.cancel d) = Return tt
  /\ final (ReleaseDownload.cancel d) = ReleaseDownload.set_beingCancelled true d
  /\ idle (final (ReleaseDownload.cancel d))
  /\ trace (ReleaseDownload.cancel d)
     = [Download_runningChanged; Download_currentChanged;
        Download_maximumChanged].
Proof.
  destruct d as [running current maximum path fin cancelled].
  unfold idle. simpl. intros (-> & -> & -> & ->).
  repeat split.
Qed.

Lemma cancel_idle_download_witness :
  idle ReleaseDownload.init
  /\ trace (ReleaseDownload.cancel ReleaseDownload.init)
     = [Download_runningChanged; Download_currentChanged;
        Download_maximumChanged].
Proof.
  assert (Hidle : idle ReleaseDownload.init) by (repeat split).
  split; [exact Hidle |].
  exact (proj2 (proj2 (proj2 (cancel_idle_download ReleaseDownload.init Hidle)))).
Defined.

(** C9, as stated, fails: cancelling a fresh download, which is idle,
    emits three change notifications although no value changes. *)
Lemma cancel_idle_download_notifies :
  idle ReleaseDownload.init
  /\ ReleaseDownload._running (final (ReleaseDownload.cancel ReleaseDownload.init))
     = ReleaseDownload._running ReleaseDownload.init
  /\ ReleaseDownload._current (final (ReleaseDownload.cancel ReleaseDownload.init))
     = ReleaseDownload._current ReleaseDownload.init
  /\ ReleaseDownload._maximum (final (ReleaseDownload.cancel ReleaseDownload.init))
     = ReleaseDownload._maximum ReleaseDownload.init
  /\ notifications (trace (ReleaseDownload.cancel ReleaseDownload.init))
     = [Download_runningChanged; Download_currentChanged;
        Download_maximumChanged]
  /\ notifications (trace (ReleaseDownload.cancel ReleaseDownload.init)) <> [].
Proof. repeat split. discriminate. Qed.

(** ** ReleaseListProxy.get *)

Lemma category_not_empty
    (gettext : string -> string) (main : list string) (r : Release.t) :
  (forall msg : string, msg <> "" -> gettext msg <> "") ->
  (py_len (Release.category gettext main r) =? 0) = false.
Proof.
  intros Hgettext. rewrite py_len_zero. apply String.eqb_neq.
  unfold Release.category.
  destruct (py_in (Release.source (Release._data r)) main); [discriminate |].
  destruct (String.eqb (Release.source (Release._data r)) "Spins");
    [apply Hgettext; discriminate |].
  destruct (String.eqb (Release.source (Release._data r)) "Labs");
    [apply Hgettext; discriminate |].
  discriminate.
Qed.

(** C10. [get(i)] never raises: it returns the i-th release of the list
    when 0 <= i < len(releaseData), and None when i is negative or at
    least the length.  (gettext is assumed not to translate a message
    into the empty string, so that no category is empty.) *)
Theorem get_by_index
    (gettext : string -> string) (main : list string)
    (releaseData : list Release.t) (i : Z) :
  (forall msg : string, msg <> "" -> gettext msg <> "") ->
  (0 <= i < Z.of_nat (List.length releaseData) ->
   exists r : Release.t,
     nth_error releaseData (Z.to_nat i) = Some r
     /\ ReleaseListProxy.get gettext main releaseData i = Return (Some r))
  /\ (i < 0 \/ Z.of_nat (List.length releaseData) <= i ->
      ReleaseListProxy.get gettext main releaseData i = Return None).
Proof.
  intros Hgettext. unfold ReleaseListProxy.get. split.
  - intros Hi.
    destruct (py_getitem_in_range releaseData i Hi) as [r [Hnth Hget]].
    exists r. split; [exact Hnth |].
    destruct (Z.ltb_spec i 0); [lia |].
    destruct (Z.geb_spec i (Z.of_nat (List.length releaseData))); [lia |].
    simpl. rewrite Hget.
    now rewrite (category_not_empty gettext main r Hgettext).
  - intros [Hneg | Hhigh].
    + destruct (Z.ltb_spec i 0); [reflexivity | lia].
    + destruct (Z.geb_spec i (Z.of_nat (List.length releaseData))); [| lia].
      now rewrite orb_true_r.
Qed.

Lemma get_by_index_witness :
  ReleaseListProxy.get Sample.untranslated Sample.main_categories
    [Sample.release0; Sample.release1] 1 = Return (Some Sample.release1)
  /\ ReleaseListProxy.get Sample.untranslated Sample.main_categories
       [Sample.release0; Sample.release1] 2 = Return None
  /\ ReleaseListProxy.get Sample.untranslated Sample.main_categories
       [Sample.release0; Sample.release1] (-1) = Return None.
Proof.
  assert (Hplain : forall msg : string,
             msg <> "" -> Sample.untranslated msg <> "")
    by (intros msg Hmsg; exact Hmsg).
  split; [reflexivity |].
  split.
  - apply (proj2 (get_by_index Sample.untranslated Sample.main_categories
                    [Sample.release0; Sample.release1] 2 Hplain)).
    right. simpl. lia.
  - apply (proj2 (get_by_index Sample.untranslated Sample.main_categories
                    [Sample.release0; Sample.release1] (-1) Hplain)).
    left. lia.
Defined.

(** ** ReleaseWriterThread.run *)

Lemma progress_only_moves_current (values : list float) :
  forall r : Release.t,
  exists (q : float) (t : list Event),
    for_each values ReleaseWriterThread.update_progress r
    = Run (Return tt)
          (Release.set_writer
             (ReleaseWriter.set_current q (Release._writer r)) r)
          t.
Proof.
  induction values as [| v rest IH]; intros r.
  - exists (ReleaseWriter._current (Release._writer r)), [].
    destruct r as [i sz dt p inf wrn err dl [run cur st fin]]. reflexivity.
  - assert (Hstep : exists (q : float) (t : list Event),
              ReleaseWriterThread.update_progress v r
              = Run (Return tt)
                    (Release.set_writer
                       (ReleaseWriter.set_current q (Release._writer r)) r)
                    t).
    { destruct r as [i sz dt p inf wrn err dl [run cur st fin]].
      unfold ReleaseWriterThread.update_progress, Release.writer, within,
        ReleaseWriter.progress_setter, bind, self, when. simpl.
      destruct (PrimFloat.eqb v cur); simpl.
      - now exists cur, [].
      - now exists v, [Writer_currentChanged]. }
    destruct Hstep as (q & t & Hstep).
    destruct (IH (Release.set_writer
                    (ReleaseWriter.set_current q (Release._writer r)) r))
      as (q1 & t1 & Hrest).
    exists q1, (t ++ t1).
    cbn [for_each]. unfold bind. rewrite Hstep, Hrest.
    destruct r as [i sz dt p inf wrn err dl [run cur st fin]]. reflexivity.
Qed.













(** A failure whose first argument is not a string is listed once per
    report: the errno 28 of an [OSError], reported twice, is listed
    twice. *)
Example failed_write_errno_listed_twice :
  Release._error
    (final (for_each [Sample.no_space; Sample.no_space] ReleaseWriterThread.run
              (final (Release.writer ReleaseWriter.run Sample.release0))))
  = ["28"; "28"].
Proof. reflexivity. Qed.

(** A failure without arguments: the handler raises IndexError on
    [e.args[0]], nothing is added to the error list and the writer is
    left running. *)
Lemma failed_write_without_arguments
    (dd : ReleaseWriterThread.dd_image) (r : Release.t) :
  ReleaseWriterThread.raised dd = Some [] ->
  result (ReleaseWriterThread.run dd r) = Raise IndexError
  /\ Release._error (final (ReleaseWriterThread.run dd r)) = Release._error r
  /\ ReleaseWriter._running (Release._writer (final (ReleaseWriterThread.run dd r)))
     = ReleaseWriter._running (Release._writer r).
Proof.
  intros Hraised. destruct dd as [values raised].
  simpl in Hraised. subst raised.
  destruct (progress_only_moves_current values r) as (q & t & Hprogress).
  unfold ReleaseWriterThread.run, ReleaseWriterThread.ddImage,
    ReleaseWriterThread.live_dd_image, try_except, bind.
  cbn [ReleaseWriterThread.progress_values ReleaseWriterThread.raised].
  rewrite Hprogress. clear Hprogress.
  destruct r as [i sz dt p inf wrn err dl [run cur st fin]].
  repeat split.
Qed.

Example failed_write_left_running :
  result (ReleaseWriterThread.write_job Sample.bare_failure Sample.release0)
  = Raise IndexError
  /\ ReleaseWriter._running
       (Release._writer
          (final (ReleaseWriterThread.write_job Sample.bare_failure Sample.release0)))
     = true.
Proof. split; reflexivity. Qed.

(** The error list of a new release is empty, and so is the list that
    [write] leaves. *)
Lemma error_list_starts_empty
    (gettext format_CONFIG : string -> string) (index : Z)
    (data : Release.Data) (r : Release.t) :
  Release._error (Release.init gettext index data) = []
  /\ Release._error (final (Release.write gettext format_CONFIG r)) = [].
Proof.
  split.
  - unfold Release.init, Release.addWarning, bind, self, when. simpl. reflexivity.
  - destruct r as [i sz dt p inf wrn err dl [run cur st fin]].
    unfold Release.write, Release.addInfo, Release.writer, within,
      ReleaseWriter.run, ReleaseWriter.status_setter, bind, self, when. simpl.
    destruct (String.eqb st "Writing"); reflexivity.
Qed.

(** ** LiveUSBData.currentDrive *)

Lemma py_getitem_selected {A : Type} (l : list A) (i : Z) :
  l <> [] ->
  i = -1 \/ 0 <= i < Z.of_nat (List.length l) ->
  exists a : A, In a l /\ py_getitem l i = Return a.
Proof.
  intros Hne Hi. unfold py_getitem.
  assert (Hlen : 0 < Z.of_nat (List.length l)).
  { destruct l; [contradiction | simpl; lia]. }
  set (j := if i <? 0 then i + Z.of_nat (List.length l) else i).
  assert (Hj : 0 <= j < Z.of_nat (List.length l)).
  { subst j. destruct (Z.ltb_spec i 0); lia. }
  destruct (Z.leb_spec 0 j); [| lia].
  destruct (Z.ltb_spec j (Z.of_nat (List.length l))); [| lia].
  simpl.
  destruct (nth_error l (Z.to_nat j)) as [a |] eqn:Hnth.
  - exists a. split; [eapply nth_error_In; eassumption | reflexivity].
  - apply nth_error_None in Hnth. lia.
Qed.

(** What the setter leaves in [_currentDrive]: -1 on an empty list, 0 for
    a value above the length, the value itself otherwise, whether or
    not the lookup of the drive then raises. *)
Lemma currentDrive_setter_index (value : Z) (s : LiveUSBData.t) :
  LiveUSBData._usbDrives (final (LiveUSBData.currentDrive_setter value s))
  = LiveUSBData._usbDrives s
  /\ LiveUSBData._currentDrive (final (LiveUSBData.currentDrive_setter value s))
     = if Z.of_nat (List.length (LiveUSBData._usbDrives s)) =? 0 then -1
       else if value >? Z.of_nat (List.length (LiveUSBData._usbDrives s))
            then 0 else value.
Proof.
  unfold LiveUSBData.currentDrive_setter, LiveUSBData.at_. unfold_monad.
  destruct (Z.of_nat (List.length (LiveUSBData._usbDrives s)) =? 0) eqn:Hempty.
  - split; reflexivity.
  - set (value' := if value >? Z.of_nat (List.length (LiveUSBData._usbDrives s))
                   then 0 else value).
    destruct (Z.eqb_spec (LiveUSBData._currentDrive s) value') as [Heq | Hneq].
    + split; [reflexivity | exact Heq].
    + destruct (Z.of_nat (List.length (LiveUSBData._usbDrives s)) >? 0).
      * run_method.
        destruct (py_getitem (LiveUSBData._usbDrives s) value') as [a | e];
          [| split; reflexivity].
        destruct (nth_error (LiveUSBData.store s) a) as [d |]; split; reflexivity.
      * split; reflexivity.
Qed.

(** The setter never touches a writer: the loop over [releaseData]
    assigns [finished] on the download of each release. *)
Lemma currentDrive_setter_keeps_writers (value : Z) (s : LiveUSBData.t) :
  map Release._writer
      (LiveUSBData.releaseData (final (LiveUSBData.currentDrive_setter value s)))
  = map Release._writer (LiveUSBData.releaseData s).
Proof.
  assert (Hmap : map Release._writer
                   (map LiveUSBData.clear_download_finished (LiveUSBData.releaseData s))
                 = map Release._writer (LiveUSBData.releaseData s)).
  { rewrite map_map. apply map_ext. intros r. reflexivity. }
  unfold LiveUSBData.currentDrive_setter, LiveUSBData.at_. unfold_monad.
  destruct (Z.of_nat (List.length (LiveUSBData._usbDrives s)) =? 0);
    [reflexivity |].
  set (value' := if value >? Z.of_nat (List.length (LiveUSBData._usbDrives s))
                 then 0 else value).
  destruct (LiveUSBData._currentDrive s =? value'); [reflexivity |].
  destruct (Z.of_nat (List.length (LiveUSBData._usbDrives s)) >? 0).
  - run_method.
    destruct (py_getitem (LiveUSBData._usbDrives s) value') as [a | e];
      [| reflexivity].
    destruct (nth_error (LiveUSBData.store s) a) as [d |];
      [exact Hmap | reflexivity].
  - exact Hmap.
Qed.

(** On an empty drive list the setter returns, selects -1 and clears the
    target drive of the back-end. *)
Lemma currentDrive_setter_empty (value : Z) (s : LiveUSBData.t) :
  LiveUSBData._usbDrives s = [] ->
  LiveUSBData.currentDrive_setter value s
  = Run (Return tt)
        (LiveUSBData.set_currentDrive (-1)
           (LiveUSBData.set_live_drive LiveUSBData.NoTarget s))
        [Data_currentDriveChanged].
Proof.
  intros Hempty.
  unfold LiveUSBData.currentDrive_setter. unfold_monad.
  rewrite Hempty. reflexivity.
Qed.

(** A value above the length of a non-empty drive list selects index 0,
    a valid index. *)
Lemma currentDrive_setter_above_length (value : Z) (s : LiveUSBData.t) :
  LiveUSBData._usbDrives s <> [] ->
  Z.of_nat (List.length (LiveUSBData._usbDrives s)) < value ->
  LiveUSBData._currentDrive (final (LiveUSBData.currentDrive_setter value s)) = 0
  /\ LiveUSBData.selection_valid (final (LiveUSBData.currentDrive_setter value s)).
Proof.
  intros Hne Hvalue.
  destruct (currentDrive_setter_index value s) as [Hdrives Hindex].
  assert (Hlen : 0 < Z.of_nat (List.length (LiveUSBData._usbDrives s))).
  { destruct (LiveUSBData._usbDrives s); [contradiction | simpl; lia]. }
  destruct (Z.eqb_spec (Z.of_nat (List.length (LiveUSBData._usbDrives s))) 0);
    [lia |].
  destruct (Z.gtb_spec value (Z.of_nat (List.length (LiveUSBData._usbDrives s))));
    [| lia].
  split; [exact Hindex |].
  right. rewrite Hindex, Hdrives. lia.
Qed.

(** A value equal to the length of a non-empty drive list is not
    replaced: it is stored as the selected index, and the lookup of the
    drive at that index raises. *)
Lemma currentDrive_setter_at_length (s : LiveUSBData.t) :
  LiveUSBData._usbDrives s <> [] ->
  LiveUSBData._currentDrive s <> Z.of_nat (List.length (LiveUSBData._usbDrives s)) ->
  result (LiveUSBData.currentDrive_setter
            (Z.of_nat (List.length (LiveUSBData._usbDrives s))) s)
  = Raise IndexError
  /\ ~ LiveUSBData.selection_valid
         (final (LiveUSBData.currentDrive_setter
                   (Z.of_nat (List.length (LiveUSBData._usbDrives s))) s)).
Proof.
  intros Hne Hcurrent.
  assert (Hlen : 0 < Z.of_nat (List.length (LiveUSBData._usbDrives s))).
  { destruct (LiveUSBData._usbDrives s); [contradiction | simpl; lia]. }
  split.
  - unfold LiveUSBData.currentDrive_setter, LiveUSBData.at_. unfold_monad.
    destruct (Z.eqb_spec (Z.of_nat (List.length (LiveUSBData._usbDrives s))) 0);
      [lia |].
    rewrite Z.gtb_ltb, Z.ltb_irrefl.
    destruct (Z.eqb_spec (LiveUSBData._currentDrive s)
                (Z.of_nat (List.length (LiveUSBData._usbDrives s))));
      [contradiction |].
    destruct (Z.gtb_spec (Z.of_nat (List.length (LiveUSBData._usbDrives s))) 0);
      [| lia].
    run_method.
    now rewrite (py_getitem_past_end (LiveUSBData._usbDrives s) _ (Z.le_refl _)).
  - destruct (currentDrive_setter_index
                (Z.of_nat (List.length (LiveUSBData._usbDrives s))) s)
      as [Hdrives Hindex].
    destruct (Z.eqb_spec (Z.of_nat (List.length (LiveUSBData._usbDrives s))) 0);
      [lia |].
    rewrite Z.gtb_ltb, Z.ltb_irrefl in Hindex.
    unfold LiveUSBData.selection_valid. rewrite Hindex, Hdrives. lia.
Qed.

(** C2, on the code. With three drives and the first one selected,
    selecting index 3 stores 3 as the selected index and raises IndexError
    on the lookup of the drive: the index is neither -1 nor an index of
    the list.  (Index 5 selects 0, as the claim says.) *)
Theorem select_index_three_of_three :
  List.length (LiveUSBData._usbDrives Sample.three_drives) = 3%nat
  /\ result (LiveUSBData.currentDrive_setter 3 Sample.three_drives)
     = Raise IndexError
  /\ LiveUSBData._currentDrive
       (final (LiveUSBData.currentDrive_setter 3 Sample.three_drives)) = 3
  /\ ~ LiveUSBData.selection_valid
         (final (LiveUSBData.currentDrive_setter 3 Sample.three_drives))
  /\ LiveUSBData._currentDrive
       (final (LiveUSBData.currentDrive_setter 5 Sample.three_drives)) = 0.
Proof.
  repeat split.
  unfold LiveUSBData.selection_valid. simpl. lia.
Qed.

(** C3, on the code. With two drives, the first one selected and a
    release already written, selecting the second drive changes the
    selected index to 1 and leaves [finished] of the release's writer
    true: what the setter clears is an attribute [finished] of the
    download. *)
Theorem select_other_drive_keeps_finished :
  LiveUSBData._currentDrive Sample.two_drives = 0
  /\ result (LiveUSBData.currentDrive_setter 1 Sample.two_drives) = Return tt
  /\ LiveUSBData._currentDrive
       (final (LiveUSBData.currentDrive_setter 1 Sample.two_drives)) = 1
  /\ map (fun r => ReleaseWriter._finished (Release._writer r))
         (LiveUSBData.releaseData Sample.two_drives) = [true; false]
  /\ map (fun r => ReleaseWriter._finished (Release._writer r))
         (LiveUSBData.releaseData
            (final (LiveUSBData.currentDrive_setter 1 Sample.two_drives)))
     = [true; false]
  /\ map (fun r => ReleaseDownload.finished (Release._download r))
         (LiveUSBData.releaseData
            (final (LiveUSBData.currentDrive_setter 1 Sample.two_drives)))
     = [Some false; Some false].
Proof. repeat split. Qed.

(** ** LiveUSBData.USBDeviceCallback *)

Lemma py_getitem_before_start {A : Type} (l : list A) (i : Z) :
  i < - Z.of_nat (List.length l) -> py_getitem l i = Raise IndexError.
Proof.
  intros Hi. unfold py_getitem.
  destruct (Z.ltb_spec i 0); [| lia].
  destruct (Z.leb_spec 0 (i + Z.of_nat (List.length l))); [lia |].
  reflexivity.
Qed.




(** C4, on the code. A pass that finds the very drive of the previous
    pass (same device, size and label, hence the same text) builds a new
    USBDrive object for it; the comparison of the two lists is by object
    identity, so the pass commits the new list, selects index 0 where -1
    was selected, and emits usbDrivesChanged, currentDriveChanged twice
    and driveToRestoreChanged. *)
Theorem identical_drives_are_committed_again (format_1f : Z -> Z -> string) :
  LiveUSBData.live_drives (Sample.one_drive format_1f) = [("/dev/sdb", Sample.sdb)]
  /\ LiveUSBData.listed (Sample.one_drive format_1f)
     = [Some (LiveUSBData.drive_name format_1f Sample.sdb, Sample.sdb)]
  /\ result (LiveUSBData.USBDeviceCallback format_1f (Sample.one_drive format_1f))
     = Return tt
  /\ LiveUSBData.listed
       (final (LiveUSBData.USBDeviceCallback format_1f (Sample.one_drive format_1f)))
     = LiveUSBData.listed (Sample.one_drive format_1f)
  /\ LiveUSBData._usbDrives (Sample.one_drive format_1f) = [0%nat]
  /\ LiveUSBData._usbDrives
       (final (LiveUSBData.USBDeviceCallback format_1f (Sample.one_drive format_1f)))
     = [1%nat]
  /\ LiveUSBData._currentDrive (Sample.one_drive format_1f) = -1
  /\ LiveUSBData._currentDrive
       (final (LiveUSBData.USBDeviceCallback format_1f (Sample.one_drive format_1f)))
     = 0
  /\ notifications
       (trace (LiveUSBData.USBDeviceCallback format_1f (Sample.one_drive format_1f)))
     = [Data_usbDrivesChanged; Data_currentDriveChanged;
        Data_currentDriveChanged; Data_driveToRestoreChanged].
Proof. repeat split. Qed.

Lemma trace_of_continuation {S A B : Type}
    (m : M S A) (k : A -> M S B) (s : S) (a : A) (e : Event) :
  result (m s) = Return a ->
  In e (trace (k a (final (m s)))) ->
  In e (trace (bind m k s)).
Proof.
  intros Hret Hin. rewrite (bind_returns m k s a Hret). cbn [trace].
  apply in_or_app. now right.
Qed.

(** The candidate list is made of new objects: their addresses follow
    those of the store. *)
Lemma candidates_are_new (format_1f : Z -> Z -> string)
    (items : list (string * USBDrive.DriveInfo)) :
  forall s : LiveUSBData.t,
    LiveUSBData.candidates format_1f items s
    = Run (Return (seq (List.length (LiveUSBData.store s)) (List.length items)))
          (LiveUSBData.set_store
             (LiveUSBData.store s
              ++ map (fun item =>
                        USBDrive.mk (LiveUSBData.drive_name format_1f (snd item))
                                    (snd item) false) items) s)
          [].
Proof.
  induction items as [| [key info] rest IH]; intros s.
  - destruct s. unfold LiveUSBData.set_store. simpl. now rewrite app_nil_r.
  - cbn [LiveUSBData.candidates]. unfold LiveUSBData.new_USBDrive.
    unfold_monad. rewrite IH.
    cbn [LiveUSBData.store LiveUSBData.set_store LiveUSBData.live_drive
         LiveUSBData.live_drives LiveUSBData._usbDrives
         LiveUSBData._driveToRestore LiveUSBData._currentIndex
         LiveUSBData._currentDrive LiveUSBData.releaseData].
    rewrite length_app, <- app_assoc. cbn [List.length map snd app].
    replace (List.length (LiveUSBData.store s) + 1)%nat
      with (S (List.length (LiveUSBData.store s))) by lia.
    reflexivity.
Qed.

Lemma new_objects_differ (old : list nat) (n k : nat) :
  (forall a : nat, In a old -> (a < n)%nat) ->
  LiveUSBData.same_objects (seq n k) old = true ->
  k = 0%nat /\ old = [].
Proof.
  intros Hold Hsame. destruct k as [| k'].
  - destruct old; [split; reflexivity | discriminate].
  - destruct old as [| b old']; [discriminate |].
    simpl in Hsame. apply andb_prop in Hsame. destruct Hsame as [Hb _].
    apply Nat.eqb_eq in Hb. specialize (Hold b (or_introl eq_refl)). lia.
Qed.

(** Whenever drives are reported, no restore is running and the selected
    drive can be looked up, the pass commits the candidate list and emits
    usbDrivesChanged: two lists of USBDrive objects are equal only when
    both are empty. *)
Lemma callback_commits_reported_drives
    (format_1f : Z -> Z -> string) (s : LiveUSBData.t) :
  LiveUSBData.allocated s ->
  (LiveUSBData._usbDrives s = []
   \/ exists (a : nat) (d : USBDrive.t),
        py_getitem (LiveUSBData._usbDrives s) (LiveUSBData._currentDrive s) = Return a
        /\ nth_error (LiveUSBData.store s) a = Some d) ->
  ~ LiveUSBData.restore_in_progress s ->
  LiveUSBData.live_drives s <> [] ->
  In Data_usbDrivesChanged (trace (LiveUSBData.USBDeviceCallback format_1f s)).
Proof.
  intros [Hlist Hpending] Hvalid Hidle Hreported.
  unfold LiveUSBData.USBDeviceCallback.
  apply (trace_of_continuation _ _ s s); [reflexivity |].
  cbn [self final].
  assert (Hselected : exists dev : string,
            (if Z.of_nat (List.length (LiveUSBData._usbDrives s)) >? 0
             then
               a <- lift (py_getitem (LiveUSBData._usbDrives s)
                            (LiveUSBData._currentDrive s)) ;;
               d <- LiveUSBData.at_ a ;;
               ret (USBDrive.device (USBDrive._drive d))
             else ret "") s
            = Run (Return dev) s []).
  { rewrite len_positive.
    destruct (LiveUSBData._usbDrives s) as [| a0 rest] eqn:Hdrives;
      [now exists "" |].
    destruct Hvalid as [Hempty | (a1 & d1 & Hget & Hd1)]; [discriminate Hempty |].
    exists (USBDrive.device (USBDrive._drive d1)).
    unfold LiveUSBData.at_. unfold_monad.
    rewrite Hget. cbv beta iota. rewrite Hd1. reflexivity. }
  destruct Hselected as [dev Hselected].
  apply (trace_of_continuation _ _ s dev); rewrite Hselected; [reflexivity |].
  cbn [final].
  assert (Hrestoring :
            match LiveUSBData._driveToRestore s with
            | None => ret false
            | Some a => d <- LiveUSBData.at_ a ;; ret (USBDrive._beingRestored d)
            end s = Run (Return false) s []).
  { destruct (LiveUSBData._driveToRestore s) as [a |] eqn:Hawaiting;
      [| reflexivity].
    specialize (Hpending a eq_refl).
    destruct (nth_error (LiveUSBData.store s) a) as [d |] eqn:Hd;
      [| apply nth_error_None in Hd; lia].
    unfold LiveUSBData.at_. unfold_monad. rewrite Hd.
    destruct (USBDrive._beingRestored d) eqn:Hbeing; [| reflexivity].
    exfalso. apply Hidle. exists a, d. repeat split; assumption. }
  apply (trace_of_continuation _ _ s false); rewrite Hrestoring; [reflexivity |].
  cbn [final].
  apply (trace_of_continuation _ _ s
           (seq (List.length (LiveUSBData.store s))
                (List.length (LiveUSBData.live_drives s))));
    rewrite candidates_are_new; [reflexivity |].
  cbn [final LiveUSBData._usbDrives LiveUSBData.set_store].
  destruct (LiveUSBData.same_objects
              (seq (List.length (LiveUSBData.store s))
                   (List.length (LiveUSBData.live_drives s)))
              (LiveUSBData._usbDrives s)) eqn:Hsame.
  - apply new_objects_differ in Hsame; [| exact Hlist].
    destruct Hsame as [Hnone _].
    destruct (LiveUSBData.live_drives s); [contradiction | discriminate].
  - unfold when, negb.
    eapply trace_of_continuation; [reflexivity |].
    cbn [assign final]. unfold bind at 1. cbn [emit].
    match goal with
    | |- context [match ?rest with Run _ _ _ => _ end] => destruct rest
    end.
    now left.
Qed.

(** With no drive before and none reported, and no drive awaiting a
    restore, the pass changes nothing and emits nothing. *)
Lemma callback_without_drives (format_1f : Z -> Z -> string) (s : LiveUSBData.t) :
  LiveUSBData._usbDrives s = [] ->
  LiveUSBData.live_drives s = [] ->
  LiveUSBData._driveToRestore s = None ->
  LiveUSBData.USBDeviceCallback format_1f s = Run (Return tt) s [].
Proof.
  intros Hdrives Hreported Hawaiting.
  unfold LiveUSBData.USBDeviceCallback. unfold_monad.
  rewrite Hdrives, Hreported, Hawaiting. reflexivity.
Qed.

Example callback_with_nothing_plugged (format_1f : Z -> Z -> string) :
  LiveUSBData.USBDeviceCallback format_1f Sample.no_drive
  = Run (Return tt) Sample.no_drive [].
Proof. now apply callback_without_drives. Qed.

(** A value below -1 is stored as it is: with three drives, -2 becomes
    the selected index (Python reads the drive from the end of the
    list). *)
Example select_index_minus_two :
  result (LiveUSBData.currentDrive_setter (-2) Sample.three_drives) = Return tt
  /\ LiveUSBData._currentDrive
       (final (LiveUSBData.currentDrive_setter (-2) Sample.three_drives)) = -2
  /\ LiveUSBData.live_drive
       (final (LiveUSBData.currentDrive_setter (-2) Sample.three_drives))
     = LiveUSBData.Device "/dev/sdc".
Proof. repeat split. Qed.

(** * Further properties *)

(** ** ReleaseDownload: the life of a download *)

(** X1. From any state, [cancel] returns and leaves the pre-start values
    (not running, current -1, maximum -1, empty path) with the thread's
    cancellation flag set; a second [cancel] changes nothing more and
    emits only the three signals [reset] always emits. *)
Theorem cancel_from_any_state (d : ReleaseDownload.t) :
  result (ReleaseDownload.cancel d) = Return tt
  /\ idle (final (ReleaseDownload.cancel d))
  /\ ReleaseDownload.beingCancelled (final (ReleaseDownload.cancel d)) = true
  /\ ReleaseDownload.cancel (final (ReleaseDownload.cancel d))
     = Run (Return tt) (final (ReleaseDownload.cancel d))
           [Download_runningChanged; Download_currentChanged;
            Download_maximumChanged].
Proof.
  destruct d as [running current maximum path fin cancelled].
  unfold ReleaseDownload.cancel, ReleaseDownload.reset,
    ReleaseDownload.path_setter, idle.
  unfold_monad.
  destruct (String.eqb_spec path "") as [-> | Hpath]; cbn.
  - repeat split.
  - apply String.eqb_neq in Hpath. rewrite Hpath. cbn. repeat split.
Qed.

Lemma childFinished_final (iso : string) (d : ReleaseDownload.t) :
  exists t : list Event,
    ReleaseDownload.childFinished iso d
    = Run (Return tt)
          (ReleaseDownload.mk false (Some (-1)) (Some (-1)) iso
             (ReleaseDownload.finished d) (ReleaseDownload.beingCancelled d))
          t.
Proof.
  destruct d as [running current maximum path fin cancelled].
  unfold ReleaseDownload.childFinished, ReleaseDownload.reset,
    ReleaseDownload.path_setter.
  unfold_monad.
  destruct (String.eqb_spec path "") as [-> | Hpath]; cbn.
  - destruct iso as [| c rest]; cbn; now eexists.
  - apply String.eqb_neq in Hpath. rewrite Hpath. cbn.
    destruct iso as [| c rest]; cbn; now eexists.
Qed.

(** X2. When the download thread reports the file [iso], the download
    ends up not running, with current and maximum back to -1 and [iso] as
    its path, so the release is ready to write exactly when [iso] is not
    empty; if moreover the release has no error and its writer is neither
    running nor finished, its status is "Ready to write". *)
Theorem childFinished_makes_ready
    (gettext : string -> string) (iso : string) (r : Release.t) :
  result (Release.download (ReleaseDownload.childFinished iso) r) = Return tt
  /\ Release.path (final (Release.download (ReleaseDownload.childFinished iso) r))
     = iso
  /\ ReleaseDownload._running
       (Release._download
          (final (Release.download (ReleaseDownload.childFinished iso) r)))
     = false
  /\ ReleaseDownload._current
       (Release._download
          (final (Release.download (ReleaseDownload.childFinished iso) r)))
     = Some (-1)
  /\ ReleaseDownload._maximum
       (Release._download
          (final (Release.download (ReleaseDownload.childFinished iso) r)))
     = Some (-1)
  /\ Release.readyToWrite
       (final (Release.download (ReleaseDownload.childFinished iso) r))
     = negb (String.eqb iso "")
  /\ (iso <> "" ->
      Release._error r = [] ->
      ReleaseWriter._running (Release._writer r) = false ->
      ReleaseWriter._finished (Release._writer r) = false ->
      Release.status gettext
        (final (Release.download (ReleaseDownload.childFinished iso) r))
      = gettext "Ready to write").
Proof.
  destruct (childFinished_final iso (Release._download r)) as [t Hfinal].
  unfold Release.download, within. rewrite Hfinal. clear Hfinal.
  destruct r as [i sz dt p inf wrn err d [wrun wcur wst wfin]].
  unfold Release.readyToWrite, Release.path. cbn.
  rewrite py_len_zero.
  split; [reflexivity |]. split; [reflexivity |]. split; [reflexivity |].
  split; [reflexivity |]. split; [reflexivity |]. split; [reflexivity |].
  intros Hiso -> -> ->.
  unfold Release.status, Release.readyToWrite, Release.path. cbn.
  rewrite py_len_zero.
  apply String.eqb_neq in Hiso. rewrite Hiso. reflexivity.
Qed.

Lemma childFinished_makes_ready_witness :
  Release.status Sample.untranslated
    (final (Release.download (ReleaseDownload.childFinished "/tmp/foo.iso")
              Sample.fetching))
  = "Ready to write".
Proof.
  apply (proj2 (proj2 (proj2 (proj2 (proj2 (proj2
           (childFinished_makes_ready Sample.untranslated "/tmp/foo.iso"
              Sample.fetching)))))));
    [discriminate | reflexivity | reflexivity | reflexivity].
Defined.

Lemma reset_final (d : ReleaseDownload.t) :
  exists t : list Event,
    ReleaseDownload.reset d
    = Run (Return tt)
          (ReleaseDownload.mk false (Some (-1)) (Some (-1)) ""
             (ReleaseDownload.finished d) (ReleaseDownload.beingCancelled d))
          t.
Proof.
  destruct d as [running current maximum path fin cancelled].
  unfold ReleaseDownload.reset, ReleaseDownload.path_setter.
  unfold_monad.
  destruct (String.eqb_spec path "") as [-> | Hpath]; cbn.
  - now eexists.
  - apply String.eqb_neq in Hpath. rewrite Hpath. cbn. now eexists.
Qed.

(** X3. When the download thread reports an error, whatever the state of
    the release, the download is back to its pre-start values, the
    release is not ready to write, the message is in the error list and
    the status is "Error". *)
Theorem childError_shows_error
    (gettext : string -> string) (err : string) (r : Release.t) :
  result (Release.download_childError err r) = Return tt
  /\ idle (Release._download (final (Release.download_childError err r)))
  /\ Release.readyToWrite (final (Release.download_childError err r)) = false
  /\ In err (Release._error (final (Release.download_childError err r)))
  /\ Release.status gettext (final (Release.download_childError err r))
     = gettext "Error".
Proof.
  destruct (reset_final (Release._download r)) as [t Hreset].
  unfold Release.download_childError, Release.download, within, Release.addError.
  unfold_monad. rewrite Hreset. clear Hreset.
  destruct r as [i sz dt p inf wrn err0 d w]. cbn -[py_in].
  assert (Hstatus : forall errors : list string,
             errors <> [] ->
             Release.status gettext
               (Release.mk i sz dt p inf wrn errors
                  (ReleaseDownload.mk false (Some (-1)) (Some (-1)) ""
                     (ReleaseDownload.finished d) (ReleaseDownload.beingCancelled d))
                  w)
             = gettext "Error").
  { intros errors Hne. unfold Release.status. cbn.
    rewrite len_zero, len_positive.
    destruct errors; [contradiction |]. now rewrite !andb_false_r. }
  destruct (py_in err err0) eqn:Hin; cbn.
  - apply py_in_spec in Hin. 
    split; [reflexivity |]. split; [repeat split |]. split; [reflexivity |].
    split; [exact Hin |].
    apply Hstatus. cbn. intros Hnil. rewrite Hnil in Hin. contradiction.
  - split; [reflexivity |]. split; [repeat split |]. split; [reflexivity |].
    split; [apply in_or_app; right; now left |].
    apply Hstatus. cbn. intros Happ. destruct err0; discriminate Happ.
Qed.

Lemma py_len_not_positive (s : string) : (py_len s <=? 0) = String.eqb s "".
Proof. destruct s; reflexivity. Qed.

(** X4. [get] starts the download thread only for a release without a
    path (neither in the class attribute [_path] nor in its download):
    then it starts the thread once; otherwise it does nothing at all.  In
    both cases the release is left as it is. *)
Theorem get_fetches_only_without_path (r : Release.t) :
  Release.get r
  = Run (Return tt) r
        (if String.eqb (Release._path r) "" && String.eqb (Release.path r) ""
         then [grabber_start] else []).
Proof.
  destruct r as [i sz dt p inf wrn err [running current maximum path fin cancelled] w].
  unfold Release.get, Release.download, within, ReleaseDownload.run, Release.path.
  unfold_monad. cbn -[py_len]. rewrite py_len_not_positive.
  destruct (String.eqb p ""); [| reflexivity].
  cbn -[py_len]. rewrite py_len_not_positive.
  destruct (String.eqb path ""); reflexivity.
Qed.

(** X5. After a download started without a size has ended, the current
    value is None and the next [update] raises TypeError, whatever the
    state before; once [reset] has run, [update] returns again. *)
Theorem update_after_sizeless_end (d : ReleaseDownload.t) (amount_read : Z) :
  result ((ReleaseDownload.start None ;;
           ReleaseDownload.end_ ;;
           ReleaseDownload.update amount_read) d)
  = Raise TypeError
  /\ result ((ReleaseDownload.start None ;;
              ReleaseDownload.end_ ;;
              ReleaseDownload.reset ;;
              ReleaseDownload.update amount_read) d)
     = Return tt.
Proof.
  destruct d as [running current maximum path fin cancelled].
  unfold ReleaseDownload.start, ReleaseDownload.end_, ReleaseDownload.update,
    ReleaseDownload.reset, ReleaseDownload.path_setter.
  unfold_monad. cbn.
  split; [reflexivity |].
  destruct (String.eqb path ""); cbn; now destruct (-1 <? amount_read).
Qed.

Lemma updates_final (amounts : list Z) :
  forall (d : ReleaseDownload.t) (c : Z),
    ReleaseDownload._current d = Some c ->
    exists t : list Event,
      for_each amounts ReleaseDownload.update d
      = Run (Return tt)
            (ReleaseDownload.set_current (Some (fold_left Z.max amounts c)) d) t.
Proof.
  induction amounts as [| v rest IH]; intros d c Hc.
  - exists []. destruct d as [running current maximum path fin cancelled].
    cbn in Hc. subst current. reflexivity.
  - destruct (update_sets_maximum d c v Hc) as [t Hupdate].
    destruct (IH (ReleaseDownload.set_current (Some (Z.max c v)) d) (Z.max c v) eq_refl)
      as [t' Hrest].
    exists (t ++ t'). cbn [for_each]. unfold bind. rewrite Hupdate, Hrest.
    reflexivity.
Qed.

(** X6. A download whose current value is a number, started with a size
    (or with none), then updated with any amounts in any order, then
    ended, returns with current and maximum both equal to the size given
    to [start] and with the running flag false. *)
Theorem download_runs_to_its_size
    (d : ReleaseDownload.t) (c : Z) (size : option Z) (amounts : list Z) :
  ReleaseDownload._current d = Some c ->
  exists t : list Event,
    (ReleaseDownload.start size ;;
     for_each amounts ReleaseDownload.update ;;
     ReleaseDownload.end_) d
    = Run (Return tt)
          (ReleaseDownload.mk false size size (ReleaseDownload._path d)
             (ReleaseDownload.finished d) (ReleaseDownload.beingCancelled d))
          t.
Proof.
  intros Hc.
  destruct (updates_final amounts
              (ReleaseDownload.set_running true (ReleaseDownload.set_maximum size d))
              c Hc) as [t Hupdates].
  unfold ReleaseDownload.start, ReleaseDownload.end_. unfold_monad.
  cbn [result final trace]. rewrite Hupdates. cbn. now eexists.
Qed.

Lemma download_runs_to_its_size_witness :
  exists t : list Event,
    (ReleaseDownload.start (Some 1000000) ;;
     for_each [500000; 1000000; 700000] ReleaseDownload.update ;;
     ReleaseDownload.end_) ReleaseDownload.init
    = Run (Return tt)
          (ReleaseDownload.mk false (Some 1000000) (Some 1000000) "" None false) t.
Proof.
  exact (download_runs_to_its_size ReleaseDownload.init (-1) (Some 1000000)
           [500000; 1000000; 700000] eq_refl).
Defined.

(** ** ReleaseWriter and Release.write *)

Lemma float_equals_itself_or_nothing (x y : float) :
  PrimFloat.eqb x x = false -> PrimFloat.eqb x y = false.
Proof.
  rewrite !FloatAxioms.eqb_spec. unfold SFeqb.
  destruct (Prim2SF x) as [[] | [] | | [] m e]; cbn;
    try discriminate; try reflexivity;
    rewrite Z.compare_refl, Pos.compare_cont_refl; discriminate.
Qed.

(** X7. Assigning a property of the writer, or the path of the download,
    the value it was given just before changes nothing and emits
    nothing: the setters notify on a change only.  For the progress this
    holds of every float that equals itself; a NaN is assigned and
    notified at every assignment, whatever the progress was. *)
Theorem repeated_assignment_is_silent
    (w : ReleaseWriter.t) (d : ReleaseDownload.t)
    (running finished : bool) (progress : float) (status path : string) :
  ReleaseWriter.running_setter running
    (final (ReleaseWriter.running_setter running w))
  = Run (Return tt) (final (ReleaseWriter.running_setter running w)) []
  /\ (PrimFloat.eqb progress progress = true ->
      ReleaseWriter.progress_setter progress
        (final (ReleaseWriter.progress_setter progress w))
      = Run (Return tt) (final (ReleaseWriter.progress_setter progress w)) [])
  /\ (PrimFloat.eqb progress progress = false ->
      ReleaseWriter.progress_setter progress w
      = Run (Return tt) (ReleaseWriter.set_current progress w)
            [Writer_currentChanged])
  /\ ReleaseWriter.status_setter status
       (final (ReleaseWriter.status_setter status w))
     = Run (Return tt) (final (ReleaseWriter.status_setter status w)) []
  /\ ReleaseWriter.finished_setter finished
       (final (ReleaseWriter.finished_setter finished w))
     = Run (Return tt) (final (ReleaseWriter.finished_setter finished w)) []
  /\ ReleaseDownload.path_setter path
       (final (ReleaseDownload.path_setter path d))
     = Run (Return tt) (final (ReleaseDownload.path_setter path d)) [].
Proof.
  destruct w as [wrun wcur wst wfin].
  destruct d as [drun dcur dmax dpath dfin dcancelled].
  unfold ReleaseWriter.running_setter, ReleaseWriter.progress_setter,
    ReleaseWriter.status_setter, ReleaseWriter.finished_setter,
    ReleaseDownload.path_setter.
  unfold_monad.
  split; [| split; [| split; [| split; [| split]]]].
  - destruct wrun, running; reflexivity.
  - intros Hself. cbn. destruct (PrimFloat.eqb progress wcur) eqn:Hsame; cbn.
    + now rewrite Hsame.
    + now rewrite Hself.
  - intros Hnan. cbn.
    now rewrite (float_equals_itself_or_nothing progress wcur Hnan).
  - cbn. destruct (String.eqb wst status) eqn:Hsame; cbn.
    + now rewrite Hsame.
    + now rewrite String.eqb_refl.
  - destruct wfin, finished; reflexivity.
  - cbn. destruct (String.eqb dpath path) eqn:Hsame; cbn.
    + now rewrite Hsame.
    + now rewrite String.eqb_refl.
Qed.

Lemma repeated_assignment_is_silent_witness :
  ReleaseWriter.progress_setter 0.5%float
    (final (ReleaseWriter.progress_setter 0.5%float ReleaseWriter.init))
  = Run (Return tt)
        (final (ReleaseWriter.progress_setter 0.5%float ReleaseWriter.init)) []
  /\ ReleaseWriter.progress_setter nan
       (final (ReleaseWriter.progress_setter nan ReleaseWriter.init))
     = Run (Return tt)
           (ReleaseWriter.set_current nan
              (final (ReleaseWriter.progress_setter nan ReleaseWriter.init)))
           [Writer_currentChanged].
Proof.
  split.
  - apply (proj1 (proj2
             (repeated_assignment_is_silent ReleaseWriter.init ReleaseDownload.init
                false false 0.5%float "" ""))).
    reflexivity.
  - apply (proj1 (proj2 (proj2
             (repeated_assignment_is_silent
                (final (ReleaseWriter.progress_setter nan ReleaseWriter.init))
                ReleaseDownload.init false false nan "" "")))).
    reflexivity.
Defined.

Lemma write_final
    (gettext format_CONFIG : string -> string) (r : Release.t) :
  exists t : list Event,
    Release.write gettext format_CONFIG r
    = Run (Return tt)
          (Release.mk (Release._index r) (Release._size r) (Release._data r)
             (Release._path r)
             [gettext (format_CONFIG "After you have tried or installed {DISTRO}, you can use {DISTRO} LiveUSB Creator to restore your flash drive to its factory settings.")]
             [] [] (Release._download r)
             (ReleaseWriter.mk true 0%float "Writing"
                (ReleaseWriter._finished (Release._writer r))))
          t.
Proof.
  destruct r as [i sz dt p inf wrn err dl [wrun wcur wst wfin]].
  unfold Release.write, Release.addInfo, Release.writer, within,
    ReleaseWriter.run, ReleaseWriter.status_setter.
  unfold_monad. cbn.
  destruct (String.eqb wst "Writing") eqn:Hstatus; cbn.
  - apply String.eqb_eq in Hstatus. subst wst. now eexists.
  - now eexists.
Qed.

Lemma successful_run_final (values : list float) (r : Release.t) :
  exists (q : float) (t : list Event),
    ReleaseWriterThread.run (ReleaseWriterThread.mk_dd_image values None) r
    = Run (Return tt)
          (Release.set_writer (ReleaseWriter.mk false q "Finished!" true) r) t.
Proof.
  destruct (progress_only_moves_current values r) as (q & t & Hprogress).
  exists q.
  unfold ReleaseWriterThread.run, ReleaseWriterThread.ddImage,
    ReleaseWriterThread.live_dd_image, try_except, bind.
  cbn [ReleaseWriterThread.progress_values ReleaseWriterThread.raised].
  rewrite Hprogress. clear Hprogress.
  destruct r as [i sz dt p inf wrn err dl [wrun wcur wst wfin]].
  unfold Release.writer, within, ReleaseWriter.status_setter,
    ReleaseWriter.finished_setter, ReleaseWriter.running_setter.
  unfold_monad. cbn.
  destruct (String.eqb wst "Finished!") eqn:Hstatus; cbn;
    [apply String.eqb_eq in Hstatus; subst wst |];
    destruct wfin; cbn; destruct wrun; cbn; now eexists.
Qed.


(** X9. [write] followed by a run of the writer thread in which the
    write primitive returns leaves the release with no warning and no
    error, the writer finished, not running and with status "Finished!";
    the status of the release is "Finished!", or "Downloading" while
    its download is running. *)
Theorem write_then_success
    (gettext format_CONFIG : string -> string) (values : list float)
    (r : Release.t) :
  exists (q : float) (t : list Event),
    (Release.write gettext format_CONFIG ;;
     ReleaseWriterThread.run (ReleaseWriterThread.mk_dd_image values None)) r
    = Run (Return tt)
          (Release.mk (Release._index r) (Release._size r) (Release._data r)
             (Release._path r)
             [gettext (format_CONFIG "After you have tried or installed {DISTRO}, you can use {DISTRO} LiveUSB Creator to restore your flash drive to its factory settings.")]
             [] [] (Release._download r)
             (ReleaseWriter.mk false q "Finished!" true))
          t
    /\ Release.status gettext
         (final ((Release.write gettext format_CONFIG ;;
                  ReleaseWriterThread.run
                    (ReleaseWriterThread.mk_dd_image values None)) r))
       = if ReleaseDownload._running (Release._download r)
         then gettext "Downloading" else "Finished!".
Proof.
  destruct (write_final gettext format_CONFIG r) as [t Hwrite].
  unfold bind. rewrite Hwrite.
  match goal with
  | |- context [ReleaseWriterThread.run ?dd ?r1] =>
      destruct (successful_run_final values r1) as (q & t' & Hrun)
  end.
  rewrite Hrun. exists q, (t ++ t'). cbn [result final trace Release.set_writer
    Release._index Release._size Release._data Release._path Release._info
    Release._warning Release._error Release._download].
  split; [reflexivity |].
  unfold Release.status, Release.readyToWrite. cbn.
  rewrite !andb_false_r.
  destruct (ReleaseDownload._running (Release._download r)); [reflexivity |].
  rewrite ?andb_false_r. reflexivity.
Qed.

(** X10. [write] followed by [cancel] of the writer leaves the writer
    not running, with progress -1 and status "Writing".  The status of
    the release is then "Downloading" while its download is running;
    otherwise "Writing" if an earlier write had finished, else "Ready to
    write" if the release has a path, else "Starting". *)
Theorem write_then_cancel
    (gettext format_CONFIG : string -> string) (r : Release.t) :
  exists t : list Event,
    (Release.write gettext format_CONFIG ;;
     Release.writer ReleaseWriter.cancel) r
    = Run (Return tt)
          (Release.mk (Release._index r) (Release._size r) (Release._data r)
             (Release._path r)
             [gettext (format_CONFIG "After you have tried or installed {DISTRO}, you can use {DISTRO} LiveUSB Creator to restore your flash drive to its factory settings.")]
             [] [] (Release._download r)
             (ReleaseWriter.mk false (-1)%float "Writing"
                (ReleaseWriter._finished (Release._writer r))))
          t
    /\ Release.status gettext
         (final ((Release.write gettext format_CONFIG ;;
                  Release.writer ReleaseWriter.cancel) r))
       = if ReleaseDownload._running (Release._download r)
         then gettext "Downloading"
         else if ReleaseWriter._finished (Release._writer r) then "Writing"
         else if Release.readyToWrite r then gettext "Ready to write"
         else gettext "Starting".
Proof.
  destruct (write_final gettext format_CONFIG r) as [t Hwrite].
  unfold bind. rewrite Hwrite.
  unfold Release.writer, within, ReleaseWriter.cancel, ReleaseWriter.reset.
  unfold_monad. cbn.
  eexists. split; [reflexivity |].
  unfold Release.status, Release.readyToWrite, Release.path. cbn.
  destruct r as [i sz dt p inf wrn err dl [wrun wcur wst wfin]]. cbn.
  now destruct wfin, (ReleaseDownload._running dl),
               (negb (py_len (ReleaseDownload._path dl) =? 0)).
Qed.

(** X11. [addError] tests its argument and appends the text of its
    argument.  For a string, adding a message the list already holds
    changes nothing and emits nothing, so adding it twice leaves it
    once, and a list without duplicates stays without duplicates.  For
    an argument that is not a string the test never succeeds: its text
    is appended, and the change notified, at every call, also when the
    text is already listed.  In both cases the text is listed
    afterwards and the other two lists are not touched. *)
Theorem addError_lists_strings_once (value : object) (r : Release.t) :
  In (str value) (Release._error (final (Release.addError value r)))
  /\ (forall msg : string,
        value = PyStr msg ->
        Release.addError value (final (Release.addError value r))
        = Run (Return tt) (final (Release.addError value r)) []
        /\ (NoDup (Release._error r) ->
            NoDup (Release._error (final (Release.addError value r)))))
  /\ ((forall msg : string, value <> PyStr msg) ->
      Release.addError value r
      = Run (Return tt)
            (Release.set_error (Release._error r ++ [str value]) r)
            [Release_errorChanged])
  /\ Release._info (final (Release.addError value r)) = Release._info r
  /\ Release._warning (final (Release.addError value r)) = Release._warning r.
Proof.
  destruct r as [i sz dt p inf wrn err dl w].
  unfold Release.addError. unfold_monad.
  cbn [Release._error Release._info Release._warning].
  split; [| split; [| split; [| split]]].
  - destruct value as [s | z | text]; cbn -[py_in];
      [destruct (py_in s err) eqn:Hin; cbn -[py_in];
       [now apply py_in_spec | apply in_or_app; right; now left] | ..];
      apply in_or_app; right; now left.
  - intros msg ->. cbn -[py_in].
    destruct (py_in msg err) eqn:Hin; cbn -[py_in].
    + rewrite Hin. cbn. split; [reflexivity | tauto].
    + assert (Hafter : py_in msg (err ++ [msg]) = true).
      { apply py_in_spec, in_or_app. right. now left. }
      rewrite Hafter. cbn. split; [reflexivity |].
      intros Hnodup.
      apply NoDup_app; [exact Hnodup | repeat constructor; intros [] |].
      intros x Hx [<- | []]. apply py_in_spec in Hx. congruence.
  - intros Hother.
    destruct value as [s | z | text]; [now destruct (Hother s) | reflexivity ..].
  - destruct value as [s | z | text]; cbn -[py_in];
      [now destruct (py_in s err) | reflexivity ..].
  - destruct value as [s | z | text]; cbn -[py_in];
      [now destruct (py_in s err) | reflexivity ..].
Qed.

Lemma addError_lists_strings_once_witness :
  NoDup (Release._error
           (final (Release.addError (PyStr "disk full")
                     (final (Release.addError (PyStr "disk full")
                               Sample.release0)))))
  /\ Release._error
       (final (Release.addError (PyInt 28)
                 (final (Release.addError (PyInt 28) Sample.release0))))
     = ["28"; "28"].
Proof.
  split.
  - apply (proj2 (proj1 (proj2
             (addError_lists_strings_once (PyStr "disk full")
                (final (Release.addError (PyStr "disk full") Sample.release0))))
             "disk full" eq_refl)).
    repeat constructor. intros [].
  - rewrite (proj1 (proj2 (proj2
               (addError_lists_strings_once (PyInt 28)
                  (final (Release.addError (PyInt 28) Sample.release0)))))
               ltac:(discriminate)).
    reflexivity.
Defined.

(** ** ReleaseListProxy: the architecture filter *)

Ltac unfold_wide :=
  unfold Wide.when, Wide.bind, Wide.self, Wide.assign, Wide.emit, Wide.ret,
    Wide.raise; cbv beta iota.

Lemma py_list_eq_spec (l1 : list string) :
  forall l2 : list string, py_list_eq l1 l2 = true <-> l1 = l2.
Proof.
  induction l1 as [| a1 l1' IH]; intros [| a2 l2']; simpl; split;
    try discriminate; try reflexivity.
  - intros Heq. apply andb_prop in Heq. destruct Heq as [Ha Hl].
    apply String.eqb_eq in Ha. apply IH in Hl. now subst.
  - intros Heq. injection Heq as -> ->.
    rewrite String.eqb_refl. now apply IH.
Qed.

(** What the getter does: it answers [selected_arch], and leaves the
    filter equal to the abbreviations of that name; run again, it
    answers the same and changes nothing. *)
Lemma archFilter_answers (p : ArchFilter.t) :
  exists p' : ArchFilter.t,
    ArchFilter.archFilter p = Wide.Run (Return (selected_arch p)) p' []
    /\ ArchFilter.archFilter p' = Wide.Run (Return (selected_arch p)) p' []
    /\ selected_arch p' = selected_arch p
    /\ py_dict_get ArchFilter._archMap (selected_arch p)
       = Some (ArchFilter._archFilter p')
    /\ ArchFilter._nameFilter p' = ArchFilter._nameFilter p
    /\ ArchFilter._frontPage p' = ArchFilter._frontPage p.
Proof.
  destruct p as [filter nameFilter frontPage].
  unfold ArchFilter.archFilter, selected_arch, ArchFilter.archMap_at.
  unfold_wide. cbn [ArchFilter._archFilter ArchFilter._archMap ArchFilter.name_of].
  destruct (py_list_eq ["x86_64"] filter) eqn:H64.
  - apply py_list_eq_spec in H64. subst filter.
    exists (ArchFilter.mk ["x86_64"] nameFilter frontPage). repeat split.
  - destruct (py_list_eq ["i686"; "i386"] filter) eqn:H32.
    + apply py_list_eq_spec in H32. subst filter.
      exists (ArchFilter.mk ["i686"; "i386"] nameFilter frontPage). repeat split.
    + exists (ArchFilter.mk ["x86_64"] nameFilter frontPage). repeat split.
Qed.

Lemma archFilter_setter_known
    (value : string) (abbrs : list string) (p : ArchFilter.t) :
  py_dict_get ArchFilter._archMap value = Some abbrs ->
  exists p' : ArchFilter.t,
    ArchFilter.archFilter_setter value p
    = Wide.Run (Return tt) (ArchFilter.set_archFilter abbrs p')
        [Proxy_archChanged; Proxy_invalidateFilter].
Proof.
  intros Hknown.
  destruct (archFilter_answers p) as (p' & Hget & _).
  exists p'.
  unfold ArchFilter.archFilter_setter, ArchFilter.archMap_at.
  rewrite Hknown. unfold Wide.bind at 1. rewrite Hget.
  unfold_wide. reflexivity.
Qed.

(** X12. Assigning [archFilter] a name of the architecture map and
    reading it back gives that name, and the read changes nothing; an
    assignment of any other value changes nothing and emits nothing. *)
Theorem archFilter_round_trip (value : string) (p : ArchFilter.t) :
  (forall abbrs : list string,
     py_dict_get ArchFilter._archMap value = Some abbrs ->
     Wide.result (ArchFilter.archFilter_setter value p) = Return tt
     /\ ArchFilter._archFilter (Wide.final (ArchFilter.archFilter_setter value p))
        = abbrs
     /\ ArchFilter.archFilter (Wide.final (ArchFilter.archFilter_setter value p))
        = Wide.Run (Return value)
            (Wide.final (ArchFilter.archFilter_setter value p)) [])
  /\ (py_dict_get ArchFilter._archMap value = None ->
      ArchFilter.archFilter_setter value p = Wide.Run (Return tt) p []).
Proof.
  split.
  - intros abbrs Hknown.
    destruct (archFilter_setter_known value abbrs p Hknown) as [p' Hset].
    rewrite Hset. cbn [Wide.result Wide.final].
    split; [reflexivity |]. split; [reflexivity |].
    destruct p' as [filter' nameFilter' frontPage'].
    unfold ArchFilter._archMap in Hknown. cbn [py_dict_get] in Hknown.
    destruct (String.eqb_spec "Intel 64bit" value) as [<- | H64].
    + injection Hknown as <-. reflexivity.
    + destruct (String.eqb_spec "Intel 32bit" value) as [<- | H32];
        [| discriminate].
      injection Hknown as <-. reflexivity.
  - intros Hunknown. unfold ArchFilter.archFilter_setter. now rewrite Hunknown.
Qed.

Lemma archFilter_round_trip_witness :
  ArchFilter.archFilter
    (Wide.final (ArchFilter.archFilter_setter "Intel 32bit" ArchFilter.init))
  = Wide.Run (Return "Intel 32bit")
      (Wide.final (ArchFilter.archFilter_setter "Intel 32bit" ArchFilter.init)) []
  /\ ArchFilter.archFilter_setter "ARM" ArchFilter.init
     = Wide.Run (Return tt) ArchFilter.init [].
Proof.
  split.
  - apply (proj1 (archFilter_round_trip "Intel 32bit" ArchFilter.init)
             ["i686"; "i386"] eq_refl).
  - apply (proj2 (archFilter_round_trip "ARM" ArchFilter.init) eq_refl).
Defined.

(** X13. Every assignment of a known name to [archFilter] emits
    archChanged and invalidates the filter, also when the filter
    already selects that architecture. *)
Theorem archFilter_setter_always_notifies
    (value : string) (abbrs : list string) (p : ArchFilter.t) :
  py_dict_get ArchFilter._archMap value = Some abbrs ->
  Wide.trace (ArchFilter.archFilter_setter value p)
  = [Proxy_archChanged; Proxy_invalidateFilter].
Proof.
  intros Hknown.
  destruct (archFilter_setter_known value abbrs p Hknown) as [p' Hset].
  now rewrite Hset.
Qed.

Lemma archFilter_setter_always_notifies_witness :
  ArchFilter._archFilter ArchFilter.init = ["x86_64"]
  /\ Wide.trace (ArchFilter.archFilter_setter "Intel 64bit" ArchFilter.init)
     = [Proxy_archChanged; Proxy_invalidateFilter].
Proof.
  split; [reflexivity |].
  exact (archFilter_setter_always_notifies "Intel 64bit" ["x86_64"]
           ArchFilter.init eq_refl).
Defined.

(** ** Release: url, size and architectures *)

Lemma first_for_filter_finds
    (items : list (string * antergos.variant)) (p : ArchFilter.t) :
  exists (abbrs : list string) (p' : ArchFilter.t),
    py_dict_get ArchFilter._archMap (selected_arch p) = Some abbrs
    /\ selected_arch p' = selected_arch p
    /\ forall (A : Type) (field : antergos.variant -> A),
         ReleaseVariants.first_for_filter field items p
         = Wide.Run
             (Return (option_map (fun item => field (snd item))
                        (find (fun item => py_in (fst item) abbrs) items)))
             p' [].
Proof.
  destruct (archFilter_answers p)
    as (p1 & Hget & Hagain & Hselected & Habbrs & _).
  exists (ArchFilter._archFilter p1).
  destruct items as [| [key v] rest].
  - exists p. repeat split; assumption.
  - exists p1. split; [exact Habbrs |]. split; [exact Hselected |].
    intros A field.
    assert (Hstable :
              forall l : list (string * antergos.variant),
                ReleaseVariants.first_for_filter field l p1
                = Wide.Run
                    (Return (option_map (fun item => field (snd item))
                               (find (fun item =>
                                        py_in (fst item) (ArchFilter._archFilter p1))
                                     l)))
                    p1 []).
    { induction l as [| [k w] l' IH]; [reflexivity |].
      cbn [ReleaseVariants.first_for_filter find fst snd].
      unfold Wide.bind at 1. rewrite Hagain.
      unfold ArchFilter.archMap_at. rewrite Habbrs.
      unfold_wide.
      destruct (py_in k (ArchFilter._archFilter p1)); [reflexivity |].
      rewrite IH. reflexivity. }
    cbn [ReleaseVariants.first_for_filter find fst snd].
    unfold Wide.bind at 1. rewrite Hget.
    unfold ArchFilter.archMap_at. rewrite Habbrs.
    unfold_wide.
    destruct (py_in key (ArchFilter._archFilter p1)); [reflexivity |].
    rewrite Hstable. reflexivity.
Qed.

Lemma existsb_orb {A : Type} (f g : A -> bool) (l : list A) :
  existsb (fun x => f x || g x) l = existsb f l || existsb g l.
Proof.
  induction l as [| x l' IH]; [reflexivity |].
  simpl. rewrite IH.
  destruct (f x), (g x), (existsb f l'), (existsb g l'); reflexivity.
Qed.

Lemma existsb_same {A : Type} (f g : A -> bool) (l : list A) :
  (forall x : A, f x = g x) -> existsb f l = existsb g l.
Proof.
  intros Hsame. induction l as [| x l' IH]; [reflexivity |].
  simpl. now rewrite Hsame, IH.
Qed.

(** The selected architecture is among [arch] exactly when some variant
    has one of its abbreviations as key. *)
Lemma arch_lists_selected (d : antergos.product) (p : ArchFilter.t)
    (abbrs : list string) :
  py_dict_get ArchFilter._archMap (selected_arch p) = Some abbrs ->
  py_in (selected_arch p) (ReleaseVariants.arch d)
  = existsb (fun item => py_in (fst item) abbrs) (antergos.variants d).
Proof.
  assert (Hselected : selected_arch p = "Intel 64bit"
                      \/ selected_arch p = "Intel 32bit").
  { unfold selected_arch, ArchFilter._archMap. cbn [ArchFilter.name_of].
    destruct (py_list_eq ["x86_64"] (ArchFilter._archFilter p)); [now left |].
    destruct (py_list_eq ["i686"; "i386"] (ArchFilter._archFilter p));
      [now right | now left]. }
  unfold ReleaseVariants.arch, ReleaseVariants.has_variant, ArchFilter._archMap.
  cbn [flat_map fst snd app].
  destruct Hselected as [-> | ->]; cbn [py_dict_get String.eqb]; intros Habbrs.
  - change (String.eqb "Intel 64bit" "Intel 64bit") with true in Habbrs.
    injection Habbrs as <-.
    transitivity (existsb (fun item : string * antergos.variant =>
                             String.eqb (fst item) "x86_64")
                          (antergos.variants d)).
    + destruct (existsb _ (antergos.variants d)) eqn:H64; cbn -[String.eqb].
      * reflexivity.
      * destruct (existsb (fun item : string * antergos.variant =>
                             String.eqb (fst item) "i686") (antergos.variants d)),
                 (existsb (fun item : string * antergos.variant =>
                             String.eqb (fst item) "i386") (antergos.variants d));
          reflexivity.
    + apply existsb_same. intros item. unfold py_in. simpl.
      now rewrite orb_false_r.
  - change (String.eqb "Intel 64bit" "Intel 32bit") with false in Habbrs.
    change (String.eqb "Intel 32bit" "Intel 32bit") with true in Habbrs.
    injection Habbrs as <-.
    transitivity
      (existsb (fun item : string * antergos.variant =>
                  String.eqb (fst item) "i686") (antergos.variants d)
       || existsb (fun item : string * antergos.variant =>
                     String.eqb (fst item) "i386") (antergos.variants d)).
    + destruct (existsb (fun item : string * antergos.variant =>
                           String.eqb (fst item) "x86_64") (antergos.variants d)),
               (existsb (fun item : string * antergos.variant =>
                           String.eqb (fst item) "i686") (antergos.variants d)),
               (existsb (fun item : string * antergos.variant =>
                           String.eqb (fst item) "i386") (antergos.variants d));
        reflexivity.
    + rewrite <- existsb_orb. apply existsb_same. intros item.
      unfold py_in. simpl. now rewrite orb_false_r.
Qed.

Lemma find_existsb {A : Type} (f : A -> bool) (l : list A) :
  find f l <> None <-> existsb f l = true.
Proof.
  induction l as [| x l' IH]; simpl.
  - split; [intros H; now contradiction H | discriminate].
  - destruct (f x); [split; [reflexivity | discriminate] | exact IH].
Qed.

(** X14. For a release that is not local, [get_url] returns, and what
    it returns is a url (not None) exactly when the architecture the
    proxy selects is among the architectures [arch] lists for the
    release. *)
Theorem url_iff_architecture_listed (d : antergos.product) (p : ArchFilter.t) :
  ReleaseVariants.isLocal d = false ->
  exists (u : option string) (p' : ArchFilter.t),
    ReleaseVariants.get_url d p = Wide.Run (Return u) p' []
    /\ (u <> None <-> In (selected_arch p) (ReleaseVariants.arch d)).
Proof.
  intros Hlocal.
  destruct (first_for_filter_finds (antergos.variants d) p)
    as (abbrs & p' & Habbrs & _ & Hloop).
  unfold ReleaseVariants.get_url. rewrite Hlocal, Hloop.
  eexists. exists p'. split; [reflexivity |].
  rewrite <- py_in_spec, (arch_lists_selected d p abbrs Habbrs),
    <- find_existsb.
  destruct (find _ (antergos.variants d)); simpl; split; intros H;
    try discriminate; try (now contradiction H); exact H.
Qed.

Lemma url_iff_architecture_listed_witness :
  exists (u : option string) (p' : ArchFilter.t),
    ReleaseVariants.get_url Catalogue.legacy ArchFilter.init
    = Wide.Run (Return u) p' []
    /\ (u <> None
        <-> In (selected_arch ArchFilter.init) (ReleaseVariants.arch Catalogue.legacy)).
Proof.
  exact (url_iff_architecture_listed Catalogue.legacy ArchFilter.init eq_refl).
Defined.

(** X15. For a release that is not local, [get_url] and [size] read the
    same variant: either both take their value from one entry of the
    variants, or [get_url] returns None and [size] the release's own
    [_size]. *)
Theorem url_and_size_of_one_variant
    (d : antergos.product) (p : ArchFilter.t) (_size : Z) :
  ReleaseVariants.isLocal d = false ->
  exists p' : ArchFilter.t,
    (exists (key : string) (v : antergos.variant),
       In (key, v) (antergos.variants d)
       /\ ReleaseVariants.get_url d p
          = Wide.Run (Return (Some (antergos.url v))) p' []
       /\ ReleaseVariants.size_of _size d p
          = Wide.Run (Return (antergos.size v)) p' [])
    \/ (ReleaseVariants.get_url d p = Wide.Run (Return None) p' []
        /\ ReleaseVariants.size_of _size d p = Wide.Run (Return _size) p' []).
Proof.
  intros Hlocal.
  destruct (first_for_filter_finds (antergos.variants d) p)
    as (abbrs & p' & _ & _ & Hloop).
  exists p'.
  unfold ReleaseVariants.get_url, ReleaseVariants.size_of.
  rewrite Hlocal. cbn [negb]. unfold Wide.bind. rewrite !Hloop.
  destruct (find (fun item => py_in (fst item) abbrs) (antergos.variants d))
    as [[key v] |] eqn:Hfind.
  - left. exists key, v. split; [| split; reflexivity].
    apply find_some in Hfind. exact (proj1 Hfind).
  - right. split; reflexivity.
Qed.

Lemma url_and_size_of_one_variant_witness :
  ReleaseVariants.get_url Catalogue.full ArchFilter.init
  = Wide.Run (Return (Some "http://mirrors.example/antergos-17.1-x86_64.iso"))
      ArchFilter.init []
  /\ exists p' : ArchFilter.t,
       (exists (key : string) (v : antergos.variant),
          In (key, v) (antergos.variants Catalogue.full)
          /\ ReleaseVariants.get_url Catalogue.full ArchFilter.init
             = Wide.Run (Return (Some (antergos.url v))) p' []
          /\ ReleaseVariants.size_of 0 Catalogue.full ArchFilter.init
             = Wide.Run (Return (antergos.size v)) p' [])
       \/ (ReleaseVariants.get_url Catalogue.full ArchFilter.init
           = Wide.Run (Return None) p' []
           /\ ReleaseVariants.size_of 0 Catalogue.full ArchFilter.init
              = Wide.Run (Return 0) p' []).
Proof.
  split; [reflexivity |].
  exact (url_and_size_of_one_variant Catalogue.full ArchFilter.init 0 eq_refl).
Defined.

Lemma get_url_value (d : antergos.product) (p : ArchFilter.t) :
  exists p' : ArchFilter.t,
    selected_arch p' = selected_arch p
    /\ ReleaseVariants.get_url d p = Wide.Run (Return (url_for p d)) p' [].
Proof.
  unfold ReleaseVariants.get_url, url_for.
  destruct (ReleaseVariants.isLocal d).
  - exists p. split; reflexivity.
  - destruct (first_for_filter_finds (antergos.variants d) p)
      as (abbrs & p' & Habbrs & Hselected & Hloop).
    exists p'. split; [exact Hselected |]. now rewrite Hloop, Habbrs.
Qed.


Lemma downloadable_has_url (d : antergos.product) (p : ArchFilter.t) :
  downloadable p d = match url_for p d with Some _ => true | None => false end.
Proof.
  unfold downloadable, url_for.
  destruct (ReleaseVariants.isLocal d); [reflexivity |]. cbn [orb].
  destruct (first_for_filter_finds (antergos.variants d) p)
    as (abbrs & _ & Habbrs & _).
  rewrite (arch_lists_selected d p abbrs Habbrs), Habbrs.
  destruct (find (fun item => py_in (fst item) abbrs) (antergos.variants d))
    eqn:Hfind; cbn [option_map].
  - apply find_existsb. rewrite Hfind. discriminate.
  - destruct (existsb (fun item => py_in (fst item) abbrs) (antergos.variants d))
      eqn:Hex; [| reflexivity].
    apply find_existsb in Hex. now contradiction Hex.
Qed.



(** ** ReleaseListProxy.filterAcceptsRow *)

(** The answer of [filterAcceptsRow]: the architecture test and the two
    name tests. *)
Lemma filter_value (lower : string -> string) (row : antergos.product)
    (p : ArchFilter.t) :
  exists p' : ArchFilter.t,
    selected_arch p' = selected_arch p
    /\ ReleaseFilter.filterAcceptsRow lower row p
       = Wide.Run
           (Return
              (((Z.of_nat (List.length (ArchFilter._archFilter p)) =? 0)
                || ReleaseVariants.isLocal row
                || py_in (selected_arch p) (ReleaseVariants.arch row)
                || ReleaseVariants.isSeparator row)
               && ((py_len (ArchFilter._nameFilter p) =? 0)
                   || negb (ReleaseVariants.isSeparator row))
               && ((py_len (ArchFilter._nameFilter p) =? 0)
                   || py_str_in (lower (ArchFilter._nameFilter p))
                                (lower (antergos.name row))
                   || py_str_in (lower (ArchFilter._nameFilter p))
                                (lower (antergos.summary row)))))
           p' [].
Proof.
  destruct (archFilter_answers p) as (p1 & Hget & _ & Hselected & _).
  unfold ReleaseFilter.filterAcceptsRow.
  unfold Wide.bind at 1. unfold Wide.self at 1.
  destruct (Z.of_nat (List.length (ArchFilter._archFilter p)) =? 0).
  - exists p. split; [reflexivity |]. unfold_wide. cbn [orb andb].
    now destruct (_ || negb _), (_ || _ || _).
  - cbn [orb]. destruct (ReleaseVariants.isLocal row).
    + exists p. split; [reflexivity |]. unfold_wide. cbn [orb andb].
      now destruct (_ || negb _), (_ || _ || _).
    + cbn [orb]. exists p1. split; [exact Hselected |].
      unfold Wide.bind at 1 2. rewrite Hget.
      destruct (py_in (selected_arch p) (ReleaseVariants.arch row));
        cbn [orb]; unfold_wide.
      * now destruct (_ || negb _), (_ || _ || _).
      * destruct (ReleaseVariants.isSeparator row); cbn [andb negb orb];
          [| reflexivity].
        rewrite orb_false_r.
        now destruct (py_len _ =? 0), (_ || _ || _).
Qed.

(** X17. The name filter only hides rows: a row accepted under some
    name filter is accepted when the name filter is cleared (the
    architecture filter being the same), and a separator row is rejected
    under every name filter that is not empty. *)
Theorem name_filter_only_hides (lower : string -> string)
    (row : antergos.product) (p : ArchFilter.t) :
  (Wide.result (ReleaseFilter.filterAcceptsRow lower row p) = Return true ->
   Wide.result (ReleaseFilter.filterAcceptsRow lower row
                  (ArchFilter.set_nameFilter "" p)) = Return true)
  /\ (ReleaseVariants.isSeparator row = true ->
      ArchFilter._nameFilter p <> "" ->
      Wide.result (ReleaseFilter.filterAcceptsRow lower row p) = Return false).
Proof.
  destruct (filter_value lower row p) as (p1 & _ & Hfilter).
  destruct (filter_value lower row (ArchFilter.set_nameFilter "" p))
    as (p2 & _ & Hcleared).
  rewrite Hfilter, Hcleared. cbn [Wide.result].
  assert (Hsame : selected_arch (ArchFilter.set_nameFilter "" p) = selected_arch p)
    by (destruct p; reflexivity).
  rewrite Hsame.
  destruct p as [filter nameFilter frontPage].
  cbn [ArchFilter._archFilter ArchFilter._nameFilter ArchFilter.set_nameFilter].
  split.
  - intros Haccepted. injection Haccepted as Haccepted.
    apply andb_prop in Haccepted. destruct Haccepted as [Haccepted _].
    apply andb_prop in Haccepted. destruct Haccepted as [Harch _].
    rewrite Harch. reflexivity.
  - intros Hseparator Hname. rewrite Hseparator, py_len_zero.
    apply String.eqb_neq in Hname. rewrite Hname.
    now rewrite andb_false_r.
Qed.

Lemma name_filter_only_hides_witness :
  Wide.result (ReleaseFilter.filterAcceptsRow Catalogue.lower Catalogue.minimal
                 Catalogue.searching) = Return true
  /\ Wide.result (ReleaseFilter.filterAcceptsRow Catalogue.lower Catalogue.minimal
                    (ArchFilter.set_nameFilter "" Catalogue.searching))
     = Return true
  /\ Wide.result (ReleaseFilter.filterAcceptsRow Catalogue.lower
                    (antergos.mk_product "" "" "" "" "" "" [] "" [])
                    Catalogue.searching)
     = Return false.
Proof.
  split; [reflexivity |]. split.
  - apply (proj1 (name_filter_only_hides Catalogue.lower Catalogue.minimal
                    Catalogue.searching)).
    reflexivity.
  - apply (proj2 (name_filter_only_hides Catalogue.lower
                    (antergos.mk_product "" "" "" "" "" "" [] "" [])
                    Catalogue.searching));
      [reflexivity | discriminate].
Defined.

(** X18. With no name filter and an architecture filter that is not
    empty, a row that is not a separator is accepted exactly when
    [get_url] gives a url for it: when it is local or has a variant for
    the selected architecture. *)
Theorem accepted_rows_have_a_url (lower : string -> string)
    (row : antergos.product) (p : ArchFilter.t) :
  ArchFilter._archFilter p <> [] ->
  ArchFilter._nameFilter p = "" ->
  ReleaseVariants.isSeparator row = false ->
  exists p1 p2 : ArchFilter.t,
    ReleaseVariants.get_url row p = Wide.Run (Return (url_for p row)) p1 []
    /\ ReleaseFilter.filterAcceptsRow lower row p
       = Wide.Run
           (Return match url_for p row with Some _ => true | None => false end)
           p2 [].
Proof.
  intros Hfilter Hname Hseparator.
  destruct (get_url_value row p) as (p1 & _ & Hurl).
  destruct (filter_value lower row p) as (p2 & _ & Haccepts).
  exists p1, p2. split; [exact Hurl |].
  rewrite Haccepts, <- (downloadable_has_url row p).
  unfold downloadable. rewrite Hname, Hseparator, len_zero.
  destruct (ArchFilter._archFilter p); [contradiction |].
  cbn [py_len String.length Z.of_nat Z.eqb orb negb andb].
  now rewrite orb_false_r, !andb_true_r.
Qed.

Lemma accepted_rows_have_a_url_witness :
  exists p1 p2 : ArchFilter.t,
    ReleaseVariants.get_url Catalogue.legacy ArchFilter.init
    = Wide.Run (Return (url_for ArchFilter.init Catalogue.legacy)) p1 []
    /\ ReleaseFilter.filterAcceptsRow Catalogue.lower Catalogue.legacy ArchFilter.init
       = Wide.Run
           (Return match url_for ArchFilter.init Catalogue.legacy with
                   | Some _ => true
                   | None => false
                   end)
           p2 [].
Proof.
  apply accepted_rows_have_a_url; [discriminate | reflexivity | reflexivity].
Defined.

(** ** LiveUSBData.fillReleases *)

(** X19. While the current release has a running download or a running
    writer, [fillReleases] returns at once: nothing is changed and
    nothing is emitted, whatever the descriptions at hand. *)
Theorem fillReleases_deferred_while_busy
    (os_path_basename gettext : string -> string)
    (releases : list antergos.product) (c : Catalog.t) (r : Release.t) :
  LiveUSBData.releaseData (Catalog.data c) <> [] ->
  py_getitem (LiveUSBData.releaseData (Catalog.data c))
             (LiveUSBData._currentIndex (Catalog.data c)) = Return r ->
  ReleaseDownload._running (Release._download r)
  || ReleaseWriter._running (Release._writer r) = true ->
  Catalog.fillReleases os_path_basename gettext releases c
  = Wide.Run (Return tt) c [].
Proof.
  intros Hreleases Hcurrent Hbusy.
  unfold Catalog.fillReleases. unfold_wide.
  rewrite len_positive.
  destruct (LiveUSBData.releaseData (Catalog.data c)) as [| r0 rest] eqn:Hdata;
    [contradiction |].
  rewrite Hcurrent. unfold_wide. now rewrite Hbusy.
Qed.

Lemma fillReleases_deferred_while_busy_witness :
  Catalog.fillReleases Catalogue.basename Sample.untranslated
    [Catalogue.full; Catalogue.minimal; Catalogue.custom] Catalogue.busy
  = Wide.Run (Return tt) Catalogue.busy [].
Proof.
  apply (fillReleases_deferred_while_busy Catalogue.basename Sample.untranslated
           [Catalogue.full; Catalogue.minimal; Catalogue.custom] Catalogue.busy
           Sample.fetching);
    [discriminate | reflexivity | reflexivity].
Defined.





(** ** antergos.get_flavors *)

(** X21. [get_flavors] returns the products fetched followed by the
    entry for a local image, which is therefore always last.  It
    replaces the module's list [releases] by that list only when asked
    to store and at least one product was fetched: after a fetch that
    gave nothing, [releases] is what it was. *)
Theorem get_flavors_stores_fetched_products
    (gettext : string -> string) (products releases : list antergos.product)
    (store : bool) :
  fst (antergos.get_flavors gettext products store releases)
  = products ++ [antergos.custom gettext]
  /\ (products = [] ->
      snd (antergos.get_flavors gettext products store releases) = releases)
  /\ (store = false ->
      snd (antergos.get_flavors gettext products store releases) = releases)
  /\ (products <> [] -> store = true ->
      snd (antergos.get_flavors gettext products store releases)
      = products ++ [antergos.custom gettext]).
Proof.
  unfold antergos.get_flavors. cbn [fst snd].
  destruct products as [| d rest].
  - split; [reflexivity |]. split; [| split].
    + intros _. now destruct store.
    + intros ->. reflexivity.
    + intros Hne. now contradiction Hne.
  - cbn [app]. split; [reflexivity |]. split; [discriminate |]. split.
    + intros ->. reflexivity.
    + intros _ ->. cbn [andb].
      assert (Hlen : (Z.of_nat (List.length (d :: rest ++ [antergos.custom gettext])) >? 1)
                     = true).
      { rewrite Z.gtb_ltb. apply Z.ltb_lt. cbn [List.length].
        rewrite length_app. cbn [List.length]. lia. }
      now rewrite Hlen.
Qed.

Lemma get_flavors_stores_fetched_products_witness :
  snd (antergos.get_flavors Sample.untranslated [] true
         [Catalogue.full; Catalogue.custom])
  = [Catalogue.full; Catalogue.custom]
  /\ snd (antergos.get_flavors Sample.untranslated
            [Catalogue.full; Catalogue.minimal] true [])
     = [Catalogue.full; Catalogue.minimal; Catalogue.custom].
Proof.
  split.
  - apply (proj1 (proj2 (get_flavors_stores_fetched_products Sample.untranslated
                            [] [Catalogue.full; Catalogue.custom] true))).
    reflexivity.
  - apply (proj2 (proj2 (proj2 (get_flavors_stores_fetched_products
                                   Sample.untranslated
                                   [Catalogue.full; Catalogue.minimal] [] true))));
      [discriminate | reflexivity].
Defined.

(** ** LiveUSBData.currentImage *)

Lemma py_getitem_from_end {A : Type} (l : list A) (i : Z) :
  - Z.of_nat (List.length l) <= i < 0 ->
  exists a : A,
    nth_error l (Z.to_nat (i + Z.of_nat (List.length l))) = Some a
    /\ py_getitem l i = Return a.
Proof.
  intros Hi. unfold py_getitem.
  destruct (Z.ltb_spec i 0); [| lia].
  destruct (Z.leb_spec 0 (i + Z.of_nat (List.length l))); [| lia].
  destruct (Z.ltb_spec (i + Z.of_nat (List.length l)) (Z.of_nat (List.length l)));
    [| lia].
  simpl.
  destruct (nth_error l (Z.to_nat (i + Z.of_nat (List.length l)))) as [a |] eqn:Hnth.
  - now exists a.
  - apply nth_error_None in Hnth. lia.
Qed.

(** X22. [currentImage] is None when the current index is at or past
    the length of [releaseData]; the release at that index when the
    index is in range, counted from the end when it is negative; and it
    raises IndexError when the index is below minus the length. *)
Theorem currentImage_by_index (s : LiveUSBData.t) :
  (Z.of_nat (List.length (LiveUSBData.releaseData s)) <= LiveUSBData._currentIndex s ->
   Catalog.currentImage s = Return None)
  /\ (0 <= LiveUSBData._currentIndex s
           < Z.of_nat (List.length (LiveUSBData.releaseData s)) ->
      exists r : Release.t,
        nth_error (LiveUSBData.releaseData s)
                  (Z.to_nat (LiveUSBData._currentIndex s)) = Some r
        /\ Catalog.currentImage s = Return (Some r))
  /\ (- Z.of_nat (List.length (LiveUSBData.releaseData s))
        <= LiveUSBData._currentIndex s < 0 ->
      exists r : Release.t,
        nth_error (LiveUSBData.releaseData s)
                  (Z.to_nat (LiveUSBData._currentIndex s
                             + Z.of_nat (List.length (LiveUSBData.releaseData s))))
        = Some r
        /\ Catalog.currentImage s = Return (Some r))
  /\ (LiveUSBData._currentIndex s
        < - Z.of_nat (List.length (LiveUSBData.releaseData s)) ->
      Catalog.currentImage s = Raise IndexError).
Proof.
  unfold Catalog.currentImage.
  split; [| split; [| split]]; intros Hi.
  - destruct (Z.ltb_spec (LiveUSBData._currentIndex s)
                (Z.of_nat (List.length (LiveUSBData.releaseData s))));
      [lia | reflexivity].
  - destruct (py_getitem_in_range (LiveUSBData.releaseData s) _ Hi)
      as (r & Hnth & Hget).
    exists r. split; [exact Hnth |].
    destruct (Z.ltb_spec (LiveUSBData._currentIndex s)
                (Z.of_nat (List.length (LiveUSBData.releaseData s)))); [| lia].
    now rewrite Hget.
  - destruct (py_getitem_from_end (LiveUSBData.releaseData s) _ Hi)
      as (r & Hnth & Hget).
    exists r. split; [exact Hnth |].
    destruct (Z.ltb_spec (LiveUSBData._currentIndex s)
                (Z.of_nat (List.length (LiveUSBData.releaseData s)))); [| lia].
    now rewrite Hget.
  - destruct (Z.ltb_spec (LiveUSBData._currentIndex s)
                (Z.of_nat (List.length (LiveUSBData.releaseData s)))); [| lia].
    now rewrite (py_getitem_before_start _ _ Hi).
Qed.

Lemma currentImage_by_index_witness :
  Catalog.currentImage (Catalog.data Catalogue.busy) = Return (Some Sample.fetching)
  /\ Catalog.currentImage (Catalog.data Catalogue.empty) = Return None.
Proof.
  split.
  - destruct (proj1 (proj2 (currentImage_by_index (Catalog.data Catalogue.busy))))
      as (r & Hnth & Himage).
    + simpl. lia.
    + simpl in Hnth. injection Hnth as <-. exact Himage.
  - apply (proj1 (currentImage_by_index (Catalog.data Catalogue.empty))).
    simpl. lia.
Defined.

(** ** Release.path *)

(** X23. Assigning [path] a file url stores the path without its
    scheme ("file://", on Windows "file:///"): the release is then ready
    to write, a local release takes the size of the image, and nothing
    else changes.  An assignment that leaves an empty path (the empty
    string or the bare scheme) is ignored: the path of a release cannot
    be cleared this way. *)
Theorem path_setter_strips_scheme
    (win : bool) (isosize : Z) (rest : string) (r : Release.t) :
  Release._path r = "" ->
  rest <> "" ->
  (exists t : list Signal,
     ReleaseVariants.path_setter win isosize
       (String.append (if win then "file:///" else "file://") rest) r
     = Wide.Run (Return tt)
         (Release.mk (Release._index r)
            (if Release.isLocal r then isosize else Release._size r)
            (Release._data r) "" (Release._info r) (Release._warning r)
            (Release._error r)
            (ReleaseDownload.set_path rest (Release._download r))
            (Release._writer r))
         t)
  /\ Release.readyToWrite
       (Wide.final
          (ReleaseVariants.path_setter win isosize
             (String.append (if win then "file:///" else "file://") rest) r))
     = true
  /\ ReleaseVariants.path_setter win isosize
       (if win then "file:///" else "file://") r
     = Wide.Run (Return tt) r []
  /\ ReleaseVariants.path_setter win isosize "" r = Wide.Run (Return tt) r [].
Proof.
  intros Hclass Hrest.
  destruct r as [i sz dt p inf wrn err [drun dcur dmax dpath dfin dcancelled] w].
  cbn in Hclass. subst p.
  assert (Hvalue :
            exists t : list Signal,
              ReleaseVariants.path_setter win isosize
                (String.append (if win then "file:///" else "file://") rest)
                (Release.mk i sz dt "" inf wrn err
                   (ReleaseDownload.mk drun dcur dmax dpath dfin dcancelled) w)
              = Wide.Run (Return tt)
                  (Release.mk i
                     (if String.eqb (Release.source dt) "Local" then isosize else sz)
                     dt "" inf wrn err
                     (ReleaseDownload.mk drun dcur dmax rest dfin dcancelled) w)
                  t).
  { destruct rest as [| c rest']; [now contradiction Hrest |].
    assert (Hne : String.eqb "" (String c rest') = false) by reflexivity.
    unfold ReleaseVariants.path_setter, ReleaseVariants.size_setter, core,
      Release.download, within, ReleaseDownload.path_setter, Release.isLocal.
    unfold_wide. unfold_monad.
    destruct win; cbn -[String.eqb Z.eqb]; rewrite Hne; cbn -[String.eqb Z.eqb];
      (destruct (String.eqb_spec dpath (String c rest')) as [-> | Hpath];
       cbn -[String.eqb Z.eqb]);
      (destruct (String.eqb (Release.source dt) "Local");
       cbn -[String.eqb Z.eqb];
       [destruct (Z.eqb_spec sz isosize) as [-> | Hsize]; cbn -[String.eqb Z.eqb] |]);
      now eexists. }
  split; [exact Hvalue |].
  split.
  - destruct Hvalue as [t Hvalue]. rewrite Hvalue.
    unfold Release.readyToWrite, Release.path. cbn. rewrite py_len_zero.
    apply String.eqb_neq in Hrest. now rewrite Hrest.
  - split; destruct win; reflexivity.
Qed.

Lemma path_setter_strips_scheme_witness :
  Release.path
    (Wide.final
       (ReleaseVariants.path_setter false 734003200 "file:///home/user/custom.iso"
          Sample.release1))
  = "/home/user/custom.iso"
  /\ Release._size
       (Wide.final
          (ReleaseVariants.path_setter false 734003200 "file:///home/user/custom.iso"
             Sample.release1))
     = 734003200.
Proof.
  destruct (proj1 (path_setter_strips_scheme false 734003200 "/home/user/custom.iso"
                     Sample.release1 eq_refl ltac:(discriminate)))
    as [t Hvalue].
  cbn [String.append] in Hvalue. rewrite Hvalue. split; reflexivity.
Defined.

(** ** USBDrive.restore and the reconciliation *)

Lemma put_length {A : Type} (l : list A) :
  forall (i : nat) (x : A), List.length (Catalog.put l i x) = List.length l.
Proof.
  induction l as [| y l' IH]; intros [| i'] x; simpl; try reflexivity.
  now rewrite IH.
Qed.

Lemma put_nth_error {A : Type} (l : list A) :
  forall (i : nat) (x y : A),
    nth_error l i = Some y -> nth_error (Catalog.put l i x) i = Some x.
Proof.
  induction l as [| z l' IH]; intros [| i'] x y Hnth; simpl in *;
    try discriminate; try reflexivity.
  exact (IH i' x y Hnth).
Qed.

(** While a restore is running on the drive awaiting one, a pass changes
    nothing and emits nothing. *)
Lemma deferred_while_restoring (format_1f : Z -> Z -> string) (s : LiveUSBData.t) :
  LiveUSBData.restore_in_progress s ->
  final (LiveUSBData.USBDeviceCallback format_1f s) = s
  /\ trace (LiveUSBData.USBDeviceCallback format_1f s) = [].
Proof.
  intros (a & d & Hrestore & Hd & Hbeing).
  unfold LiveUSBData.USBDeviceCallback, LiveUSBData.at_. unfold_monad.
  rewrite Hrestore, len_positive.
  destruct (LiveUSBData._usbDrives s) as [| a0 rest] eqn:Hdrives.
  - rewrite Hd. run_method. rewrite Hbeing. split; reflexivity.
  - destruct (py_getitem (a0 :: rest) (LiveUSBData._currentDrive s))
      as [a1 | e] eqn:Hget; [| split; reflexivity].
    destruct (nth_error (LiveUSBData.store s) a1) as [d1 |] eqn:Hd1;
      [| split; reflexivity].
    rewrite Hd. run_method. rewrite Hbeing. split; reflexivity.
Qed.

(** X24. [restore] on the drive awaiting a restore returns and starts
    the restore of its device; from then on a reconciliation pass
    changes nothing and emits nothing.  Once [restoreCallback] has run
    on the drive, no restore is in progress any more, and a pass that
    finds drives commits them again (usbDrivesChanged is emitted)
    provided the drive list is empty or the selected drive can be
    looked up in it. *)
Theorem restore_defers_reconciliation
    (format_1f : Z -> Z -> string) (s : LiveUSBData.t) (a : nat)
    (d : USBDrive.t) :
  LiveUSBData._driveToRestore s = Some a ->
  nth_error (LiveUSBData.store s) a = Some d ->
  LiveUSBData.allocated s ->
  LiveUSBData.live_drives s <> [] ->
  Catalog.on_drive a USBDrive.restore s
  = Run (Return tt)
        (LiveUSBData.set_store
           (Catalog.put (LiveUSBData.store s) a (USBDrive.set_beingRestored true d)) s)
        [Drive_beingRestoredChanged;
         live_restore_drive (USBDrive.device (USBDrive._drive d))]
  /\ LiveUSBData.USBDeviceCallback format_1f
       (final (Catalog.on_drive a USBDrive.restore s))
     = Run (result (LiveUSBData.USBDeviceCallback format_1f
                      (final (Catalog.on_drive a USBDrive.restore s))))
           (final (Catalog.on_drive a USBDrive.restore s)) []
  /\ ~ LiveUSBData.restore_in_progress
         (final (Catalog.on_drive a USBDrive.restoreCallback
                   (final (Catalog.on_drive a USBDrive.restore s))))
  /\ (LiveUSBData._usbDrives s = []
      \/ (exists (a' : nat) (d' : USBDrive.t),
            py_getitem (LiveUSBData._usbDrives s) (LiveUSBData._currentDrive s)
            = Return a'
            /\ nth_error (LiveUSBData.store s) a' = Some d') ->
      In Data_usbDrivesChanged
         (trace (LiveUSBData.USBDeviceCallback format_1f
                   (final (Catalog.on_drive a USBDrive.restoreCallback
                             (final (Catalog.on_drive a USBDrive.restore s))))))).
Proof.
  intros Hawaiting Hd [Hlist Hpending] Hreported.
  assert (Hrestore :
            Catalog.on_drive a USBDrive.restore s
            = Run (Return tt)
                  (LiveUSBData.set_store
                     (Catalog.put (LiveUSBData.store s) a
                        (USBDrive.set_beingRestored true d)) s)
                  [Drive_beingRestoredChanged;
                   live_restore_drive (USBDrive.device (USBDrive._drive d))]).
  { unfold Catalog.on_drive. rewrite Hd. destruct d as [name drive being].
    reflexivity. }
  rewrite Hrestore. cbn [final].
  set (s1 := LiveUSBData.set_store
               (Catalog.put (LiveUSBData.store s) a
                  (USBDrive.set_beingRestored true d)) s).
  assert (Hd1 : nth_error (LiveUSBData.store s1) a
                = Some (USBDrive.set_beingRestored true d)).
  { subst s1. cbn [LiveUSBData.store LiveUSBData.set_store].
    exact (put_nth_error _ a _ d Hd). }
  assert (Hprogress : LiveUSBData.restore_in_progress s1).
  { exists a, (USBDrive.set_beingRestored true d).
    split; [exact Hawaiting |]. split; [exact Hd1 | reflexivity]. }
  assert (Hcallback :
            Catalog.on_drive a USBDrive.restoreCallback s1
            = Run (Return tt)
                  (LiveUSBData.set_store
                     (Catalog.put (LiveUSBData.store s1) a
                        (USBDrive.set_beingRestored false d)) s1)
                  [Drive_beingRestoredChanged]).
  { unfold Catalog.on_drive. rewrite Hd1. destruct d as [name drive being].
    reflexivity. }
  rewrite Hcallback. cbn [final].
  set (s2 := LiveUSBData.set_store
               (Catalog.put (LiveUSBData.store s1) a
                  (USBDrive.set_beingRestored false d)) s1).
  assert (Hd2 : nth_error (LiveUSBData.store s2) a
                = Some (USBDrive.set_beingRestored false d)).
  { subst s2. cbn [LiveUSBData.store LiveUSBData.set_store].
    exact (put_nth_error _ a _ _ Hd1). }
  assert (Hlength : List.length (LiveUSBData.store s2) = List.length (LiveUSBData.store s)).
  { subst s2 s1. cbn [LiveUSBData.store LiveUSBData.set_store].
    now rewrite !put_length. }
  assert (Hidle : ~ LiveUSBData.restore_in_progress s2).
  { intros (a' & d' & Hawaiting' & Hd' & Hbeing').
    assert (a' = a) by (subst s2 s1; cbn in Hawaiting'; congruence).
    subst a'. rewrite Hd2 in Hd'. injection Hd' as <-.
    destruct d; discriminate Hbeing'. }
  split; [reflexivity |]. split; [| split; [exact Hidle |]].
  - destruct (deferred_while_restoring format_1f s1 Hprogress) as [Hfinal Htrace].
    destruct (LiveUSBData.USBDeviceCallback format_1f s1) as [o s' t].
    cbn in Hfinal, Htrace. now subst.
  - intros Hlookup.
    apply callback_commits_reported_drives; try assumption.
    + split; rewrite Hlength; assumption.
    + destruct Hlookup as [Hempty | (a' & d' & Hget & Hd')]; [now left | right].
      assert (Ha' : (a' < List.length (LiveUSBData.store s2))%nat).
      { rewrite Hlength. apply nth_error_Some. now rewrite Hd'. }
      apply nth_error_Some in Ha'.
      destruct (nth_error (LiveUSBData.store s2) a') as [d2 |] eqn:Hd2';
        [| contradiction].
      exists a', d2. split; [exact Hget | exact Hd2'].
Qed.

Lemma restore_defers_reconciliation_witness :
  LiveUSBData.USBDeviceCallback Sample.whole_1f
    (final (Catalog.on_drive 2 USBDrive.restore Sample.three_drives))
  = Run (Return tt)
        (final (Catalog.on_drive 2 USBDrive.restore Sample.three_drives)) []
  /\ In Data_usbDrivesChanged
        (trace (LiveUSBData.USBDeviceCallback Sample.whole_1f
                  (final (Catalog.on_drive 2 USBDrive.restoreCallback
                            (final (Catalog.on_drive 2 USBDrive.restore
                                      Sample.three_drives)))))).
Proof.
  assert (Hallocated : LiveUSBData.allocated Sample.three_drives).
  { split.
    - intros a Hin. simpl in Hin. simpl. lia.
    - intros a Hsome. simpl in Hsome. injection Hsome as <-. simpl. lia. }
  split; [reflexivity |].
  apply (proj2 (proj2 (proj2
           (restore_defers_reconciliation Sample.whole_1f Sample.three_drives 2
              (USBDrive.mk "Generic Flash Disk (4.0 GB)" Sample.sdd false)
              eq_refl eq_refl Hallocated ltac:(discriminate))))).
  right. exists 0%nat, (USBDrive.mk "SanDisk Cruzer (8.0 GB)" Sample.sdb false).
  split; reflexivity.
Defined.

(** ** USBDeviceCallback: the pass that commits a new drive list *)

(** The setter on an index of a non-empty list (or on -1): it returns,
    stores the index, and leaves the store, the drive list and the drive
    awaiting a restore as they are. *)
Lemma currentDrive_setter_selects (value : Z) (s : LiveUSBData.t) :
  LiveUSBData._usbDrives s <> [] ->
  value = -1 \/ 0 <= value < Z.of_nat (List.length (LiveUSBData._usbDrives s)) ->
  (forall a : nat, In a (LiveUSBData._usbDrives s) ->
                   (a < List.length (LiveUSBData.store s))%nat) ->
  exists (s' : LiveUSBData.t) (t : list Event),
    LiveUSBData.currentDrive_setter value s = Run (Return tt) s' t
    /\ LiveUSBData.store s' = LiveUSBData.store s
    /\ LiveUSBData._usbDrives s' = LiveUSBData._usbDrives s
    /\ LiveUSBData._driveToRestore s' = LiveUSBData._driveToRestore s
    /\ LiveUSBData._currentDrive s' = value.
Proof.
  intros Hne Hvalue Hlist.
  assert (Hlen : 0 < Z.of_nat (List.length (LiveUSBData._usbDrives s))).
  { destruct (LiveUSBData._usbDrives s); [contradiction | simpl; lia]. }
  destruct (py_getitem_selected (LiveUSBData._usbDrives s) value Hne Hvalue)
    as (a & Hin & Hget).
  specialize (Hlist a Hin).
  destruct (nth_error (LiveUSBData.store s) a) as [d |] eqn:Hd;
    [| apply nth_error_None in Hd; lia].
  unfold LiveUSBData.currentDrive_setter, LiveUSBData.at_. unfold_monad.
  destruct (Z.eqb_spec (Z.of_nat (List.length (LiveUSBData._usbDrives s))) 0);
    [lia |].
  destruct (Z.gtb_spec value (Z.of_nat (List.length (LiveUSBData._usbDrives s))));
    [lia |].
  destruct (Z.eqb_spec (LiveUSBData._currentDrive s) value) as [Hsame | Hother].
  - exists s, []. repeat split. exact Hsame.
  - destruct (Z.gtb_spec (Z.of_nat (List.length (LiveUSBData._usbDrives s))) 0);
      [| lia].
    run_method. rewrite Hget. run_method. rewrite Hd. run_method.
    eexists. eexists. split; [reflexivity |]. repeat split.
Qed.

Lemma at_allocated (a : nat) (d : USBDrive.t) (s : LiveUSBData.t) :
  nth_error (LiveUSBData.store s) a = Some d ->
  LiveUSBData.at_ a s = Run (Return d) s [].
Proof.
  intros Hd. unfold LiveUSBData.at_. unfold_monad. now rewrite Hd.
Qed.

(** One turn of the loop, on a drive of the new list. *)
Lemma loop_body_turn (previous : string) (i : Z) (a : nat) (d : USBDrive.t)
    (s : LiveUSBData.t) :
  LiveUSBData._usbDrives s <> [] ->
  (forall a' : nat, In a' (LiveUSBData._usbDrives s) ->
                    (a' < List.length (LiveUSBData.store s))%nat) ->
  0 <= i < Z.of_nat (List.length (LiveUSBData._usbDrives s)) ->
  nth_error (LiveUSBData.store s) a = Some d ->
  exists (s' : LiveUSBData.t) (t : list Event),
    loop_body previous (i, a) s = Run (Return tt) s' t
    /\ LiveUSBData.store s' = LiveUSBData.store s
    /\ LiveUSBData._usbDrives s' = LiveUSBData._usbDrives s
    /\ LiveUSBData._currentDrive s'
       = (if String.eqb (USBDrive.device (USBDrive._drive d)) previous
          then i else LiveUSBData._currentDrive s)
    /\ LiveUSBData._driveToRestore s'
       = (if USBDrive.isIso9660 (USBDrive._drive d)
          then Some a else LiveUSBData._driveToRestore s).
Proof.
  intros Hne Hlist Hi Hd.
  unfold loop_body. cbn [fst snd].
  unfold bind at 1. rewrite (at_allocated a d s Hd).
  assert (Hselect :
            exists (s1 : LiveUSBData.t) (t1 : list Event),
              when (String.eqb (USBDrive.device (USBDrive._drive d)) previous)
                   (LiveUSBData.currentDrive_setter i) s
              = Run (Return tt) s1 t1
              /\ LiveUSBData.store s1 = LiveUSBData.store s
              /\ LiveUSBData._usbDrives s1 = LiveUSBData._usbDrives s
              /\ LiveUSBData._driveToRestore s1 = LiveUSBData._driveToRestore s
              /\ LiveUSBData._currentDrive s1
                 = (if String.eqb (USBDrive.device (USBDrive._drive d)) previous
                    then i else LiveUSBData._currentDrive s)).
  { destruct (String.eqb (USBDrive.device (USBDrive._drive d)) previous).
    - exact (currentDrive_setter_selects i s Hne (or_intror Hi) Hlist).
    - exists s, []. repeat split. }
  destruct Hselect as (s1 & t1 & Hwhen & Hstore & Hdrives & Hawaiting & Hcurrent).
  unfold bind at 1. rewrite Hwhen.
  unfold_monad.
  destruct (USBDrive.isIso9660 (USBDrive._drive d));
    destruct ((LiveUSBData._currentDrive _ =? -1) && _);
    eexists; eexists; (split; [reflexivity |]);
    cbn [LiveUSBData.store LiveUSBData._usbDrives LiveUSBData._currentDrive
         LiveUSBData._driveToRestore LiveUSBData.set_driveToRestore
         LiveUSBData.set_live_drive];
    repeat split; assumption.
Qed.

(** The loop over drives that are all in the store and in the list. *)
Lemma loop_over_drives (previous : string)
    (triples : list ((Z * nat) * USBDrive.DriveInfo)) :
  forall s : LiveUSBData.t,
    LiveUSBData._usbDrives s <> [] ->
    (forall a : nat, In a (LiveUSBData._usbDrives s) ->
                     (a < List.length (LiveUSBData.store s))%nat) ->
    (forall (i : Z) (a : nat) (info : USBDrive.DriveInfo),
       In ((i, a), info) triples ->
       0 <= i < Z.of_nat (List.length (LiveUSBData._usbDrives s))
       /\ exists d : USBDrive.t,
            nth_error (LiveUSBData.store s) a = Some d /\ USBDrive._drive d = info) ->
    exists (s' : LiveUSBData.t) (t : list Event),
      for_each (map fst triples) (loop_body previous) s = Run (Return tt) s' t
      /\ LiveUSBData.store s' = LiveUSBData.store s
      /\ LiveUSBData._usbDrives s' = LiveUSBData._usbDrives s
      /\ LiveUSBData._currentDrive s'
         = fold_left
             (fun cur x =>
                if String.eqb (USBDrive.device (snd x)) previous
                then fst (fst x) else cur)
             triples (LiveUSBData._currentDrive s)
      /\ LiveUSBData._driveToRestore s'
         = fold_left
             (fun awaiting x =>
                if USBDrive.isIso9660 (snd x) then Some (snd (fst x)) else awaiting)
             triples (LiveUSBData._driveToRestore s).
Proof.
  induction triples as [| [[i a] info] rest IH]; intros s Hne Hlist Hall.
  - exists s, []. repeat split.
  - destruct (Hall i a info (or_introl eq_refl)) as (Hi & d & Hd & Hinfo).
    destruct (loop_body_turn previous i a d s Hne Hlist Hi Hd)
      as (s1 & t1 & Hturn & Hstore & Hdrives & Hcurrent & Hawaiting).
    rewrite Hinfo in Hcurrent, Hawaiting.
    destruct (IH s1) as (s2 & t2 & Hloop & Hstore2 & Hdrives2 & Hcurrent2 & Hawaiting2).
    + now rewrite Hdrives.
    + rewrite Hdrives, Hstore. exact Hlist.
    + intros i' a' info' Hin. rewrite Hdrives, Hstore.
      apply Hall. now right.
    + exists s2, (t1 ++ t2).
      cbn [map fst for_each fold_left snd]. unfold bind. rewrite Hturn, Hloop.
      split; [reflexivity |].
      split; [congruence |]. split; [congruence |].
      split; [now rewrite Hcurrent2, Hcurrent | now rewrite Hawaiting2, Hawaiting].
Qed.

Lemma numbered_enumerates (infos : list USBDrive.DriveInfo) :
  forall index address : nat,
    map fst (numbered index address infos)
    = combine (map Z.of_nat (seq index (List.length infos)))
              (seq address (List.length infos)).
Proof.
  induction infos as [| info rest IH]; intros index address; [reflexivity |].
  cbn [numbered map fst List.length seq combine]. now rewrite IH.
Qed.

Lemma numbered_in (infos : list USBDrive.DriveInfo) :
  forall (index address : nat) (i : Z) (a : nat) (info : USBDrive.DriveInfo),
    In ((i, a), info) (numbered index address infos) ->
    exists k : nat,
      nth_error infos k = Some info
      /\ i = Z.of_nat (index + k) /\ a = (address + k)%nat.
Proof.
  induction infos as [| info0 rest IH]; intros index address i a info Hin;
    [contradiction |].
  cbn [numbered] in Hin. destruct Hin as [Hhead | Htail].
  - injection Hhead as <- <- <-. exists 0%nat.
    repeat split; f_equal; lia.
  - destruct (IH _ _ _ _ _ Htail) as (k & Hnth & -> & ->).
    exists (S k). repeat split; [exact Hnth | f_equal; lia | lia].
Qed.

(** The fold of the selected index: the index of the last drive with
    the device selected before, the start value when there is none. *)
Lemma last_match_index (previous : string) (infos : list USBDrive.DriveInfo) :
  forall (index address : nat) (cur : Z),
    ((forall info : USBDrive.DriveInfo,
        In info infos -> USBDrive.device info <> previous) ->
     fold_left
       (fun cur x =>
          if String.eqb (USBDrive.device (snd x)) previous then fst (fst x) else cur)
       (numbered index address infos) cur = cur)
    /\ (forall (k : nat) (info : USBDrive.DriveInfo),
          nth_error infos k = Some info ->
          USBDrive.device info = previous ->
          (forall (j : nat) (info' : USBDrive.DriveInfo),
             (k < j)%nat -> nth_error infos j = Some info' ->
             USBDrive.device info' <> previous) ->
          fold_left
            (fun cur x =>
               if String.eqb (USBDrive.device (snd x)) previous then fst (fst x) else cur)
            (numbered index address infos) cur = Z.of_nat (index + k)).
Proof.
  induction infos as [| info0 rest IH]; intros index address cur.
  - split; [reflexivity |]. intros [| k] info Hnth; discriminate Hnth.
  - cbn [numbered fold_left fst snd].
    split.
    + intros Hnone.
      destruct (String.eqb_spec (USBDrive.device info0) previous) as [Hsame | _].
      * now contradiction (Hnone info0 (or_introl eq_refl)).
      * apply (proj1 (IH _ _ _)). intros info Hin. apply Hnone. now right.
    + intros [| k] info Hnth Hdevice Hlater.
      * injection Hnth as ->. rewrite Hdevice, String.eqb_refl.
        rewrite (proj1 (IH _ _ _)); [f_equal; lia |].
        intros info' Hin. apply In_nth_error in Hin. destruct Hin as [j Hj].
        apply (Hlater (S j) info'); [lia | exact Hj].
      * rewrite (proj2 (IH (S index) (S address) _) k info Hnth Hdevice);
          [f_equal; lia |].
        intros j info' Hkj Hj. apply (Hlater (S j) info'); [lia | exact Hj].
Qed.

(** The fold of the drive awaiting a restore: the address of the last
    drive that looks written, the start value when there is none. *)
Lemma last_match_address (infos : list USBDrive.DriveInfo) :
  forall (index address : nat) (awaiting : option nat),
    ((forall info : USBDrive.DriveInfo,
        In info infos -> USBDrive.isIso9660 info = false) ->
     fold_left
       (fun awaiting x =>
          if USBDrive.isIso9660 (snd x) then Some (snd (fst x)) else awaiting)
       (numbered index address infos) awaiting = awaiting)
    /\ (forall (k : nat) (info : USBDrive.DriveInfo),
          nth_error infos k = Some info ->
          USBDrive.isIso9660 info = true ->
          (forall (j : nat) (info' : USBDrive.DriveInfo),
             (k < j)%nat -> nth_error infos j = Some info' ->
             USBDrive.isIso9660 info' = false) ->
          fold_left
            (fun awaiting x =>
               if USBDrive.isIso9660 (snd x) then Some (snd (fst x)) else awaiting)
            (numbered index address infos) awaiting = Some (address + k)%nat).
Proof.
  induction infos as [| info0 rest IH]; intros index address awaiting.
  - split; [reflexivity |]. intros [| k] info Hnth; discriminate Hnth.
  - cbn [numbered fold_left fst snd].
    split.
    + intros Hnone. rewrite (Hnone info0 (or_introl eq_refl)).
      apply (proj1 (IH _ _ _)). intros info Hin. apply Hnone. now right.
    + intros [| k] info Hnth Hiso Hlater.
      * injection Hnth as ->. rewrite Hiso.
        rewrite (proj1 (IH _ _ _)); [f_equal; lia |].
        intros info' Hin. apply In_nth_error in Hin. destruct Hin as [j Hj].
        apply (Hlater (S j) info'); [lia | exact Hj].
      * rewrite (proj2 (IH (S index) (S address) _) k info Hnth Hiso);
          [f_equal; lia |].
        intros j info' Hkj Hj. apply (Hlater (S j) info'); [lia | exact Hj].
Qed.

Lemma py_getitem_nil {A : Type} (i : Z) : py_getitem (@nil A) i = Raise IndexError.
Proof.
  unfold py_getitem. cbn [List.length Z.of_nat].
  destruct (i <? 0); rewrite ?Z.add_0_r.
  - destruct (Z.leb_spec 0 i), (Z.ltb_spec i 0); try reflexivity; lia.
  - destruct (Z.leb_spec 0 i), (Z.ltb_spec i 0); try reflexivity; lia.
Qed.

Lemma bind_run {S A B : Type} (m : M S A) (k : A -> M S B)
    (s s1 : S) (a : A) (t1 : list Event) :
  m s = Run (Return a) s1 t1 ->
  bind m k s
  = match k a s1 with
    | Run o s2 t2 => Run o s2 (t1 ++ t2)
    end.
Proof. intros Hm. unfold bind. now rewrite Hm. Qed.

(** A pass that finds drives while no restore is running: it returns,
    the store gains the objects created, the drive list holds their
    addresses, and the selected index and the drive awaiting a restore
    are what the loop over the new list computes from -1 and None. *)
Lemma committed_pass (format_1f : Z -> Z -> string) (previous : string)
    (s : LiveUSBData.t) :
  LiveUSBData.allocated s ->
  ~ LiveUSBData.restore_in_progress s ->
  LiveUSBData.live_drives s <> [] ->
  (LiveUSBData._usbDrives s = [] /\ previous = ""
   \/ exists (a : nat) (d : USBDrive.t),
        py_getitem (LiveUSBData._usbDrives s) (LiveUSBData._currentDrive s) = Return a
        /\ nth_error (LiveUSBData.store s) a = Some d
        /\ USBDrive.device (USBDrive._drive d) = previous) ->
  exists (s' : LiveUSBData.t) (t : list Event),
    LiveUSBData.USBDeviceCallback format_1f s = Run (Return tt) s' t
    /\ LiveUSBData.store s'
       = LiveUSBData.store s ++ created format_1f (LiveUSBData.live_drives s)
    /\ LiveUSBData._usbDrives s'
       = seq (List.length (LiveUSBData.store s))
             (List.length (LiveUSBData.live_drives s))
    /\ LiveUSBData._currentDrive s'
       = fold_left
           (fun cur x =>
              if String.eqb (USBDrive.device (snd x)) previous
              then fst (fst x) else cur)
           (numbered 0 (List.length (LiveUSBData.store s))
              (map snd (LiveUSBData.live_drives s)))
           (-1)
    /\ LiveUSBData._driveToRestore s'
       = fold_left
           (fun awaiting x =>
              if USBDrive.isIso9660 (snd x) then Some (snd (fst x)) else awaiting)
           (numbered 0 (List.length (LiveUSBData.store s))
              (map snd (LiveUSBData.live_drives s)))
           None.
Proof.
  intros [Hlist Hpending] Hidle Hreported Hprevious.
  change (LiveUSBData.USBDeviceCallback format_1f s)
    with ((s0 <- self ;;
           previouslySelected <-
             (if Z.of_nat (List.length (LiveUSBData._usbDrives s0)) >? 0
              then
                a <- lift (py_getitem (LiveUSBData._usbDrives s0)
                             (LiveUSBData._currentDrive s0)) ;;
                d <- LiveUSBData.at_ a ;;
                ret (USBDrive.device (USBDrive._drive d))
              else ret "") ;;
           restoring <-
             match LiveUSBData._driveToRestore s0 with
             | None => ret false
             | Some a => d <- LiveUSBData.at_ a ;; ret (USBDrive._beingRestored d)
             end ;;
           if restoring then ret tt
           else
             tmpDrives <- LiveUSBData.candidates format_1f (LiveUSBData.live_drives s0) ;;
             when (negb (LiveUSBData.same_objects tmpDrives (LiveUSBData._usbDrives s0)))
               (assign (LiveUSBData.set_usbDrives tmpDrives) ;;
                emit Data_usbDrivesChanged ;;
                assign (LiveUSBData.set_driveToRestore None) ;;
                LiveUSBData.currentDrive_setter (-1) ;;
                s1 <- self ;;
                for_each (LiveUSBData.enumerate (LiveUSBData._usbDrives s1))
                  (loop_body previouslySelected) ;;
                emit Data_currentDriveChanged ;;
                emit Data_driveToRestoreChanged)) s).
  rewrite (bind_run _ _ s s s [] eq_refl).
  assert (Hselected :
            (if Z.of_nat (List.length (LiveUSBData._usbDrives s)) >? 0
             then
               a <- lift (py_getitem (LiveUSBData._usbDrives s)
                            (LiveUSBData._currentDrive s)) ;;
               d <- LiveUSBData.at_ a ;;
               ret (USBDrive.device (USBDrive._drive d))
             else ret "") s
            = Run (Return previous) s []).
  { rewrite len_positive.
    destruct Hprevious as [[Hempty ->] | (a & d & Hget & Hd & Hdevice)].
    - now rewrite Hempty.
    - destruct (LiveUSBData._usbDrives s) as [| a0 rest] eqn:Hdrives;
        [rewrite py_getitem_nil in Hget; discriminate Hget |].
      unfold LiveUSBData.at_. unfold_monad.
      rewrite Hget. cbv beta iota. rewrite Hd. now rewrite Hdevice. }
  rewrite (bind_run _ _ s s previous [] Hselected).
  assert (Hrestoring :
            match LiveUSBData._driveToRestore s with
            | None => ret false
            | Some a => d <- LiveUSBData.at_ a ;; ret (USBDrive._beingRestored d)
            end s = Run (Return false) s []).
  { destruct (LiveUSBData._driveToRestore s) as [a |] eqn:Hawaiting;
      [| reflexivity].
    specialize (Hpending a eq_refl).
    destruct (nth_error (LiveUSBData.store s) a) as [d |] eqn:Hd;
      [| apply nth_error_None in Hd; lia].
    unfold LiveUSBData.at_. unfold_monad. rewrite Hd.
    destruct (USBDrive._beingRestored d) eqn:Hbeing; [| reflexivity].
    exfalso. apply Hidle. exists a, d. repeat split; assumption. }
  rewrite (bind_run _ _ s s false [] Hrestoring).
  rewrite (bind_run _ _ s _ _ [] (candidates_are_new format_1f _ s)).
  fold (created format_1f (LiveUSBData.live_drives s)).
  cbn [LiveUSBData._usbDrives LiveUSBData.set_store].
  destruct (LiveUSBData.same_objects
              (seq (List.length (LiveUSBData.store s))
                   (List.length (LiveUSBData.live_drives s)))
              (LiveUSBData._usbDrives s)) eqn:Hsame.
  { apply new_objects_differ in Hsame; [| exact Hlist].
    destruct Hsame as [Hnone _].
    destruct (LiveUSBData.live_drives s); [contradiction | discriminate]. }
  unfold when at 1. cbn [negb].
  unfold bind at 1. unfold assign at 1.
  unfold bind at 1. unfold emit at 1.
  unfold bind at 1. unfold assign at 1.
  set (n := List.length (LiveUSBData.store s)) in *.
  set (items := LiveUSBData.live_drives s) in *.
  set (k := List.length items) in *.
  set (sA := LiveUSBData.set_driveToRestore None
               (LiveUSBData.set_usbDrives (seq n k)
                  (LiveUSBData.set_store
                     (LiveUSBData.store s ++ created format_1f items) s))).
  assert (Hk : (0 < k)%nat).
  { subst k. destruct items; [contradiction | simpl; lia]. }
  assert (HneA : seq n k <> []).
  { destruct k; [lia | discriminate]. }
  assert (Hcreated : List.length (created format_1f items) = k).
  { unfold created. now rewrite length_map. }
  assert (HlistA : forall a : nat,
             In a (seq n k) ->
             (a < List.length (LiveUSBData.store s ++ created format_1f items))%nat).
  { intros a Hin. apply in_seq in Hin. rewrite length_app, Hcreated. fold n. lia. }
  destruct (currentDrive_setter_selects (-1) sA HneA (or_introl eq_refl) HlistA)
    as (sB & tB & HsetB & HstoreB & HdrivesB & HawaitingB & HcurrentB).
  rewrite (bind_run (LiveUSBData.currentDrive_setter (-1)) _ sA sB tt tB HsetB).
  rewrite (bind_run self _ sB sB sB [] eq_refl).
  cbn [LiveUSBData.store LiveUSBData._usbDrives LiveUSBData._driveToRestore
       LiveUSBData.set_driveToRestore LiveUSBData.set_usbDrives
       LiveUSBData.set_store sA] in HstoreB, HdrivesB, HawaitingB.
  rewrite HdrivesB. unfold LiveUSBData.enumerate.
  rewrite length_seq.
  assert (Hinfos : List.length (map snd items) = k) by (now rewrite length_map).
  replace (combine (map Z.of_nat (seq 0 k)) (seq n k))
    with (map fst (numbered 0 n (map snd items)))
    by (now rewrite numbered_enumerates, Hinfos).
  destruct (loop_over_drives previous (numbered 0 n (map snd items)) sB)
    as (sC & tC & Hloop & HstoreC & HdrivesC & HcurrentC & HawaitingC).
  { now rewrite HdrivesB. }
  { rewrite HdrivesB, HstoreB. exact HlistA. }
  { intros i a info Hin.
    destruct (numbered_in _ _ _ _ _ _ Hin) as (j & Hj & -> & ->).
    assert (Hjk : (j < k)%nat).
    { rewrite <- Hinfos. apply nth_error_Some. rewrite Hj. discriminate. }
    rewrite HdrivesB, HstoreB, length_seq. split; [lia |].
    rewrite nth_error_map in Hj.
    destruct (nth_error items j) as [item |] eqn:Hitem; [| discriminate Hj].
    cbn [option_map] in Hj. injection Hj as Hinfo.
    exists (USBDrive.mk (LiveUSBData.drive_name format_1f (snd item)) (snd item) false).
    split; [| exact Hinfo].
    rewrite nth_error_app2 by (fold n; lia).
    replace (n + j - List.length (LiveUSBData.store s))%nat with j by (fold n; lia).
    unfold created. now rewrite nth_error_map, Hitem. }
  rewrite (bind_run (for_each _ _) _ sB sC tt tC Hloop).
  unfold bind, emit.
  eexists. eexists. split; [reflexivity |].
  rewrite HstoreC, HdrivesC, HcurrentC, HawaitingC, HcurrentB, HawaitingB.
  repeat split; assumption.
Qed.

Lemma listed_created {A B : Type} (g : A -> B) (news : list A) :
  forall olds : list A,
    map (fun a => option_map g (nth_error (olds ++ news) a))
        (seq (List.length olds) (List.length news))
    = map (fun x => Some (g x)) news.
Proof.
  induction news as [| x rest IH]; intros olds; [reflexivity |].
  cbn [List.length seq map]. f_equal.
  - rewrite nth_error_app2 by lia. now rewrite Nat.sub_diag.
  - specialize (IH (olds ++ [x])).
    rewrite <- app_assoc, length_app in IH. cbn [List.length app] in IH.
    replace (List.length olds + 1)%nat with (S (List.length olds)) in IH by lia.
    exact IH.
Qed.

Lemma selected_index_in_range (previous : string)
    (infos : list USBDrive.DriveInfo) :
  forall (index address : nat) (cur : Z),
    fold_left
      (fun cur x =>
         if String.eqb (USBDrive.device (snd x)) previous then fst (fst x) else cur)
      (numbered index address infos) cur = cur
    \/ Z.of_nat index
       <= fold_left
            (fun cur x =>
               if String.eqb (USBDrive.device (snd x)) previous
               then fst (fst x) else cur)
            (numbered index address infos) cur
       < Z.of_nat (index + List.length infos).
Proof.
  induction infos as [| info rest IH]; intros index address cur; [now left |].
  cbn [numbered fold_left fst snd List.length].
  destruct (String.eqb (USBDrive.device info) previous).
  - right. destruct (IH (S index) (S address) (Z.of_nat index)) as [-> | Hrange]; lia.
  - destruct (IH (S index) (S address) cur) as [-> | Hrange]; [now left | right; lia].
Qed.

(** X25. A pass that finds drives while no restore is running returns
    and commits them: the drive list shows, in the order reported, each
    drive with its name and description.  The selection follows the
    device selected before the pass: the new index is that of the last
    drive reported with this device, and -1 when no drive reported has
    it.  The selected index is then -1 or an index of the list. *)
Theorem pass_follows_selected_device
    (format_1f : Z -> Z -> string) (previous : string) (s : LiveUSBData.t) :
  LiveUSBData.allocated s ->
  ~ LiveUSBData.restore_in_progress s ->
  LiveUSBData.live_drives s <> [] ->
  (LiveUSBData._usbDrives s = [] /\ previous = ""
   \/ exists (a : nat) (d : USBDrive.t),
        py_getitem (LiveUSBData._usbDrives s) (LiveUSBData._currentDrive s) = Return a
        /\ nth_error (LiveUSBData.store s) a = Some d
        /\ USBDrive.device (USBDrive._drive d) = previous) ->
  result (LiveUSBData.USBDeviceCallback format_1f s) = Return tt
  /\ LiveUSBData.listed (final (LiveUSBData.USBDeviceCallback format_1f s))
     = map (fun item => Some (LiveUSBData.drive_name format_1f (snd item), snd item))
           (LiveUSBData.live_drives s)
  /\ ((forall item : string * USBDrive.DriveInfo,
         In item (LiveUSBData.live_drives s) ->
         USBDrive.device (snd item) <> previous) ->
      LiveUSBData._currentDrive (final (LiveUSBData.USBDeviceCallback format_1f s))
      = -1)
  /\ (forall (k : nat) (item : string * USBDrive.DriveInfo),
        nth_error (LiveUSBData.live_drives s) k = Some item ->
        USBDrive.device (snd item) = previous ->
        (forall (j : nat) (item' : string * USBDrive.DriveInfo),
           (k < j)%nat ->
           nth_error (LiveUSBData.live_drives s) j = Some item' ->
           USBDrive.device (snd item') <> previous) ->
        LiveUSBData._currentDrive (final (LiveUSBData.USBDeviceCallback format_1f s))
        = Z.of_nat k)
  /\ LiveUSBData.selection_valid
       (final (LiveUSBData.USBDeviceCallback format_1f s)).
Proof.
  intros Hallocated Hidle Hreported Hprevious.
  destruct (committed_pass format_1f previous s Hallocated Hidle Hreported Hprevious)
    as (s' & t & Hpass & Hstore & Hdrives & Hcurrent & _).
  rewrite Hpass. cbn [result final].
  split; [reflexivity |]. split; [| split; [| split]].
  - unfold LiveUSBData.listed. rewrite Hstore, Hdrives.
    unfold created.
    rewrite <- (length_map (fun item =>
                              USBDrive.mk (LiveUSBData.drive_name format_1f (snd item))
                                          (snd item) false)
                           (LiveUSBData.live_drives s)).
    rewrite (listed_created (fun d => (USBDrive._name d, USBDrive._drive d))).
    now rewrite map_map.
  - intros Hnone. rewrite Hcurrent.
    apply (proj1 (last_match_index previous _ 0 _ (-1))).
    intros info Hin. apply in_map_iff in Hin.
    destruct Hin as (item & <- & Hitem). now apply Hnone.
  - intros k item Hitem Hdevice Hlater. rewrite Hcurrent.
    rewrite (proj2 (last_match_index previous _ 0 _ (-1)) k (snd item));
      [reflexivity | now rewrite nth_error_map, Hitem | exact Hdevice |].
    intros j info' Hkj Hj. rewrite nth_error_map in Hj.
    destruct (nth_error (LiveUSBData.live_drives s) j) as [item' |] eqn:Hitem';
      [| discriminate Hj].
    injection Hj as <-. exact (Hlater j item' Hkj Hitem').
  - unfold LiveUSBData.selection_valid. rewrite Hcurrent, Hdrives, length_seq.
    destruct (selected_index_in_range previous
                (map snd (LiveUSBData.live_drives s)) 0
                (List.length (LiveUSBData.store s)) (-1)) as [-> | Hrange].
    + now left.
    + right. rewrite length_map in Hrange. cbn [Nat.add] in Hrange. lia.
Qed.

Lemma pass_follows_selected_device_witness :
  LiveUSBData._currentDrive
    (final (LiveUSBData.USBDeviceCallback Sample.whole_1f
              (LiveUSBData.set_currentDrive 1 Sample.three_drives)))
  = 1.
Proof.
  assert (Hallocated : LiveUSBData.allocated
                         (LiveUSBData.set_currentDrive 1 Sample.three_drives)).
  { split.
    - intros a Hin. simpl in Hin. simpl. lia.
    - intros a Hsome. simpl in Hsome. injection Hsome as <-. simpl. lia. }
  assert (Hidle : ~ LiveUSBData.restore_in_progress
                      (LiveUSBData.set_currentDrive 1 Sample.three_drives)).
  { intros (a & d & Hawaiting & Hd & Hbeing).
    simpl in Hawaiting. injection Hawaiting as <-.
    simpl in Hd. injection Hd as <-. discriminate Hbeing. }
  apply (proj1 (proj2 (proj2 (proj2
           (pass_follows_selected_device Sample.whole_1f "/dev/sdc"
              (LiveUSBData.set_currentDrive 1 Sample.three_drives)
              Hallocated Hidle ltac:(discriminate)
              (or_intror
                 (ex_intro _ 1%nat
                    (ex_intro _
                       (USBDrive.mk "Kingston DataTraveler (16.0 GB)" Sample.sdc false)
                       (conj eq_refl (conj eq_refl eq_refl))))))))))
    with (k := 1%nat) (item := ("/dev/sdc", Sample.sdc)).
  - reflexivity.
  - reflexivity.
  - intros [| [| [| j]]] item' Hkj Hj; try lia.
    + simpl in Hj. injection Hj as <-. discriminate.
    + destruct j; discriminate Hj.
Defined.

Lemma selected_device_exists (s : LiveUSBData.t) :
  (LiveUSBData._usbDrives s = []
   \/ exists (a : nat) (d : USBDrive.t),
        py_getitem (LiveUSBData._usbDrives s) (LiveUSBData._currentDrive s) = Return a
        /\ nth_error (LiveUSBData.store s) a = Some d) ->
  exists previous : string,
    LiveUSBData._usbDrives s = [] /\ previous = ""
    \/ exists (a : nat) (d : USBDrive.t),
         py_getitem (LiveUSBData._usbDrives s) (LiveUSBData._currentDrive s) = Return a
         /\ nth_error (LiveUSBData.store s) a = Some d
         /\ USBDrive.device (USBDrive._drive d) = previous.
Proof.
  intros [Hempty | (a & d & Hget & Hd)].
  - exists "". now left.
  - exists (USBDrive.device (USBDrive._drive d)). right. now exists a, d.
Qed.

(** X26. After a pass that finds drives while no restore is running
    and the drive list is empty or the selected drive can be looked up
    in it, the drive awaiting a restore is the last drive reported that
    carries an ISO 9660 file system: it is the object listed at that
    drive's position, it describes that drive and it is not being
    restored.  When no drive reported carries such a file system, no
    drive awaits a restore. *)
Theorem pass_offers_restore_of_last_written
    (format_1f : Z -> Z -> string) (s : LiveUSBData.t) :
  LiveUSBData.allocated s ->
  (LiveUSBData._usbDrives s = []
   \/ exists (a : nat) (d : USBDrive.t),
        py_getitem (LiveUSBData._usbDrives s) (LiveUSBData._currentDrive s) = Return a
        /\ nth_error (LiveUSBData.store s) a = Some d) ->
  ~ LiveUSBData.restore_in_progress s ->
  LiveUSBData.live_drives s <> [] ->
  ((forall item : string * USBDrive.DriveInfo,
      In item (LiveUSBData.live_drives s) ->
      USBDrive.isIso9660 (snd item) = false) ->
   LiveUSBData._driveToRestore (final (LiveUSBData.USBDeviceCallback format_1f s))
   = None)
  /\ (forall (k : nat) (item : string * USBDrive.DriveInfo),
        nth_error (LiveUSBData.live_drives s) k = Some item ->
        USBDrive.isIso9660 (snd item) = true ->
        (forall (j : nat) (item' : string * USBDrive.DriveInfo),
           (k < j)%nat ->
           nth_error (LiveUSBData.live_drives s) j = Some item' ->
           USBDrive.isIso9660 (snd item') = false) ->
        exists (a : nat) (d : USBDrive.t),
          LiveUSBData._driveToRestore
            (final (LiveUSBData.USBDeviceCallback format_1f s)) = Some a
          /\ nth_error
               (LiveUSBData._usbDrives
                  (final (LiveUSBData.USBDeviceCallback format_1f s))) k = Some a
          /\ nth_error
               (LiveUSBData.store
                  (final (LiveUSBData.USBDeviceCallback format_1f s))) a = Some d
          /\ USBDrive._drive d = snd item
          /\ USBDrive._beingRestored d = false).
Proof.
  intros Hallocated Hlookup Hidle Hreported.
  destruct (selected_device_exists s Hlookup) as [previous Hprevious].
  destruct (committed_pass format_1f previous s Hallocated Hidle Hreported Hprevious)
    as (s' & t & Hpass & Hstore & Hdrives & _ & Hawaiting).
  rewrite Hpass. cbn [final]. split.
  - intros Hnone. rewrite Hawaiting.
    apply (proj1 (last_match_address _ 0 _ None)).
    intros info Hin. apply in_map_iff in Hin.
    destruct Hin as (item & <- & Hitem). now apply Hnone.
  - intros k item Hitem Hiso Hlater.
    exists (List.length (LiveUSBData.store s) + k)%nat,
           (USBDrive.mk (LiveUSBData.drive_name format_1f (snd item)) (snd item) false).
    split; [| split; [| split; [| split; reflexivity]]].
    + rewrite Hawaiting.
      apply (proj2 (last_match_address _ 0 _ None) k (snd item));
        [now rewrite nth_error_map, Hitem | exact Hiso |].
      intros j info' Hkj Hj. rewrite nth_error_map in Hj.
      destruct (nth_error (LiveUSBData.live_drives s) j) as [item' |] eqn:Hitem';
        [| discriminate Hj].
      injection Hj as <-. exact (Hlater j item' Hkj Hitem').
    + rewrite Hdrives.
      assert (Hk : (k < List.length (LiveUSBData.live_drives s))%nat)
        by (apply nth_error_Some; now rewrite Hitem).
      rewrite nth_error_seq.
      destruct (Nat.ltb_spec k (List.length (LiveUSBData.live_drives s)));
        [reflexivity | lia].
    + rewrite Hstore, nth_error_app2 by lia.
      replace (List.length (LiveUSBData.store s) + k
               - List.length (LiveUSBData.store s))%nat with k by lia.
      unfold created. now rewrite nth_error_map, Hitem.
Qed.

Lemma pass_offers_restore_of_last_written_witness :
  LiveUSBData._driveToRestore
    (final (LiveUSBData.USBDeviceCallback Sample.whole_1f Sample.three_drives))
  = Some 5%nat.
Proof.
  assert (Hallocated : LiveUSBData.allocated Sample.three_drives).
  { split.
    - intros a Hin. simpl in Hin. simpl. lia.
    - intros a Hsome. simpl in Hsome. injection Hsome as <-. simpl. lia. }
  assert (Hidle : ~ LiveUSBData.restore_in_progress Sample.three_drives).
  { intros (a & d & Hawaiting & Hd & Hbeing).
    simpl in Hawaiting. injection Hawaiting as <-.
    simpl in Hd. injection Hd as <-. discriminate Hbeing. }
  assert (Hlookup :
            LiveUSBData._usbDrives Sample.three_drives = []
            \/ exists (a : nat) (d : USBDrive.t),
                 py_getitem (LiveUSBData._usbDrives Sample.three_drives)
                            (LiveUSBData._currentDrive Sample.three_drives)
                 = Return a
                 /\ nth_error (LiveUSBData.store Sample.three_drives) a = Some d).
  { right. exists 0%nat, (USBDrive.mk "SanDisk Cruzer (8.0 GB)" Sample.sdb false).
    split; reflexivity. }
  destruct (proj2 (pass_offers_restore_of_last_written Sample.whole_1f
                     Sample.three_drives Hallocated Hlookup
                     Hidle ltac:(discriminate))
                  2%nat ("/dev/sdd", Sample.sdd) eq_refl eq_refl)
    as (a & d & Hawaiting & Hlisted & _).
  - intros [| [| [| j]]] item' Hkj Hj; try lia.
    destruct j; discriminate Hj.
  - rewrite Hawaiting. f_equal.
    vm_compute in Hlisted. now injection Hlisted as <-.
Defined.

(** X27. With a non-empty drive list and a selected index that is
    neither an index of the list nor a negative index counted from its
    end, a device pass raises IndexError on the lookup of the selected
    drive: it commits no drive, changes nothing and notifies nobody,
    whatever is plugged in.  The setter leaves such an index behind when
    it is given the length of the list. *)
Theorem pass_raises_on_stale_selection
    (format_1f : Z -> Z -> string) (s : LiveUSBData.t) :
  LiveUSBData._usbDrives s <> [] ->
  (LiveUSBData._currentDrive s < - Z.of_nat (List.length (LiveUSBData._usbDrives s))
   \/ Z.of_nat (List.length (LiveUSBData._usbDrives s)) <= LiveUSBData._currentDrive s) ->
  LiveUSBData.USBDeviceCallback format_1f s = Run (Raise IndexError) s [].
Proof.
  intros Hne Hstale.
  assert (Hlen : 0 < Z.of_nat (List.length (LiveUSBData._usbDrives s))).
  { destruct (LiveUSBData._usbDrives s); [contradiction | simpl; lia]. }
  assert (Hget : py_getitem (LiveUSBData._usbDrives s) (LiveUSBData._currentDrive s)
                 = Raise IndexError).
  { destruct Hstale as [Hbelow | Habove];
      [now apply py_getitem_before_start | now apply py_getitem_past_end]. }
  unfold LiveUSBData.USBDeviceCallback.
  unfold bind at 1. unfold self at 1. cbv beta iota.
  destruct (Z.gtb_spec (Z.of_nat (List.length (LiveUSBData._usbDrives s))) 0);
    [| lia].
  unfold bind at 1. unfold bind at 1. unfold lift at 1.
  rewrite Hget. reflexivity.
Qed.

Lemma pass_raises_on_stale_selection_witness :
  LiveUSBData._currentDrive
    (final (LiveUSBData.currentDrive_setter 3 Sample.three_drives)) = 3
  /\ result
       (LiveUSBData.USBDeviceCallback Sample.whole_1f
          (final (LiveUSBData.currentDrive_setter 3 Sample.three_drives)))
     = Raise IndexError.
Proof.
  split; [reflexivity |].
  rewrite (pass_raises_on_stale_selection Sample.whole_1f
             (final (LiveUSBData.currentDrive_setter 3 Sample.three_drives))).
  - reflexivity.
  - discriminate.
  - right. vm_compute. discriminate.
Defined.
